(** * The auction subsystem of the municipal flag backend

    A shallow embedding of [routers/auctions.py] together with the parts of
    [models.py] and [schemas.py] it relies on, and the properties of the
    auction engine stated over it.

    Conventions of the embedding
    - a [Numeric(18, 8)] column and a request [Decimal] are held exactly, as
      the integer number of 10^-8 units ([Decimal]);
    - [datetime] values are integers (microseconds);
    - [float] is IEEE-754 binary64, through the Standard Library's
      [SpecFloat] specification;
    - strings are ASCII;
    - a table is the list of its rows in insertion order; a query with
      [.first()] is [find], a write through a fetched row rewrites the rows
      with its primary key;
    - a handler is a function from the database to an outcome and the
      database it leaves committed ([M]); requests are served one at a
      time. *)

From Stdlib Require Import ZArith List Bool String Ascii Lia Permutation Sorted.
From Stdlib Require Import Floats.SpecFloat.
Import ListNotations.

Local Open Scope string_scope.
Local Open Scope Z_scope.

Set Implicit Arguments.

(* ================================================================== *)
(** * models.py: enumerations and rows *)
(* ================================================================== *)

(** [class FlagCategory(PyEnum)] *)
Inductive FlagCategory : Type :=
| STANDARD
| PLUS
| PREMIUM.

(** [class AuctionStatus(PyEnum)] *)
Inductive AuctionStatus : Type :=
| ACTIVE
| CLOSED
| CANCELLED.

(** A decimal amount, in units of 10^-8. *)
Definition Decimal := Z.

(** One whole unit: [Decimal("1.0")]. *)
Definition one_unit : Decimal := 100000000.

(** [class User(Base)]: the columns the auction router reads or writes. *)
Record User : Type := mkUser {
  user_id : Z;
  wallet_address : string;
  reputation_score : Z
}.

(** [class FlagOwnership(Base)]: the two columns the router filters on. *)
Record FlagOwnership : Type := mkOwnership {
  own_flag_id : Z;
  own_user_id : Z
}.

(** [class Auction(Base)] *)
Record Auction : Type := mkAuction {
  auction_id : Z;
  flag_id : Z;
  seller_id : Z;
  starting_price : Decimal;
  min_price : Decimal;
  buyout_price : option Decimal;
  current_highest_bid : option Decimal;
  highest_bidder_id : option Z;
  winner_category : option FlagCategory;
  status : AuctionStatus;
  ends_at : Z
}.

(** [class Bid(Base)] *)
Record Bid : Type := mkBid {
  bid_id : Z;
  bid_auction_id : Z;
  bidder_id : Z;
  amount : Decimal;
  bidder_category : FlagCategory;
  created_at : Z
}.

Definition FlagCategory_eqb (c1 c2 : FlagCategory) : bool :=
  match c1, c2 with
  | STANDARD, STANDARD | PLUS, PLUS | PREMIUM, PREMIUM => true
  | _, _ => false
  end.

Definition AuctionStatus_eqb (s1 s2 : AuctionStatus) : bool :=
  match s1, s2 with
  | ACTIVE, ACTIVE | CLOSED, CLOSED | CANCELLED, CANCELLED => true
  | _, _ => false
  end.

Definition Bid_eq_dec (b1 b2 : Bid) : {b1 = b2} + {b1 <> b2}.
Proof. repeat decide equality. Defined.

(* ================================================================== *)
(** * Python's [float], [sorted] and tuple comparison *)
(* ================================================================== *)

Module PyFloat.

(** binary64 *)
Definition prec : Z := 53.
Definition emax : Z := 1024.

Definition float := spec_float.

(** [float(d)] for a decimal [d]: the binary64 nearest to [d / 10^8],
    ties to even.  [SFdiv] rounds the exact quotient of the two integer
    mantissas once, which is the correctly rounded conversion. *)
Definition of_decimal (d : Decimal) : float :=
  match d with
  | Z0 => S754_zero false
  | Zpos p =>
      SFdiv prec emax (S754_finite false p 0) (S754_finite false 100000000 0)
  | Zneg p =>
      SFdiv prec emax (S754_finite true p 0) (S754_finite false 100000000 0)
  end.

Definition neg (x : float) : float := SFopp x.
Definition eqb (x y : float) : bool := SFeqb x y.
Definition ltb (x y : float) : bool := SFltb x y.

End PyFloat.

(** The sort key of [determine_winner]: a 3-tuple
    [(-float(amount), -priority, created_at)]. *)
Definition SortKey : Type := (PyFloat.float * Z * Z)%type.

(** [k1 < k2] on tuples: the first position where the items are not [==]
    decides with [<]. *)
Definition tuple_lt (k1 k2 : SortKey) : bool :=
  let '(f1, p1, t1) := k1 in
  let '(f2, p2, t2) := k2 in
  if negb (PyFloat.eqb f1 f2) then PyFloat.ltb f1 f2
  else if negb (p1 =? p2) then p1 <? p2
  else t1 <? t2.

Section Sorted.
Variables (A K : Type).
Variable key : A -> K.
Variable lt : K -> K -> bool.

(** [x] goes in front of the first element that is not smaller than it,
    so it stays ahead of the equal elements that followed it. *)
Fixpoint insert_sorted (x : A) (l : list A) : list A :=
  match l with
  | [] => [x]
  | y :: l' =>
      if lt (key y) (key x) then y :: insert_sorted x l'
      else x :: y :: l'
  end.

(** [sorted(l, key=key)]: a stable sort that compares keys with [<]. *)
Fixpoint sorted (l : list A) : list A :=
  match l with
  | [] => []
  | x :: l' => insert_sorted x (sorted l')
  end.
End Sorted.

(* ================================================================== *)
(** * routers/auctions.py: winner determination *)
(* ================================================================== *)

(** [CATEGORY_PRIORITY] *)
Definition CATEGORY_PRIORITY (c : FlagCategory) : Z :=
  match c with
  | STANDARD => 1
  | PLUS => 2
  | PREMIUM => 3
  end.

(** [lambda b: (-float(b.amount), -CATEGORY_PRIORITY.get(b.bidder_category, 1),
    b.created_at)] *)
Definition bid_key (b : Bid) : SortKey :=
  (PyFloat.neg (PyFloat.of_decimal (amount b)),
   - CATEGORY_PRIORITY (bidder_category b),
   created_at b).

(** [determine_winner(bids)] *)
Definition determine_winner (bids : list Bid) : option Bid :=
  match bids with
  | [] => None
  | _ =>
      let sorted_bids := sorted bid_key tuple_lt bids in
      match sorted_bids with
      | b :: _ => Some b
      | [] => None
      end
  end.

(* ================================================================== *)
(** * The database session and HTTP errors *)
(* ================================================================== *)

(** The tables the auction router touches.  Of [Flag] only the primary key
    is read. *)
Record Database : Type := mkDb {
  flags : list Z;
  users : list User;
  ownerships : list FlagOwnership;
  auctions : list Auction;
  bids : list Bid
}.

Definition set_users (us : list User) (db : Database) : Database :=
  mkDb (flags db) us (ownerships db) (auctions db) (bids db).

Definition set_auctions (l : list Auction) (db : Database) : Database :=
  mkDb (flags db) (users db) (ownerships db) l (bids db).

Definition set_bids (l : list Bid) (db : Database) : Database :=
  mkDb (flags db) (users db) (ownerships db) (auctions db) l.

(** The [detail] of an [HTTPException]; a message that interpolates a value
    carries it as an argument. *)
Inductive Detail : Type :=
| FlagNotFound (id : Z)          (* "Flag with id {id} not found" *)
| MustOwnFlag                    (* "You must own this flag to create an auction" *)
| AlreadyActiveAuction           (* "There is already an active auction for this flag" *)
| AuctionNotFound (id : Z)       (* "Auction with id {id} not found" *)
| AuctionNotActive               (* "Auction is not active" *)
| AuctionHasEnded                (* "Auction has ended" *)
| CannotBidOwnAuction            (* "Cannot bid on your own auction" *)
| BidBelowMinPrice (p : Decimal) (* "Bid must be at least {p} (minimum price)" *)
| BidNotHigher (p : Decimal)     (* "Bid must be higher than current highest bid ({p})" *)
| BidBelowStartingPrice (p : Decimal) (* "Bid must be at least {p} (starting price)" *)
| NoBuyoutOption                 (* "This auction does not have a buyout option" *)
| CannotBuyoutOwnAuction         (* "Cannot buyout your own auction" *)
| AuctionNotEndedYet             (* "Auction has not ended yet" *)
| OnlySellerCanCancel            (* "Only the seller can cancel the auction" *)
| CannotCancelWithBids.          (* "Cannot cancel auction with existing bids" *)

Record HTTPException : Type := mkHTTPException {
  status_code : Z;
  detail : Detail
}.

Definition HTTP_400_BAD_REQUEST : Z := 400.
Definition HTTP_403_FORBIDDEN : Z := 403.
Definition HTTP_404_NOT_FOUND : Z := 404.

(** What a handler leaves: a value or a raised [HTTPException]. *)
Inductive Outcome (A : Type) : Type :=
| Returned (a : A)
| Raised (e : HTTPException).

Arguments Returned {A} a.
Arguments Raised {A} e.

(** A handler runs against the session: it yields an outcome and the
    database as committed so far. *)
Definition M (A : Type) : Type := Database -> Outcome A * Database.

Definition ret {A} (a : A) : M A := fun db => (Returned a, db).

Definition bind {A B} (m : M A) (k : A -> M B) : M B :=
  fun db =>
    match m db with
    | (Returned a, db') => k a db'
    | (Raised e, db') => (Raised e, db')
    end.

Definition raise {A} (code : Z) (d : Detail) : M A :=
  fun db => (Raised (mkHTTPException code d), db).

Definition query {A} (f : Database -> A) : M A := fun db => (Returned (f db), db).

Definition commit (f : Database -> Database) : M unit :=
  fun db => (Returned tt, f db).

Notation "x <- c1 ;; c2" := (bind c1 (fun x => c2))
  (at level 61, c1 at next level, right associativity).
Notation "c1 ;; c2" := (bind c1 (fun _ => c2))
  (at level 61, right associativity).

(** The next value of an autoincrement primary key. *)
Definition next_id (ids : list Z) : Z := 1 + fold_right Z.max 0 ids.

(** [datetime + timedelta(hours=h)] *)
Definition add_hours (t h : Z) : Z := t + h * 3600000000.

(* ------------------------------------------------------------------ *)
(** ** Strings *)

Definition lower_ascii (c : ascii) : ascii :=
  let n := nat_of_ascii c in
  if (Nat.leb 65 n && Nat.leb n 90)%bool then ascii_of_nat (n + 32) else c.

(** [s.lower()] on the ASCII range. *)
Fixpoint lower (s : string) : string :=
  match s with
  | EmptyString => EmptyString
  | String c s' => String (lower_ascii c) (lower s')
  end.

(** [s.startswith(p)] *)
Definition startswith (s p : string) : bool := String.prefix p s.

(** [len(s)] *)
Definition len (s : string) : Z := Z.of_nat (String.length s).

(* ================================================================== *)
(** * schemas.py: request bodies *)
(* ================================================================== *)

(** A field either validates to a value or reports a message. *)
Definition Validated (A : Type) : Type := (string + A)%type.

(** [wallet_address: str = Field(..., min_length=42, max_length=42)] followed
    by [validate_wallet]. *)
Definition validate_wallet (v : string) : Validated string :=
  if negb (startswith v "0x") then inl "Wallet address must start with 0x"
  else inr (lower v).

Definition field_wallet_address (v : string) : Validated string :=
  if len v <? 42 then inl "String should have at least 42 characters"
  else if 42 <? len v then inl "String should have at most 42 characters"
  else validate_wallet v.

(** [Decimal = Field(..., gt=0)] *)
Definition field_gt0 (v : Decimal) : Validated Decimal :=
  if 0 <? v then inr v else inl "Input should be greater than 0".

(** [Optional[Decimal] = Field(None, gt=0)] *)
Definition field_optional_gt0 (v : option Decimal) : Validated (option Decimal) :=
  match v with
  | None => inr None
  | Some d => if 0 <? d then inr (Some d) else inl "Input should be greater than 0"
  end.

(** [AuctionCreate.validate_buyout_price(v, info)], where [starting_price]
    is [info.data.get("starting_price")]: present only when that field
    validated. *)
Definition validate_buyout_price (v : option Decimal)
    (starting_price : option Decimal) : Validated (option Decimal) :=
  match v with
  | Some b =>
      match starting_price with
      | Some sp =>
          if b <=? sp then inl "Buyout price must be greater than starting_price"
          else inr v
      | None => inr v
      end
  | None => inr v
  end.

Definition field_buyout_price (v : option Decimal)
    (starting_price : option Decimal) : Validated (option Decimal) :=
  match field_optional_gt0 v with
  | inl msg => inl msg
  | inr v' => validate_buyout_price v' starting_price
  end.

(** [duration_hours: int = Field(..., ge=1, le=168)] *)
Definition field_duration_hours (v : Z) : Validated Z :=
  if v <? 1 then inl "Input should be greater than or equal to 1"
  else if 168 <? v then inl "Input should be less than or equal to 168"
  else inr v.

Definition errors_of {A} (v : Validated A) : list string :=
  match v with
  | inl msg => [msg]
  | inr _ => []
  end.

Definition value_of {A} (v : Validated A) : option A :=
  match v with
  | inl _ => None
  | inr a => Some a
  end.

(** The JSON body of [POST /api/auctions]. *)
Record AuctionCreateBody : Type := mkAuctionCreateBody {
  body_flag_id : Z;
  body_wallet_address : string;
  body_starting_price : Decimal;
  body_min_price : option Decimal;
  body_buyout_price : option Decimal;
  body_duration_hours : Z
}.

(** [class AuctionCreate(BaseModel)], as the handler receives it: every
    field validated and [set_min_price_default] applied. *)
Record AuctionCreate : Type := mkAuctionCreate {
  ac_flag_id : Z;
  ac_wallet_address : string;
  ac_starting_price : Decimal;
  ac_min_price : Decimal;
  ac_buyout_price : option Decimal;
  ac_duration_hours : Z
}.

(** [set_min_price_default] *)
Definition set_min_price_default (starting_price : Decimal)
    (min_price : option Decimal) : Decimal :=
  match min_price with
  | None => starting_price
  | Some m => m
  end.

(** Validation of an [AuctionCreate] body: the fields in declaration order,
    all errors collected, the model validator last. *)
Definition AuctionCreate_validate (body : AuctionCreateBody)
    : list string + AuctionCreate :=
  let w := field_wallet_address (body_wallet_address body) in
  let sp := field_gt0 (body_starting_price body) in
  let mp := field_optional_gt0 (body_min_price body) in
  let bp := field_buyout_price (body_buyout_price body) (value_of sp) in
  let dh := field_duration_hours (body_duration_hours body) in
  match w, sp, mp, bp, dh with
  | inr w', inr sp', inr mp', inr bp', inr dh' =>
      inr (mkAuctionCreate (body_flag_id body) w' sp'
             (set_min_price_default sp' mp') bp' dh')
  | _, _, _, _, _ =>
      inl (errors_of w ++ errors_of sp ++ errors_of mp ++ errors_of bp
             ++ errors_of dh)%list
  end.

(** The JSON body of [POST /api/auctions/{id}/bid]; an absent
    [bidder_category] is [None]. *)
Record BidCreateBody : Type := mkBidCreateBody {
  bbody_wallet_address : string;
  bbody_amount : Decimal;
  bbody_bidder_category : option FlagCategory
}.

(** [class BidCreate(BaseModel)] *)
Record BidCreate : Type := mkBidCreate {
  bc_wallet_address : string;
  bc_amount : Decimal;
  bc_bidder_category : FlagCategory
}.

Definition BidCreate_validate (body : BidCreateBody) : list string + BidCreate :=
  let w := field_wallet_address (bbody_wallet_address body) in
  let a := field_gt0 (bbody_amount body) in
  match w, a with
  | inr w', inr a' =>
      inr (mkBidCreate w' a'
             (match bbody_bidder_category body with
              | Some c => c
              | None => STANDARD
              end))
  | _, _ => inl (errors_of w ++ errors_of a)%list
  end.

(** [class BuyoutCreate(BaseModel)] *)
Record BuyoutCreate : Type := mkBuyoutCreate {
  bo_wallet_address : string
}.

Definition BuyoutCreate_validate (wallet : string) : list string + BuyoutCreate :=
  match field_wallet_address wallet with
  | inr w' => inr (mkBuyoutCreate w')
  | inl msg => inl [msg]
  end.

(* ================================================================== *)
(** * routers/auctions.py: the handlers *)
(* ================================================================== *)

(** [db.query(User).filter(User.wallet_address == wallet).first()] *)
Definition user_by_wallet (wallet : string) (us : list User) : option User :=
  find (fun u => String.eqb (wallet_address u) wallet) us.

(** [db.query(User).filter(User.id == id).first()] *)
Definition user_by_id (id : Z) (us : list User) : option User :=
  find (fun u => user_id u =? id) us.

(** [db.query(Auction).filter(Auction.id == id).first()] *)
Definition auction_by_id (id : Z) (l : list Auction) : option Auction :=
  find (fun a => auction_id a =? id) l.

(** [Auction.flag_id == fid, Auction.status == AuctionStatus.ACTIVE] *)
Definition active_on (fid : Z) (a : Auction) : bool :=
  (flag_id a =? fid) && AuctionStatus_eqb (status a) ACTIVE.

(** [db.query(Auction).filter(Auction.flag_id == fid,
    Auction.status == AuctionStatus.ACTIVE).first()] *)
Definition active_auction_for (fid : Z) (l : list Auction) : option Auction :=
  find (active_on fid) l.

(** [db.query(FlagOwnership).filter(FlagOwnership.flag_id == fid,
    FlagOwnership.user_id == uid).first()] *)
Definition ownership_of (fid uid : Z) (l : list FlagOwnership)
    : option FlagOwnership :=
  find (fun o => (own_flag_id o =? fid) && (own_user_id o =? uid))%bool l.

(** [auction.bids]: the rows of the bids table that point at the auction. *)
Definition bids_of (id : Z) (l : list Bid) : list Bid :=
  filter (fun b => bid_auction_id b =? id) l.

(** Writing through the attributes of the row with primary key [id]. *)
Definition update_auction (id : Z) (f : Auction -> Auction)
    (l : list Auction) : list Auction :=
  map (fun a => if auction_id a =? id then f a else a) l.

Definition update_user (id : Z) (f : User -> User) (l : list User) : list User :=
  map (fun u => if user_id u =? id then f u else u) l.

(** [auction.current_highest_bid = v; auction.highest_bidder_id = who] *)
Definition with_highest_bid (v : option Decimal) (who : option Z) (a : Auction)
    : Auction :=
  mkAuction (auction_id a) (flag_id a) (seller_id a) (starting_price a)
    (min_price a) (buyout_price a) v who (winner_category a) (status a)
    (ends_at a).

(** [auction.status = st] *)
Definition with_status (st : AuctionStatus) (a : Auction) : Auction :=
  mkAuction (auction_id a) (flag_id a) (seller_id a) (starting_price a)
    (min_price a) (buyout_price a) (current_highest_bid a)
    (highest_bidder_id a) (winner_category a) st (ends_at a).

(** [auction.winner_category = c] *)
Definition with_winner_category (c : option FlagCategory) (a : Auction)
    : Auction :=
  mkAuction (auction_id a) (flag_id a) (seller_id a) (starting_price a)
    (min_price a) (buyout_price a) (current_highest_bid a)
    (highest_bidder_id a) c (status a) (ends_at a).

(** The writes of [buyout_auction] to the auction row: [status = CLOSED],
    [current_highest_bid = buyout_price], [highest_bidder_id = buyer.id]. *)
Definition buyout_writes (price : Decimal) (buyer : Z) (a : Auction) : Auction :=
  with_highest_bid (Some price) (Some buyer) (with_status CLOSED a).

(** The writes of [close_auction] when there is a winning bid:
    [status = CLOSED], then the three winner fields. *)
Definition close_writes (w : Bid) (a : Auction) : Auction :=
  with_winner_category (Some (bidder_category w))
    (with_highest_bid (Some (amount w)) (Some (bidder_id w))
       (with_status CLOSED a)).

(** [user.reputation_score += delta] *)
Definition add_reputation (delta : Z) (u : User) : User :=
  mkUser (user_id u) (wallet_address u) (reputation_score u + delta).

(** [get_or_create_user(db, wallet_address)]: the new row is committed before
    the function returns. *)
Definition get_or_create_user (wallet_address : string) : M User :=
  let wallet := lower wallet_address in
  found <- query (fun db => user_by_wallet wallet (users db)) ;;
  match found with
  | Some user => ret user
  | None =>
      id <- query (fun db => next_id (map user_id (users db))) ;;
      let user := mkUser id wallet 0 in
      commit (fun db => set_users (users db ++ [user]) db) ;;
      ret user
  end.

(** [create_auction(auction_data, db)]; [now] is [datetime.utcnow()]. *)
Definition create_auction (auction_data : AuctionCreate) (now : Z) : M Auction :=
  flag <- query (fun db => find (Z.eqb (ac_flag_id auction_data)) (flags db)) ;;
  match flag with
  | None => raise HTTP_404_NOT_FOUND (FlagNotFound (ac_flag_id auction_data))
  | Some _ =>
      seller <- get_or_create_user (ac_wallet_address auction_data) ;;
      ownership <- query (fun db =>
        ownership_of (ac_flag_id auction_data) (user_id seller) (ownerships db)) ;;
      match ownership with
      | None => raise HTTP_403_FORBIDDEN MustOwnFlag
      | Some _ =>
          existing <- query (fun db =>
            active_auction_for (ac_flag_id auction_data) (auctions db)) ;;
          match existing with
          | Some _ => raise HTTP_400_BAD_REQUEST AlreadyActiveAuction
          | None =>
              let ends_at := add_hours now (ac_duration_hours auction_data) in
              id <- query (fun db => next_id (map auction_id (auctions db))) ;;
              let auction :=
                mkAuction id (ac_flag_id auction_data) (user_id seller)
                  (ac_starting_price auction_data) (ac_min_price auction_data)
                  (ac_buyout_price auction_data) None None None ACTIVE ends_at in
              commit (fun db => set_auctions (auctions db ++ [auction]) db) ;;
              ret auction
          end
      end
  end.

(** Truth value of an [Optional[Decimal]]: [None] and zero are false. *)
Definition truthy (d : option Decimal) : bool :=
  match d with
  | None => false
  | Some v => negb (v =? 0)
  end.

(** [bid_data.amount <= auction.current_highest_bid], evaluated only when the
    right-hand side is truthy. *)
Definition le_current (amount : Decimal) (current : option Decimal) : bool :=
  match current with
  | None => false
  | Some v => amount <=? v
  end.

(** [place_bid(auction_id, bid_data, db)]; [now] is the clock reading of the
    deadline check and [created] the one the [created_at] default takes when
    the row is flushed. *)
Definition place_bid (id : Z) (bid_data : BidCreate) (now created : Z) : M Bid :=
  found <- query (fun db => auction_by_id id (auctions db)) ;;
  match found with
  | None => raise HTTP_404_NOT_FOUND (AuctionNotFound id)
  | Some auction =>
      if negb (AuctionStatus_eqb (status auction) ACTIVE) then
        raise HTTP_400_BAD_REQUEST AuctionNotActive
      else if ends_at auction <? now then
        raise HTTP_400_BAD_REQUEST AuctionHasEnded
      else
        bidder <- get_or_create_user (bc_wallet_address bid_data) ;;
        if user_id bidder =? seller_id auction then
          raise HTTP_400_BAD_REQUEST CannotBidOwnAuction
        else if bc_amount bid_data <? min_price auction then
          raise HTTP_400_BAD_REQUEST (BidBelowMinPrice (min_price auction))
        else if (truthy (current_highest_bid auction)
                 && le_current (bc_amount bid_data) (current_highest_bid auction))%bool
        then
          raise HTTP_400_BAD_REQUEST
            (BidNotHigher (match current_highest_bid auction with
                           | Some v => v
                           | None => 0
                           end))
        else if bc_amount bid_data <? starting_price auction then
          raise HTTP_400_BAD_REQUEST (BidBelowStartingPrice (starting_price auction))
        else
          bid_pk <- query (fun db => next_id (map bid_id (bids db))) ;;
          let bid :=
            mkBid bid_pk id (user_id bidder) (bc_amount bid_data)
              (bc_bidder_category bid_data) created in
          commit (fun db =>
            set_auctions
              (update_auction id
                 (with_highest_bid (Some (bc_amount bid_data))
                    (Some (user_id bidder)))
                 (auctions db))
              (set_bids (bids db ++ [bid]) db)) ;;
          ret bid
  end.

(** [buyout_auction(auction_id, buyout_data, db)] *)
Definition buyout_auction (id : Z) (buyout_data : BuyoutCreate) (now : Z)
    : M Auction :=
  found <- query (fun db => auction_by_id id (auctions db)) ;;
  match found with
  | None => raise HTTP_404_NOT_FOUND (AuctionNotFound id)
  | Some auction =>
      if negb (AuctionStatus_eqb (status auction) ACTIVE) then
        raise HTTP_400_BAD_REQUEST AuctionNotActive
      else
        match buyout_price auction with
        | None => raise HTTP_400_BAD_REQUEST NoBuyoutOption
        | Some price =>
            if ends_at auction <? now then
              raise HTTP_400_BAD_REQUEST AuctionHasEnded
            else
              buyer <- get_or_create_user (bo_wallet_address buyout_data) ;;
              if user_id buyer =? seller_id auction then
                raise HTTP_400_BAD_REQUEST CannotBuyoutOwnAuction
              else
                commit (fun db =>
                  set_users
                    (update_user (user_id buyer) (add_reputation 20) (users db))
                    (set_auctions
                       (update_auction id (buyout_writes price (user_id buyer))
                          (auctions db)) db)) ;;
                ret (buyout_writes price (user_id buyer) auction)
        end
  end.

(** [close_auction(auction_id, db)] *)
Definition close_auction (id : Z) (now : Z) : M Auction :=
  found <- query (fun db => auction_by_id id (auctions db)) ;;
  match found with
  | None => raise HTTP_404_NOT_FOUND (AuctionNotFound id)
  | Some auction =>
      if negb (AuctionStatus_eqb (status auction) ACTIVE) then
        raise HTTP_400_BAD_REQUEST AuctionNotActive
      else if now <? ends_at auction then
        raise HTTP_400_BAD_REQUEST AuctionNotEndedYet
      else
        winning_bid <- query (fun db => determine_winner (bids_of id (bids db))) ;;
        match winning_bid with
        | Some w =>
            winner <- query (fun db => user_by_id (bidder_id w) (users db)) ;;
            commit (fun db =>
              set_users
                (match winner with
                 | Some u => update_user (user_id u) (add_reputation 15) (users db)
                 | None => users db
                 end)
                (set_auctions
                   (update_auction id (close_writes w) (auctions db)) db)) ;;
            ret (close_writes w auction)
        | None =>
            commit (fun db =>
              set_auctions
                (update_auction id (with_status CLOSED) (auctions db)) db) ;;
            ret (with_status CLOSED auction)
        end
  end.

(** [cancel_auction(auction_id, wallet_address, db)]; the wallet is a plain
    query parameter. *)
Definition cancel_auction (id : Z) (wallet_address : string) : M unit :=
  found <- query (fun db => auction_by_id id (auctions db)) ;;
  match found with
  | None => raise HTTP_404_NOT_FOUND (AuctionNotFound id)
  | Some auction =>
      let wallet := lower wallet_address in
      user <- query (fun db => user_by_wallet wallet (users db)) ;;
      if match user with
         | None => true
         | Some u => negb (user_id u =? seller_id auction)
         end
      then raise HTTP_403_FORBIDDEN OnlySellerCanCancel
      else if negb (AuctionStatus_eqb (status auction) ACTIVE) then
        raise HTTP_400_BAD_REQUEST AuctionNotActive
      else
        match current_highest_bid auction with
        | Some _ => raise HTTP_400_BAD_REQUEST CannotCancelWithBids
        | None =>
            commit (fun db =>
              set_auctions
                (update_auction id (with_status CANCELLED) (auctions db)) db)
        end
  end.

(* ================================================================== *)
(** * The endpoints: validation, then the handler *)
(* ================================================================== *)

(** What the client sees. *)
Inductive Response (A : Type) : Type :=
| Success (a : A)
| Failure (e : HTTPException)
| Unprocessable (errors : list string).

Arguments Success {A} a.
Arguments Failure {A} e.
Arguments Unprocessable {A} errors.

Definition respond {A} (m : M A) (db : Database) : Response A * Database :=
  match m db with
  | (Returned a, db') => (Success a, db')
  | (Raised e, db') => (Failure e, db')
  end.

Definition post_auction (body : AuctionCreateBody) (now : Z) (db : Database)
    : Response Auction * Database :=
  match AuctionCreate_validate body with
  | inl errors => (Unprocessable errors, db)
  | inr auction_data => respond (create_auction auction_data now) db
  end.

Definition post_bid (id : Z) (body : BidCreateBody) (now created : Z)
    (db : Database) : Response Bid * Database :=
  match BidCreate_validate body with
  | inl errors => (Unprocessable errors, db)
  | inr bid_data => respond (place_bid id bid_data now created) db
  end.

Definition post_buyout (id : Z) (wallet : string) (now : Z) (db : Database)
    : Response Auction * Database :=
  match BuyoutCreate_validate wallet with
  | inl errors => (Unprocessable errors, db)
  | inr buyout_data => respond (buyout_auction id buyout_data now) db
  end.

Definition post_close (id : Z) (now : Z) (db : Database)
    : Response Auction * Database :=
  respond (close_auction id now) db.

Definition post_cancel (id : Z) (wallet : string) (db : Database)
    : Response unit * Database :=
  respond (cancel_auction id wallet) db.

(** A request to the auction router. *)
Inductive Request : Type :=
| CreateAuction (body : AuctionCreateBody) (now : Z)
| PlaceBid (id : Z) (body : BidCreateBody) (now created : Z)
| Buyout (id : Z) (wallet : string) (now : Z)
| Close (id : Z) (now : Z)
| Cancel (id : Z) (wallet : string).

(** The database after a request has been served. *)
Definition step (db : Database) (r : Request) : Database :=
  match r with
  | CreateAuction body now => snd (post_auction body now db)
  | PlaceBid id body now created => snd (post_bid id body now created db)
  | Buyout id wallet now => snd (post_buyout id wallet now db)
  | Close id now => snd (post_close id now db)
  | Cancel id wallet => snd (post_cancel id wallet db)
  end.

(** Serving a sequence of requests, oldest first. *)
Definition run (db : Database) (rs : list Request) : Database :=
  fold_left step rs db.

(* ================================================================== *)
(** * Predicates of the statements *)
(* ================================================================== *)

(** No two different bids of the list tie on the sort key. *)
Definition strictly_ordered (l : list Bid) : Prop :=
  forall b1 b2, In b1 l -> In b2 l -> b1 <> b2 ->
    tuple_lt (bid_key b1) (bid_key b2) = true \/
    tuple_lt (bid_key b2) (bid_key b1) = true.


(** Referential integrity of [FlagOwnership.user_id]: every ownership row
    points at a row of the users table. *)
Definition ownerships_have_users (db : Database) : bool :=
  forallb (fun o => existsb (fun u => user_id u =? own_user_id o) (users db))
    (ownerships db).

(** The message of [AuctionCreate.validate_buyout_price]. *)
Definition buyout_message : string :=
  "Buyout price must be greater than starting_price".

(** The reputation score of a user id; a wallet that is not registered yet
    has the score it is created with. *)
Definition reputation (db : Database) (uid : Z) : Z :=
  match user_by_id uid (users db) with
  | Some u => reputation_score u
  | None => 0
  end.

(** Referential integrity of [Bid.bidder_id]: every bid points at a row of
    the users table. *)
Definition bids_have_bidders (db : Database) : bool :=
  forallb (fun b => existsb (fun u => user_id u =? bidder_id b) (users db))
    (bids db).

(** The number of Active auctions on a flag. *)
Definition active_count (fid : Z) (db : Database) : nat :=
  List.length (filter (active_on fid) (auctions db)).

Definition at_most_one_active (db : Database) : Prop :=
  forall fid, (active_count fid db <= 1)%nat.

(** What the rest of the database owes to a handler's session: the tables
    of flags and ownerships are never written, and no reputation changes. *)
Definition same_outside_auctions (db db' : Database) : Prop :=
  flags db' = flags db /\
  ownerships db' = ownerships db /\
  (forall uid, reputation db' uid = reputation db uid).

(** The conditions under which [place_bid] takes an amount on an auction. *)
Definition accepts (a : Auction) (m : Decimal) : Prop :=
  min_price a <= m /\
  starting_price a <= m /\
  (forall h, current_highest_bid a = Some h -> h < m).

(** The clock reading a request stamps on a row, if it stores a bid. *)
Definition stamp_of (r : Request) : option Z :=
  match r with
  | PlaceBid _ _ _ created => Some created
  | _ => None
  end.




(** A database with no auction and no bid yet; flags, users and ownerships
    are arbitrary. *)
Definition fresh_database (db : Database) : Prop :=
  auctions db = [] /\ bids db = [].

(** The four ways a request can change the auctions and bids tables. *)
Inductive Effect (r : Request) (db db' : Database) : Prop :=
| eff_none :
    auctions db' = auctions db ->
    bids db' = bids db ->
    Effect r db db'
| eff_created (a : Auction) :
    auctions db' = (auctions db ++ [a])%list ->
    bids db' = bids db ->
    status a = ACTIVE ->
    current_highest_bid a = None ->
    highest_bidder_id a = None ->
    auction_id a = next_id (map auction_id (auctions db)) ->
    active_auction_for (flag_id a) (auctions db) = None ->
    (exists body now, r = CreateAuction body now) ->
    Effect r db db'
| eff_bid (id : Z) (auction : Auction) (bid : Bid) :
    auction_by_id id (auctions db) = Some auction ->
    status auction = ACTIVE ->
    auctions db' =
      update_auction id
        (with_highest_bid (Some (amount bid)) (Some (bidder_id bid)))
        (auctions db) ->
    bids db' = (bids db ++ [bid])%list ->
    bid_auction_id bid = id ->
    0 < amount bid ->
    accepts auction (amount bid) ->
    stamp_of r = Some (created_at bid) ->
    Effect r db db'
| eff_ended (id : Z) (auction : Auction) (f : Auction -> Auction) :
    auction_by_id id (auctions db) = Some auction ->
    status auction = ACTIVE ->
    auctions db' = update_auction id f (auctions db) ->
    bids db' = bids db ->
    (forall a, auction_id (f a) = auction_id a) ->
    (forall a, flag_id (f a) = flag_id a) ->
    (forall a, status (f a) <> ACTIVE) ->
    Effect r db db'.

(** [user and user.id == auction.seller_id] for the wallet of a cancel
    request. *)
Definition requester_is_seller (wallet : string) (a : Auction) (db : Database)
    : bool :=
  match user_by_wallet (lower wallet) (users db) with
  | Some u => user_id u =? seller_id a
  | None => false
  end.

Definition not_active : HTTPException :=
  mkHTTPException HTTP_400_BAD_REQUEST AuctionNotActive.

Definition already_active : HTTPException :=
  mkHTTPException HTTP_400_BAD_REQUEST AlreadyActiveAuction.

(** [b1] has a lower amount than [b2] and a time that is not later; the
    time of a bid is read by [tau], which is [created_at] or, to leave the
    clock out, a constant. *)
Definition bid_before (tau : Bid -> Z) (b1 b2 : Bid) : Prop :=
  amount b1 < amount b2 /\ tau b1 <= tau b2.

Definition no_clock (b : Bid) : Z := 0.


(** The most recently stored bid of a list in table order. *)
Definition last_bid (l : list Bid) : option Bid := hd_error (rev l).

(** The cache of an auction names the given bid, or nothing. *)
Definition cache_is (a : Auction) (b : option Bid) : Prop :=
  current_highest_bid a = option_map amount b /\
  highest_bidder_id a = option_map bidder_id b.

(** The invariant behind the monotone bids; [t] is the latest time of a bid
    so far.
    - the cache of an Active auction bounds the amounts of its bids;
    - the bids of an auction, in table order, increase strictly in amount
      and weakly in time;
    - no bid has a time later than [t];
    - every bid points at an auction row;
    - the cache of an Active auction names its most recent bid. *)
Definition bids_ordered (tau : Bid -> Z) (t : Z) (db : Database) : Prop :=
  (forall a, In a (auctions db) -> status a = ACTIVE ->
     forall b, In b (bids_of (auction_id a) (bids db)) ->
       exists h, current_highest_bid a = Some h /\ amount b <= h) /\
  (forall id, StronglySorted (bid_before tau) (bids_of id (bids db))) /\
  (forall b, In b (bids db) -> tau b <= t) /\
  (forall b, In b (bids db) ->
     exists a, In a (auctions db) /\ auction_id a = bid_auction_id b) /\
  (forall a, In a (auctions db) -> status a = ACTIVE ->
     cache_is a (last_bid (bids_of (auction_id a) (bids db)))).


(** A row of the users table has primary key [uid]. *)
Definition has_user (uid : Z) (db : Database) : bool :=
  existsb (fun u => user_id u =? uid) (users db).

(** The amounts of the list convert to strictly increasing floats. *)
Definition floats_increase (l : list Bid) : Prop :=
  StronglySorted
    (fun b1 b2 =>
       PyFloat.ltb (PyFloat.of_decimal (amount b1))
         (PyFloat.of_decimal (amount b2)) = true) l.

(* ------------------------------------------------------------------ *)
(** ** Concrete data used in the examples *)

Module Sample.

Definition alice : string := "0xaaaaaaaaaaaaaaaaaaaaaaaaaaaaaaaaaaaaaaaa".
Definition bob : string := "0xbbbbbbbbbbbbbbbbbbbbbbbbbbbbbbbbbbbbbbbb".
Definition carol : string := "0xcccccccccccccccccccccccccccccccccccccccc".

(** One flag, owned by alice (user 1); no auction yet. *)
Definition db0 : Database :=
  mkDb [1] [mkUser 1 alice 0] [mkOwnership 1 1] [] [].

(** alice opens a one-hour auction on flag 1 at time 0, starting at 1.0. *)
Definition open_auction : Request :=
  CreateAuction (mkAuctionCreateBody 1 alice one_unit None None 1) 0.

(** The same auction with a buyout price of 5.0. *)
Definition open_auction_with_buyout : Request :=
  CreateAuction
    (mkAuctionCreateBody 1 alice one_unit None (Some (5 * one_unit)) 1) 0.

(** 100000000.00000001 and 100000000.00000002 *)
Definition amount_lo : Decimal := 10000000000000001.
Definition amount_hi : Decimal := 10000000000000002.

(** bob bids [amount_lo] at time 10, carol outbids him with [amount_hi] at
    time 20. *)
Definition two_close_bids : list Request :=
  [ open_auction;
    PlaceBid 1 (mkBidCreateBody bob amount_lo None) 10 10;
    PlaceBid 1 (mkBidCreateBody carol amount_hi None) 20 20 ].

(** The deadline of [open_auction]. *)
Definition deadline : Z := 3600000000.

(** Two bids of 100.0 with the same category and timestamp. *)
Definition tie_a : Bid := mkBid 1 1 2 (100 * one_unit) STANDARD 10.
Definition tie_b : Bid := mkBid 2 1 3 (100 * one_unit) STANDARD 10.

(** A later, higher bid over an earlier Premium one. *)
Definition premium_lo : Bid := mkBid 1 1 2 amount_lo PREMIUM 10.
Definition standard_hi : Bid := mkBid 2 1 3 amount_hi STANDARD 20.

End Sample.

(* ================================================================== *)
(** * routers/auctions.py: the read endpoints *)
(* ================================================================== *)

(** [AuctionResponse], as far as the tables of the model go: the columns of
    the auction and [bid_count]. *)
Record AuctionResponse : Type := mkAuctionResponse {
  resp_auction : Auction;
  bid_count : Z
}.

(** [build_auction_response(auction)]: [bid_count=len(auction.bids)]. *)
Definition build_auction_response (db : Database) (a : Auction) : AuctionResponse :=
  mkAuctionResponse a (Z.of_nat (List.length (bids_of (auction_id a) (bids db)))).

(** [query.order_by(Auction.ends_at).all()].  Rows with equal [ends_at] come
    here in table order; SQL leaves their order open. *)
Definition order_by_ends_at (l : list Auction) : list Auction :=
  sorted ends_at Z.ltb l.

(** [get_auctions(active_only, flag_id, db)]; [if flag_id:] skips the filter
    for [None] and for 0. *)
Definition get_auctions (active_only : bool) (flag : option Z) (db : Database)
    : list AuctionResponse :=
  let query := auctions db in
  let query :=
    if active_only
    then filter (fun a => AuctionStatus_eqb (status a) ACTIVE) query
    else query in
  let query :=
    match flag with
    | Some f => if f =? 0 then query else filter (fun a => flag_id a =? f) query
    | None => query
    end in
  map (build_auction_response db) (order_by_ends_at query).

(** [sorted(auction.bids, key=lambda b: b.created_at, reverse=True)]: a
    stable sort, later stamps first, equal stamps in their order in the
    list. *)
Definition newest_first (l : list Bid) : list Bid :=
  sorted created_at (fun k1 k2 => k2 <? k1) l.

(** [AuctionDetailResponse]: the auction, its bids, and the highest bidder's
    row when [auction.highest_bidder] resolves. *)
Record AuctionDetailResponse : Type := mkAuctionDetailResponse {
  detail_auction : Auction;
  detail_bid_count : Z;
  detail_bids : list Bid;
  detail_highest_bidder : option User
}.

(** [get_auction(auction_id, db)] *)
Definition get_auction (id : Z) : M AuctionDetailResponse :=
  found <- query (fun db => auction_by_id id (auctions db)) ;;
  match found with
  | None => raise HTTP_404_NOT_FOUND (AuctionNotFound id)
  | Some auction =>
      bids_data <- query (fun db => newest_first (bids_of id (bids db))) ;;
      highest_bidder <- query (fun db =>
        match highest_bidder_id auction with
        | Some uid => user_by_id uid (users db)
        | None => None
        end) ;;
      ret (mkAuctionDetailResponse auction (Z.of_nat (List.length bids_data))
             bids_data highest_bidder)
  end.

(* ================================================================== *)
(** * Predicates of the further statements *)
(* ================================================================== *)

(** The user [get_or_create_user] returns for a wallet, and the database it
    leaves. *)
Definition resolve_user (wallet : string) (db : Database) : User :=
  match user_by_wallet (lower wallet) (users db) with
  | Some u => u
  | None => mkUser (next_id (map user_id (users db))) (lower wallet) 0
  end.

Definition register (wallet : string) (db : Database) : Database :=
  match user_by_wallet (lower wallet) (users db) with
  | Some _ => db
  | None => set_users (users db ++ [resolve_user wallet db]) db
  end.

(** The columns of an auction that are written once, at creation. *)
Definition same_terms (a a' : Auction) : Prop :=
  auction_id a' = auction_id a /\
  flag_id a' = flag_id a /\
  seller_id a' = seller_id a /\
  starting_price a' = starting_price a /\
  min_price a' = min_price a /\
  buyout_price a' = buyout_price a /\
  ends_at a' = ends_at a.

(** Every way a request leaves the database, with what the handler checked
    on the way. *)
Inductive Transition (r : Request) (db db' : Database) : Prop :=
| tr_refused (wallet : option string) :
    db' = match wallet with
          | Some w => register w db
          | None => db
          end ->
    Transition r db db'
| tr_created (wallet : string) (a : Auction) :
    (exists body now, r = CreateAuction body now) ->
    active_auction_for (flag_id a) (auctions db) = None ->
    ownership_of (flag_id a) (seller_id a) (ownerships db) <> None ->
    auction_id a = next_id (map auction_id (auctions db)) ->
    seller_id a = user_id (resolve_user wallet db) ->
    status a = ACTIVE ->
    current_highest_bid a = None ->
    highest_bidder_id a = None ->
    winner_category a = None ->
    0 < starting_price a ->
    0 < min_price a ->
    (forall p, buyout_price a = Some p -> starting_price a < p) ->
    db' = set_auctions (auctions db ++ [a]) (register wallet db) ->
    Transition r db db'
| tr_bid (wallet : string) (id : Z) (auction : Auction) (bid : Bid) :
    stamp_of r = Some (created_at bid) ->
    auction_by_id id (auctions db) = Some auction ->
    status auction = ACTIVE ->
    bid_id bid = next_id (map bid_id (bids db)) ->
    bid_auction_id bid = id ->
    bidder_id bid = user_id (resolve_user wallet db) ->
    bidder_id bid <> seller_id auction ->
    0 < amount bid ->
    accepts auction (amount bid) ->
    db' = set_auctions
            (update_auction id
               (with_highest_bid (Some (amount bid)) (Some (bidder_id bid)))
               (auctions db))
            (set_bids (bids db ++ [bid]) (register wallet db)) ->
    Transition r db db'
| tr_buyout (wallet : string) (id : Z) (auction : Auction) (price : Decimal) :
    (exists raw now, r = Buyout id raw now) ->
    auction_by_id id (auctions db) = Some auction ->
    status auction = ACTIVE ->
    buyout_price auction = Some price ->
    user_id (resolve_user wallet db) <> seller_id auction ->
    db' = set_users
            (update_user (user_id (resolve_user wallet db)) (add_reputation 20)
               (users (register wallet db)))
            (set_auctions
               (update_auction id
                  (buyout_writes price (user_id (resolve_user wallet db)))
                  (auctions db))
               (register wallet db)) ->
    Transition r db db'
| tr_closed (id : Z) (auction : Auction) (w : Bid) :
    (exists now, r = Close id now /\ ends_at auction <= now) ->
    auction_by_id id (auctions db) = Some auction ->
    status auction = ACTIVE ->
    determine_winner (bids_of id (bids db)) = Some w ->
    db' = set_users
            (match user_by_id (bidder_id w) (users db) with
             | Some u => update_user (user_id u) (add_reputation 15) (users db)
             | None => users db
             end)
            (set_auctions (update_auction id (close_writes w) (auctions db)) db) ->
    Transition r db db'
| tr_closed_empty (id : Z) (auction : Auction) :
    (exists now, r = Close id now /\ ends_at auction <= now) ->
    auction_by_id id (auctions db) = Some auction ->
    status auction = ACTIVE ->
    bids_of id (bids db) = [] ->
    db' = set_auctions (update_auction id (with_status CLOSED) (auctions db)) db ->
    Transition r db db'
| tr_cancelled (id : Z) (auction : Auction) (wallet : string) :
    r = Cancel id wallet ->
    auction_by_id id (auctions db) = Some auction ->
    status auction = ACTIVE ->
    current_highest_bid auction = None ->
    requester_is_seller wallet auction db = true ->
    db' = set_auctions
            (update_auction id (with_status CANCELLED) (auctions db)) db ->
    Transition r db db'.

(** Primary keys are unique, and so are the wallets of the users. *)
Definition keys_unique (db : Database) : Prop :=
  NoDup (map user_id (users db)) /\
  NoDup (map wallet_address (users db)) /\
  NoDup (map auction_id (auctions db)) /\
  NoDup (map bid_id (bids db)).

(** A stored bid belongs to an auction row, comes from somebody else than
    its seller, and meets its two floors. *)
Definition bid_sound (db : Database) (b : Bid) : Prop :=
  exists a,
    In a (auctions db) /\
    auction_id a = bid_auction_id b /\
    bidder_id b <> seller_id a /\
    min_price a <= amount b /\
    starting_price a <= amount b /\
    0 < amount b.

(** How a Closed auction without a winner category came to be closed: with
    no bid at all, or by a buyout. *)
Definition closed_without_winner (db : Database) (a : Auction) : Prop :=
  (current_highest_bid a = None /\ highest_bidder_id a = None /\
   bids_of (auction_id a) (bids db) = []) \/
  (current_highest_bid a = buyout_price a /\ buyout_price a <> None /\
   highest_bidder_id a <> None).

(** The bid a Closed auction was settled on. *)
Definition closed_on (db : Database) (a : Auction) (c : FlagCategory) : Prop :=
  exists w,
    In w (bids_of (auction_id a) (bids db)) /\
    c = bidder_category w /\
    highest_bidder_id a = Some (bidder_id w) /\
    current_highest_bid a = Some (amount w).

(** What holds of every auction row. *)
Definition auction_sound (db : Database) (a : Auction) : Prop :=
  0 < starting_price a /\
  0 < min_price a /\
  (forall p, buyout_price a = Some p -> starting_price a < p) /\
  highest_bidder_id a <> Some (seller_id a) /\
  (status a = ACTIVE ->
     cache_is a (last_bid (bids_of (auction_id a) (bids db))) /\
     winner_category a = None) /\
  (status a = CANCELLED ->
     bids_of (auction_id a) (bids db) = [] /\
     current_highest_bid a = None /\ highest_bidder_id a = None /\
     winner_category a = None) /\
  (status a = CLOSED ->
     match winner_category a with
     | Some c => closed_on db a c
     | None => closed_without_winner db a
     end).

Definition sound (db : Database) : Prop :=
  keys_unique db /\
  (forall b, In b (bids db) -> bid_sound db b) /\
  (forall a, In a (auctions db) -> auction_sound db a).

(** A database that no auction request has touched: no auction, no bid, and
    users with distinct ids and wallets. *)
Definition initial (db : Database) : Prop :=
  fresh_database db /\
  NoDup (map user_id (users db)) /\
  NoDup (map wallet_address (users db)).

(** The second database holds the rows of the first, in place, and possibly
    more at the end. *)
Definition extends (db db' : Database) : Prop :=
  (exists l, map user_id (users db') = (map user_id (users db) ++ l)%list) /\
  (exists l, map wallet_address (users db') =
             (map wallet_address (users db) ++ l)%list) /\
  (exists l, map auction_id (auctions db') =
             (map auction_id (auctions db) ++ l)%list) /\
  (exists l, bids db' = (bids db ++ l)%list).

(** The failures a handler raises after it has called
    [get_or_create_user]. *)
Definition after_user_lookup (d : Detail) : bool :=
  match d with
  | MustOwnFlag | AlreadyActiveAuction | CannotBidOwnAuction
  | BidBelowMinPrice _ | BidNotHigher _ | BidBelowStartingPrice _
  | CannotBuyoutOwnAuction => true
  | _ => false
  end.

(** What a handler that raised [e] for the given wallet has committed. *)
Definition committed_on_failure (wallet : string) (e : HTTPException)
    (db : Database) : Database :=
  if after_user_lookup (detail e) then register wallet db else db.

(** The rows [get_auctions] keeps: the two optional filters of its query. *)
Definition listed (active_only : bool) (flag : option Z) (a : Auction) : bool :=
  (if active_only then AuctionStatus_eqb (status a) ACTIVE else true) &&
  match flag with
  | Some f => if f =? 0 then true else flag_id a =? f
  | None => true
  end.

(** Stamps that increase strictly along a list of bids. *)
Definition stamps_increase (l : list Bid) : Prop :=
  StronglySorted (fun b1 b2 => created_at b1 < created_at b2) l.

(* ================================================================== *)
(** * routers/flags.py: interests and the two NFTs of a flag *)
(* ================================================================== *)

Module Flags.

(** [class NFTStatus(PyEnum)] *)
Inductive NFTStatus : Type :=
| AVAILABLE
| CLAIMED
| PURCHASED.

Definition NFTStatus_eqb (s1 s2 : NFTStatus) : bool :=
  match s1, s2 with
  | AVAILABLE, AVAILABLE | CLAIMED, CLAIMED | PURCHASED, PURCHASED => true
  | _, _ => false
  end.

(** [class OwnershipType(PyEnum)] *)
Inductive OwnershipType : Type :=
| FIRST
| SECOND.

Definition OwnershipType_eqb (t1 t2 : OwnershipType) : bool :=
  match t1, t2 with
  | FIRST, FIRST | SECOND, SECOND => true
  | _, _ => false
  end.

(** [class Flag(Base)]: the primary key and the pair status. *)
Record Flag : Type := mkFlag {
  fl_id : Z;
  first_nft_status : NFTStatus;
  second_nft_status : NFTStatus;
  is_pair_complete : bool
}.

(** [class FlagOwnership(Base)], all its columns but [created_at]. *)
Record FlagOwnership : Type := mkFlagOwnership {
  fo_id : Z;
  fo_user_id : Z;
  fo_flag_id : Z;
  ownership_type : OwnershipType;
  transaction_hash : option string
}.

(** [class FlagInterest(Base)] *)
Record FlagInterest : Type := mkFlagInterest {
  fi_id : Z;
  fi_user_id : Z;
  fi_flag_id : Z
}.

(** The tables the router reads and writes. *)
Record Tables : Type := mkTables {
  flag_rows : list Flag;
  user_rows : list User;
  ownership_rows : list FlagOwnership;
  interest_rows : list FlagInterest
}.

(** The [detail] of the router's [HTTPException]s. *)
Inductive Detail : Type :=
| FlagNotFound (id : Z)       (* "Flag with id {id} not found" *)
| AlreadyInterested           (* "User already expressed interest in this flag" *)
| FirstAlreadyClaimed         (* "First NFT already claimed" *)
| FirstNotClaimed             (* "First NFT must be claimed before purchasing second" *)
| SecondAlreadyPurchased.     (* "Second NFT already purchased" *)

(** What a handler leaves: a value, or a status code with its detail. *)
Inductive Outcome (A : Type) : Type :=
| Returned (a : A)
| Raised (status_code : Z) (detail : Detail).

Arguments Returned {A} a.
Arguments Raised {A} status_code detail.

(** [class FlagInterestCreate(BaseModel)], validated. *)
Record FlagInterestCreate : Type := mkFlagInterestCreate {
  ic_wallet_address : string
}.

(** [class FlagOwnershipCreate(BaseModel)], validated. *)
Record FlagOwnershipCreate : Type := mkFlagOwnershipCreate {
  oc_wallet_address : string;
  oc_ownership_type : OwnershipType;
  oc_transaction_hash : option string
}.

(** [get_or_create_user(db, wallet_address)], the copy of this router. *)
Definition get_or_create_user (wallet_address : string) (db : Tables)
    : User * Tables :=
  let wallet := lower wallet_address in
  match user_by_wallet wallet (user_rows db) with
  | Some user => (user, db)
  | None =>
      let user := mkUser (next_id (map user_id (user_rows db))) wallet 0 in
      (user,
       mkTables (flag_rows db) (user_rows db ++ [user]) (ownership_rows db)
         (interest_rows db))
  end.

(** [db.query(Flag).filter(Flag.id == flag_id).first()] *)
Definition flag_by_id (flag_id : Z) (l : list Flag) : option Flag :=
  find (fun f => fl_id f =? flag_id) l.

(** Writing through the attributes of the flag with primary key [flag_id]. *)
Definition update_flag_row (flag_id : Z) (f : Flag -> Flag) (l : list Flag)
    : list Flag :=
  map (fun x => if fl_id x =? flag_id then f x else x) l.

(** [flag.first_nft_status = NFTStatus.CLAIMED] *)
Definition claimed (f : Flag) : Flag :=
  mkFlag (fl_id f) CLAIMED (second_nft_status f) (is_pair_complete f).

(** [flag.second_nft_status = NFTStatus.PURCHASED;
    flag.is_pair_complete = True] *)
Definition purchased (f : Flag) : Flag :=
  mkFlag (fl_id f) (first_nft_status f) PURCHASED true.

(** [db.query(FlagInterest).filter(FlagInterest.user_id == uid,
    FlagInterest.flag_id == flag_id).first()] *)
Definition interest_of (uid flag_id : Z) (l : list FlagInterest)
    : option FlagInterest :=
  find (fun i => (fi_user_id i =? uid) && (fi_flag_id i =? flag_id))%bool l.

(** [register_interest(flag_id, interest, db)] *)
Definition register_interest (flag_id : Z) (interest : FlagInterestCreate)
    (db : Tables) : Outcome FlagInterest * Tables :=
  match flag_by_id flag_id (flag_rows db) with
  | None => (Raised HTTP_404_NOT_FOUND (FlagNotFound flag_id), db)
  | Some _ =>
      let (user, db1) := get_or_create_user (ic_wallet_address interest) db in
      match interest_of (user_id user) flag_id (interest_rows db1) with
      | Some _ => (Raised HTTP_400_BAD_REQUEST AlreadyInterested, db1)
      | None =>
          let db_interest :=
            mkFlagInterest (next_id (map fi_id (interest_rows db1)))
              (user_id user) flag_id in
          (Returned db_interest,
           mkTables (flag_rows db1) (user_rows db1) (ownership_rows db1)
             (interest_rows db1 ++ [db_interest]))
      end
  end.

(** [claim_first_nft(flag_id, ownership, db)] *)
Definition claim_first_nft (flag_id : Z) (ownership : FlagOwnershipCreate)
    (db : Tables) : Outcome FlagOwnership * Tables :=
  match flag_by_id flag_id (flag_rows db) with
  | None => (Raised HTTP_404_NOT_FOUND (FlagNotFound flag_id), db)
  | Some flag =>
      if negb (NFTStatus_eqb (first_nft_status flag) AVAILABLE) then
        (Raised HTTP_400_BAD_REQUEST FirstAlreadyClaimed, db)
      else
        let (user, db1) := get_or_create_user (oc_wallet_address ownership) db in
        let db_ownership :=
          mkFlagOwnership (next_id (map fo_id (ownership_rows db1)))
            (user_id user) flag_id FIRST (oc_transaction_hash ownership) in
        (Returned db_ownership,
         mkTables
           (update_flag_row flag_id claimed (flag_rows db1))
           (update_user (user_id user) (add_reputation 10) (user_rows db1))
           (ownership_rows db1 ++ [db_ownership])
           (interest_rows db1))
  end.

(** [purchase_second_nft(flag_id, ownership, db)] *)
Definition purchase_second_nft (flag_id : Z) (ownership : FlagOwnershipCreate)
    (db : Tables) : Outcome FlagOwnership * Tables :=
  match flag_by_id flag_id (flag_rows db) with
  | None => (Raised HTTP_404_NOT_FOUND (FlagNotFound flag_id), db)
  | Some flag =>
      if negb (NFTStatus_eqb (first_nft_status flag) CLAIMED) then
        (Raised HTTP_400_BAD_REQUEST FirstNotClaimed, db)
      else if negb (NFTStatus_eqb (second_nft_status flag) AVAILABLE) then
        (Raised HTTP_400_BAD_REQUEST SecondAlreadyPurchased, db)
      else
        let (user, db1) := get_or_create_user (oc_wallet_address ownership) db in
        let db_ownership :=
          mkFlagOwnership (next_id (map fo_id (ownership_rows db1)))
            (user_id user) flag_id SECOND (oc_transaction_hash ownership) in
        (Returned db_ownership,
         mkTables
           (update_flag_row flag_id purchased (flag_rows db1))
           (update_user (user_id user) (add_reputation 25) (user_rows db1))
           (ownership_rows db1 ++ [db_ownership])
           (interest_rows db1))
  end.

(** A request to one of the three writing endpoints, body validated. *)
Inductive Request : Type :=
| Interest (flag_id : Z) (interest : FlagInterestCreate)
| Claim (flag_id : Z) (ownership : FlagOwnershipCreate)
| Purchase (flag_id : Z) (ownership : FlagOwnershipCreate).

(** The tables after a request has been served. *)
Definition step (db : Tables) (r : Request) : Tables :=
  match r with
  | Interest flag_id interest => snd (register_interest flag_id interest db)
  | Claim flag_id ownership => snd (claim_first_nft flag_id ownership db)
  | Purchase flag_id ownership => snd (purchase_second_nft flag_id ownership db)
  end.

Definition run (db : Tables) (rs : list Request) : Tables :=
  fold_left step rs db.

(** The ownership rows of one kind that point at a flag. *)
Definition holders (ty : OwnershipType) (flag_id : Z) (l : list FlagOwnership)
    : list FlagOwnership :=
  filter (fun o => (fo_flag_id o =? flag_id)
                   && OwnershipType_eqb (ownership_type o) ty)%bool l.

(** The three states of the pair of a flag. *)
Definition pair_state (f : Flag) : Prop :=
  (first_nft_status f = AVAILABLE /\ second_nft_status f = AVAILABLE /\
   is_pair_complete f = false) \/
  (first_nft_status f = CLAIMED /\ second_nft_status f = AVAILABLE /\
   is_pair_complete f = false) \/
  (first_nft_status f = CLAIMED /\ second_nft_status f = PURCHASED /\
   is_pair_complete f = true).

(** The pair status of every flag agrees with the ownership rows: one FIRST
    row when the first NFT is claimed and none before, one SECOND row when
    the second is purchased and none before. *)
Definition pairs_sound (db : Tables) : Prop :=
  NoDup (map fl_id (flag_rows db)) /\
  (forall o, In o (ownership_rows db) ->
     exists f, In f (flag_rows db) /\ fl_id f = fo_flag_id o) /\
  forall f, In f (flag_rows db) ->
    pair_state f /\
    List.length (holders FIRST (fl_id f) (ownership_rows db)) =
      (if NFTStatus_eqb (first_nft_status f) AVAILABLE then 0 else 1)%nat /\
    List.length (holders SECOND (fl_id f) (ownership_rows db)) =
      (if NFTStatus_eqb (second_nft_status f) AVAILABLE then 0 else 1)%nat.

(** Tables in which no NFT has been claimed or purchased yet. *)
Definition untouched (db : Tables) : Prop :=
  NoDup (map fl_id (flag_rows db)) /\
  ownership_rows db = [] /\
  forall f, In f (flag_rows db) ->
    first_nft_status f = AVAILABLE /\ second_nft_status f = AVAILABLE /\
    is_pair_complete f = false.

(** No user has two interest rows for the same flag. *)
Definition interests_unique (db : Tables) : Prop :=
  NoDup (map (fun i => (fi_user_id i, fi_flag_id i)) (interest_rows db)).


End Flags.

(* ================================================================== *)
(** * routers/users.py: following and unfollowing *)
(* ================================================================== *)

Module Social.

(** [class UserConnection(Base)] *)
Record UserConnection : Type := mkUserConnection {
  uc_id : Z;
  follower_id : Z;
  following_id : Z
}.

(** The tables the two endpoints read and write. *)
Record Tables : Type := mkTables {
  user_rows : list User;
  connection_rows : list UserConnection
}.

(** The [detail] of the [HTTPException]s of the two endpoints. *)
Inductive Detail : Type :=
| CannotFollowYourself        (* "Cannot follow yourself" *)
| AlreadyFollowing            (* "Already following this user" *)
| UserNotFound                (* "User not found" *)
| ConnectionNotFound.         (* "Connection not found" *)

Inductive Outcome (A : Type) : Type :=
| Returned (a : A)
| Raised (status_code : Z) (detail : Detail).

Arguments Returned {A} a.
Arguments Raised {A} status_code detail.

(** [class FollowCreate(BaseModel)], validated. *)
Record FollowCreate : Type := mkFollowCreate {
  target_wallet : string
}.

(** [get_or_create_user(db, wallet_address)], the copy of this router. *)
Definition get_or_create_user (wallet_address : string) (db : Tables)
    : User * Tables :=
  let wallet := lower wallet_address in
  match user_by_wallet wallet (user_rows db) with
  | Some user => (user, db)
  | None =>
      let user := mkUser (next_id (map user_id (user_rows db))) wallet 0 in
      (user, mkTables (user_rows db ++ [user]) (connection_rows db))
  end.

(** [db.query(UserConnection).filter(
      UserConnection.follower_id == a,
      UserConnection.following_id == b).first()] *)
Definition connection_of (a b : Z) (l : list UserConnection)
    : option UserConnection :=
  find (fun c => (follower_id c =? a) && (following_id c =? b))%bool l.

(** [follow_user(wallet_address, follow_data, db)]; [wallet_address] is the
    path parameter, which no validator sees. *)
Definition follow_user (wallet_address : string) (follow_data : FollowCreate)
    (db : Tables) : Outcome UserConnection * Tables :=
  let follower_wallet := lower wallet_address in
  let following_wallet := lower (target_wallet follow_data) in
  if String.eqb follower_wallet following_wallet then
    (Raised HTTP_400_BAD_REQUEST CannotFollowYourself, db)
  else
    let (follower, db1) := get_or_create_user follower_wallet db in
    let (following, db2) := get_or_create_user following_wallet db1 in
    match connection_of (user_id follower) (user_id following)
            (connection_rows db2) with
    | Some _ => (Raised HTTP_400_BAD_REQUEST AlreadyFollowing, db2)
    | None =>
        let connection :=
          mkUserConnection (next_id (map uc_id (connection_rows db2)))
            (user_id follower) (user_id following) in
        (Returned connection,
         mkTables (user_rows db2) (connection_rows db2 ++ [connection]))
    end.

(** [db.delete(connection)]: the row with that primary key goes. *)
Definition delete_connection (connection : UserConnection)
    (l : list UserConnection) : list UserConnection :=
  filter (fun c => negb (uc_id c =? uc_id connection)) l.

(** [unfollow_user(wallet_address, target_wallet, db)]; both wallets are
    path parameters. *)
Definition unfollow_user (wallet_address target_wallet : string) (db : Tables)
    : Outcome unit * Tables :=
  let follower_wallet := lower wallet_address in
  let following_wallet := lower target_wallet in
  match user_by_wallet follower_wallet (user_rows db),
        user_by_wallet following_wallet (user_rows db) with
  | Some follower, Some following =>
      match connection_of (user_id follower) (user_id following)
              (connection_rows db) with
      | None => (Raised HTTP_404_NOT_FOUND ConnectionNotFound, db)
      | Some connection =>
          (Returned tt,
           mkTables (user_rows db)
             (delete_connection connection (connection_rows db)))
      end
  | _, _ => (Raised HTTP_404_NOT_FOUND UserNotFound, db)
  end.

Inductive Request : Type :=
| Follow (wallet_address : string) (follow_data : FollowCreate)
| Unfollow (wallet_address target_wallet : string).

Definition step (db : Tables) (r : Request) : Tables :=
  match r with
  | Follow wallet_address follow_data =>
      snd (follow_user wallet_address follow_data db)
  | Unfollow wallet_address target_wallet =>
      snd (unfollow_user wallet_address target_wallet db)
  end.

Definition run (db : Tables) (rs : list Request) : Tables :=
  fold_left step rs db.

(** The follow graph is simple: users have distinct ids, nobody follows
    themselves, and no pair is connected twice. *)
Definition graph_sound (db : Tables) : Prop :=
  NoDup (map user_id (user_rows db)) /\
  (forall c, In c (connection_rows db) -> follower_id c <> following_id c) /\
  NoDup (map (fun c => (follower_id c, following_id c)) (connection_rows db)).

End Social.

(* ================================================================== *)
(** * The order on sort keys *)
(* ================================================================== *)

Module FloatOrder.

Ltac float_cases :=
  repeat match goal with
  | x : PyFloat.float |- _ => destruct x as [[|]|[|]| |[|] ? ?]
  end.

Ltac cmp_cases :=
  repeat match goal with
  | H : context [Z.compare ?a ?b] |- _ => destruct (Z.compare_spec a b); subst
  | |- context [Z.compare ?a ?b] => destruct (Z.compare_spec a b); subst
  | H : context [Pos.compare_cont Eq ?a ?b] |- _ =>
      change (Pos.compare_cont Eq a b) with (Pos.compare a b) in *;
      destruct (Pos.compare_spec a b); subst
  | |- context [Pos.compare_cont Eq ?a ?b] =>
      change (Pos.compare_cont Eq a b) with (Pos.compare a b) in *;
      destruct (Pos.compare_spec a b); subst
  end.

(** Comparisons of IEEE values, settled by cases on the two or three
    operands. *)
Ltac float_order :=
  unfold PyFloat.ltb, PyFloat.eqb, SFltb, SFeqb, SFcompare; intros;
  float_cases; simpl in *; try congruence; try reflexivity;
  cmp_cases; simpl in *; try congruence; try reflexivity; try lia.

Lemma ltb_asym (a b : PyFloat.float) :
  PyFloat.ltb a b = true -> PyFloat.ltb b a = false.
Proof. float_order. Qed.

Lemma ltb_trans (a b c : PyFloat.float) :
  PyFloat.ltb a b = true -> PyFloat.ltb b c = true -> PyFloat.ltb a c = true.
Proof. float_order. Qed.

Lemma eqb_sym (a b : PyFloat.float) : PyFloat.eqb a b = PyFloat.eqb b a.
Proof. float_order. Qed.

Lemma eqb_trans (a b c : PyFloat.float) :
  PyFloat.eqb a b = true -> PyFloat.eqb b c = true -> PyFloat.eqb a c = true.
Proof. float_order. Qed.

Lemma eqb_ltb_l (a b c : PyFloat.float) :
  PyFloat.eqb a b = true -> PyFloat.ltb a c = PyFloat.ltb b c.
Proof. float_order. Qed.

Lemma eqb_ltb_r (a b c : PyFloat.float) :
  PyFloat.eqb a b = true -> PyFloat.ltb c a = PyFloat.ltb c b.
Proof. float_order. Qed.

Lemma ltb_not_eqb (a b : PyFloat.float) :
  PyFloat.ltb a b = true -> PyFloat.eqb a b = false.
Proof. float_order. Qed.

Lemma ltb_total (a b : PyFloat.float) :
  a <> S754_nan -> b <> S754_nan -> PyFloat.eqb a b = false ->
  PyFloat.ltb a b = true \/ PyFloat.ltb b a = true.
Proof.
  unfold PyFloat.ltb, PyFloat.eqb, SFltb, SFeqb, SFcompare; intros;
    float_cases; simpl in *; try congruence; auto;
    cmp_cases; simpl in *; try congruence; auto; lia.
Qed.

Lemma ltb_cotrans (a b c : PyFloat.float) :
  b <> S754_nan -> PyFloat.ltb a c = true ->
  PyFloat.ltb a b = true \/ PyFloat.ltb b c = true.
Proof.
  unfold PyFloat.ltb, PyFloat.eqb, SFltb, SFeqb, SFcompare; intros;
    float_cases; simpl in *; try congruence; auto;
    cmp_cases; simpl in *; try congruence; auto; lia.
Qed.

(** *** [float(d)] is a number *)

Lemma shr_1_nonneg (mrs : shr_record) : 0 <= shr_m mrs -> 0 <= shr_m (shr_1 mrs).
Proof. destruct mrs as [[|[p|p|]|p] r s]; simpl; lia. Qed.

Lemma iter_pos_shr_1_nonneg (n : positive) (mrs : shr_record) :
  0 <= shr_m mrs -> 0 <= shr_m (iter_pos shr_1 n mrs).
Proof.
  revert mrs. induction n as [n IH|n IH|]; intros mrs H; simpl.
  - apply IH, IH, shr_1_nonneg, H.
  - apply IH, IH, H.
  - apply shr_1_nonneg, H.
Qed.

Lemma shr_fexp_nonneg (prec emax m e : Z) (l : location) :
  0 <= m -> 0 <= shr_m (fst (shr_fexp prec emax m e l)).
Proof.
  intros H. unfold shr_fexp, shr.
  assert (H0 : 0 <= shr_m (shr_record_of_loc m l))
    by (destruct l as [|[| |]]; exact H).
  destruct (fexp prec emax (Zdigits2 m + e) - e); simpl; auto.
  now apply iter_pos_shr_1_nonneg.
Qed.

Lemma round_nearest_even_nonneg (m : Z) (l : location) :
  0 <= m -> 0 <= round_nearest_even m l.
Proof.
  intros H. destruct l as [|[| |]]; simpl; [lia|destruct (Z.even m); lia|lia|lia].
Qed.

(** Rounding a non-negative mantissa gives zero, a finite value or an
    infinity. *)
Lemma binary_round_aux_not_nan (prec emax : Z) (s : bool) (m e : Z) (l : location) :
  0 <= m -> binary_round_aux prec emax s m e l <> S754_nan.
Proof.
  intros H. unfold binary_round_aux.
  pose proof (shr_fexp_nonneg prec emax e l H) as H1.
  destruct (shr_fexp prec emax m e l) as [mrs' e']. simpl in H1.
  pose proof (shr_fexp_nonneg prec emax e' loc_Exact
                (round_nearest_even_nonneg (loc_of_shr_record mrs') H1)) as H2.
  destruct (shr_fexp prec emax _ e' loc_Exact) as [mrs'' e'']. simpl in H2.
  destruct (shr_m mrs'') as [|p|p]; [discriminate| |lia].
  destruct (e'' <=? emax - prec); discriminate.
Qed.

Lemma SFdiv_finite_not_nan (prec emax : Z) (s1 s2 : bool) (m1 m2 : positive)
    (e1 e2 : Z) :
  SFdiv prec emax (S754_finite s1 m1 e1) (S754_finite s2 m2 e2) <> S754_nan.
Proof.
  unfold SFdiv, SFdiv_core_binary.
  set (m' := match _ with Z0 => _ | Zpos _ => _ | Zneg _ => _ end).
  assert (Hm' : 0 <= m').
  { subst m'. destruct (_ - _ - _); try lia. apply Z.shiftl_nonneg. lia. }
  pose proof (Z.div_pos m' (Zpos m2) Hm' ltac:(lia)) as Hq.
  unfold Z.div in Hq. destruct (Z.div_eucl m' (Zpos m2)) as [q r]. simpl in Hq.
  now apply binary_round_aux_not_nan.
Qed.

Lemma of_decimal_not_nan (d : Decimal) : PyFloat.of_decimal d <> S754_nan.
Proof.
  unfold PyFloat.of_decimal.
  destruct d; [discriminate| |]; apply SFdiv_finite_not_nan.
Qed.

Lemma neg_not_nan (x : PyFloat.float) : x <> S754_nan -> PyFloat.neg x <> S754_nan.
Proof. destruct x; simpl; congruence. Qed.


End FloatOrder.

Lemma tuple_lt_asym (k1 k2 : SortKey) :
  tuple_lt k1 k2 = true -> tuple_lt k2 k1 = false.
Proof.
  destruct k1 as [[f1 p1] t1], k2 as [[f2 p2] t2]; unfold tuple_lt.
  rewrite (FloatOrder.eqb_sym f2 f1), (Z.eqb_sym p2 p1).
  destruct (PyFloat.eqb f1 f2); simpl.
  - destruct (Z.eqb_spec p1 p2); simpl; intros H.
    + apply Z.ltb_lt in H. apply Z.ltb_ge. lia.
    + apply Z.ltb_lt in H. apply Z.ltb_ge. lia.
  - apply FloatOrder.ltb_asym.
Qed.

Lemma tuple_lt_trans (k1 k2 k3 : SortKey) :
  tuple_lt k1 k2 = true -> tuple_lt k2 k3 = true -> tuple_lt k1 k3 = true.
Proof.
  destruct k1 as [[f1 p1] t1], k2 as [[f2 p2] t2], k3 as [[f3 p3] t3].
  unfold tuple_lt.
  destruct (PyFloat.eqb f1 f2) eqn:E12, (PyFloat.eqb f2 f3) eqn:E23; simpl.
  - rewrite (FloatOrder.eqb_trans _ _ _ E12 E23); simpl.
    destruct (Z.eqb_spec p1 p2), (Z.eqb_spec p2 p3), (Z.eqb_spec p1 p3);
      simpl; rewrite ?Z.ltb_lt; lia.
  - intros _ H23.
    rewrite <- (FloatOrder.eqb_ltb_l _ _ f3 E12) in H23.
    now rewrite (FloatOrder.ltb_not_eqb _ _ H23).
  - intros H12 _.
    rewrite (FloatOrder.eqb_ltb_r _ _ f1 E23) in H12.
    now rewrite (FloatOrder.ltb_not_eqb _ _ H12).
  - intros H12 H23.
    pose proof (FloatOrder.ltb_trans _ _ _ H12 H23) as H13.
    now rewrite (FloatOrder.ltb_not_eqb _ _ H13).
Qed.

Lemma bid_key_not_nan (b : Bid) : fst (fst (bid_key b)) <> S754_nan.
Proof. apply FloatOrder.neg_not_nan, FloatOrder.of_decimal_not_nan. Qed.

(** Two keys whose first items are numbers and whose timestamps differ are
    strictly ordered, one way or the other. *)
Lemma tuple_lt_total (k1 k2 : SortKey) :
  fst (fst k1) <> S754_nan -> fst (fst k2) <> S754_nan ->
  snd k1 <> snd k2 ->
  tuple_lt k1 k2 = true \/ tuple_lt k2 k1 = true.
Proof.
  destruct k1 as [[f1 p1] t1], k2 as [[f2 p2] t2]; simpl.
  intros H1 H2 Ht.
  rewrite (FloatOrder.eqb_sym f2 f1), (Z.eqb_sym p2 p1).
  destruct (PyFloat.eqb f1 f2) eqn:E; simpl.
  - destruct (Z.eqb_spec p1 p2); simpl; rewrite !Z.ltb_lt; lia.
  - now apply FloatOrder.ltb_total.
Qed.

(** A key between two strictly ordered ones is above the lower or below
    the upper one. *)
Lemma tuple_lt_cotrans (k1 k2 k3 : SortKey) :
  fst (fst k1) <> S754_nan -> fst (fst k2) <> S754_nan ->
  tuple_lt k1 k3 = true ->
  tuple_lt k1 k2 = true \/ tuple_lt k2 k3 = true.
Proof.
  destruct k1 as [[f1 p1] t1], k2 as [[f2 p2] t2], k3 as [[f3 p3] t3]; simpl.
  intros H1 H2.
  destruct (PyFloat.eqb f1 f3) eqn:E13; simpl.
  - destruct (PyFloat.eqb f1 f2) eqn:E12; simpl.
    + assert (E23 : PyFloat.eqb f2 f3 = true).
      { apply FloatOrder.eqb_trans with f1; [|exact E13].
        now rewrite FloatOrder.eqb_sym. }
      rewrite E23; simpl.
      destruct (Z.eqb_spec p1 p3), (Z.eqb_spec p1 p2), (Z.eqb_spec p2 p3);
        simpl; rewrite !Z.ltb_lt; lia.
    + intros _.
      destruct (FloatOrder.ltb_total H1 H2 E12) as [H|H]; [now left|right].
      rewrite (FloatOrder.eqb_ltb_r _ _ f2 E13) in H.
      now rewrite (FloatOrder.ltb_not_eqb _ _ H).
  - intros H13.
    destruct (@FloatOrder.ltb_cotrans f1 f2 f3 H2 H13) as [H|H]; [left|right];
      now rewrite (FloatOrder.ltb_not_eqb _ _ H).
Qed.

(* ================================================================== *)
(** * Winner determination: the head of the sorted list *)
(* ================================================================== *)

Section SortedHead.
Variables (A K : Type).
Variable key : A -> K.
Variable lt : K -> K -> bool.

Lemma insert_sorted_not_nil (x : A) (l : list A) :
  insert_sorted key lt x l <> [].
Proof. destruct l as [|y l]; simpl; [|destruct (lt (key y) (key x))]; discriminate. Qed.

Lemma sorted_nil_inv (l : list A) : sorted key lt l = [] -> l = [].
Proof.
  destruct l as [|x l]; simpl; intros H; [reflexivity|].
  now apply insert_sorted_not_nil in H.
Qed.

(** The head of an insertion: the old head if it is strictly smaller,
    the new element otherwise. *)
Lemma hd_insert_sorted (x : A) (l : list A) :
  hd_error (insert_sorted key lt x l) =
  match hd_error l with
  | None => Some x
  | Some y => if lt (key y) (key x) then Some y else Some x
  end.
Proof. destruct l as [|y l]; simpl; [|destruct (lt (key y) (key x))]; reflexivity. Qed.
End SortedHead.

Lemma determine_winner_hd (l : list Bid) :
  determine_winner l = hd_error (sorted bid_key tuple_lt l).
Proof.
  unfold determine_winner. destruct l as [|x l]; [reflexivity|].
  destruct (sorted bid_key tuple_lt (x :: l)); reflexivity.
Qed.

(** Winner determination as a running best: a later bid in the list keeps
    the lead only when its key is strictly smaller. *)
Lemma determine_winner_cons (x : Bid) (l : list Bid) :
  determine_winner (x :: l) =
  match determine_winner l with
  | None => Some x
  | Some w => if tuple_lt (bid_key w) (bid_key x) then Some w else Some x
  end.
Proof.
  rewrite !determine_winner_hd. simpl. apply hd_insert_sorted.
Qed.

Lemma determine_winner_none (l : list Bid) :
  determine_winner l = None -> l = [].
Proof. destruct l; [reflexivity|]. rewrite determine_winner_cons.
  destruct (determine_winner l) as [w|]; [destruct (tuple_lt _ _)|]; discriminate. Qed.

Lemma determine_winner_In (l : list Bid) (w : Bid) :
  determine_winner l = Some w -> In w l.
Proof.
  revert w; induction l as [|x l IH]; intros w; [discriminate|].
  rewrite determine_winner_cons.
  destruct (determine_winner l) as [w0|].
  - destruct (tuple_lt (bid_key w0) (bid_key x)); intros [= <-];
      [right; now apply IH | now left].
  - intros [= <-]; now left.
Qed.

Lemma strictly_ordered_tail (x : Bid) (l : list Bid) :
  strictly_ordered (x :: l) -> strictly_ordered l.
Proof. intros H b1 b2 H1 H2. apply H; now right. Qed.

(** Without ties the winner's key is strictly below every other bid's. *)
Lemma determine_winner_least (l : list Bid) (w : Bid) :
  strictly_ordered l ->
  determine_winner l = Some w ->
  forall b, In b l -> b <> w -> tuple_lt (bid_key w) (bid_key b) = true.
Proof.
  revert w; induction l as [|x l IH]; intros w Hso; [discriminate|].
  rewrite determine_winner_cons.
  pose proof (strictly_ordered_tail Hso) as Hso'.
  destruct (determine_winner l) as [w0|] eqn:Hw0.
  - pose proof (determine_winner_In _ Hw0) as Hin0.
    destruct (tuple_lt (bid_key w0) (bid_key x)) eqn:Hlt; intros [= <-] b Hb Hne.
    + destruct Hb as [<-|Hb]; [exact Hlt | now apply (IH w0)].
    + destruct Hb as [->|Hb]; [congruence|].
      assert (Hx : x = w0 \/ tuple_lt (bid_key x) (bid_key w0) = true).
      { destruct (Bid_eq_dec x w0) as [|Hd]; [now left|right].
        destruct (Hso x w0) as [H|H]; [now left | now right | exact Hd
                                      | exact H | congruence]. }
      destruct Hx as [->|Hx]; [now apply (IH w0)|].
      destruct (Bid_eq_dec b w0) as [->|Hd]; [exact Hx|].
      apply tuple_lt_trans with (bid_key w0); [exact Hx | now apply (IH w0)].
  - apply determine_winner_none in Hw0; subst l.
    intros [= <-] b [->|[]] Hne; congruence.
Qed.

Lemma tuple_lt_irrefl (k : SortKey) : tuple_lt k k = false.
Proof.
  destruct (tuple_lt k k) eqn:E; [|reflexivity].
  pose proof (tuple_lt_asym _ _ E). congruence.
Qed.

(** No bid of the list has a key strictly below the winner's: the winner is
    maximal for the order "higher float amount, then higher category, then
    earlier stamp". *)
Lemma determine_winner_unbeaten (l : list Bid) (w : Bid) :
  determine_winner l = Some w ->
  forall b, In b l -> tuple_lt (bid_key b) (bid_key w) = false.
Proof.
  revert w; induction l as [|x l IH]; intros w; [discriminate|].
  rewrite determine_winner_cons.
  destruct (determine_winner l) as [w0|] eqn:Hw0.
  - destruct (tuple_lt (bid_key w0) (bid_key x)) eqn:Hlt; intros [= <-] b Hb.
    + destruct Hb as [<-|Hb]; [now apply tuple_lt_asym | now apply IH].
    + destruct Hb as [<-|Hb]; [apply tuple_lt_irrefl|].
      destruct (tuple_lt (bid_key b) (bid_key x)) eqn:Hbx; [|reflexivity].
      destruct (tuple_lt_cotrans (bid_key b) (bid_key w0) (bid_key x)
                  (bid_key_not_nan b) (bid_key_not_nan w0) Hbx) as [H|H].
      * rewrite (IH w0 eq_refl b Hb) in H. discriminate.
      * congruence.
  - apply determine_winner_none in Hw0; subst l.
    intros [= <-] b [<-|[]]. apply tuple_lt_irrefl.
Qed.

Lemma NoDup_map_injective (A B : Type) (f : A -> B) (l : list A) (x y : A) :
  NoDup (map f l) -> In x l -> In y l -> f x = f y -> x = y.
Proof.
  induction l as [|a l IH]; simpl; [tauto|].
  intros Hnd Hx Hy Hf. inversion Hnd as [|? ? Hnotin Hnd']; subst.
  destruct Hx as [->|Hx], Hy as [->|Hy]; auto.
  - exfalso. apply Hnotin. rewrite Hf. now apply in_map.
  - exfalso. apply Hnotin. rewrite <- Hf. now apply in_map.
Qed.

(** Bids with pairwise different [created_at] never tie. *)
Lemma strictly_ordered_of_distinct_stamps (l : list Bid) :
  NoDup (map created_at l) -> strictly_ordered l.
Proof.
  intros Hnd b1 b2 H1 H2 Hne.
  apply tuple_lt_total; try apply bid_key_not_nan.
  simpl. intros Heq. apply Hne.
  exact (NoDup_map_injective created_at l b1 b2 Hnd H1 H2 Heq).
Qed.

(** The tie-break of the specification: at equal amounts of 100.0 a Premium
    bid beats a Standard one whatever the timestamps and the list order. *)
Lemma premium_beats_standard_on_tie (i1 i2 a1 a2 u1 u2 t1 t2 : Z) :
  let std := mkBid i1 a1 u1 (100 * one_unit) STANDARD t1 in
  let prm := mkBid i2 a2 u2 (100 * one_unit) PREMIUM t2 in
  determine_winner [std; prm] = Some prm /\
  determine_winner [prm; std] = Some prm.
Proof. split; reflexivity. Qed.

(** At equal amount and category the earlier bid wins. *)
Lemma earlier_wins_on_full_tie (i1 i2 a1 a2 u1 u2 t1 t2 : Z) (c : FlagCategory) :
  t1 < t2 ->
  let b1 := mkBid i1 a1 u1 (100 * one_unit) c t1 in
  let b2 := mkBid i2 a2 u2 (100 * one_unit) c t2 in
  determine_winner [b1; b2] = Some b1 /\
  determine_winner [b2; b1] = Some b1.
Proof.
  intros Ht b1 b2.
  assert (H21 : tuple_lt (bid_key b2) (bid_key b1) = false).
  { destruct c; cbn; apply Z.ltb_ge; lia. }
  assert (H12 : tuple_lt (bid_key b1) (bid_key b2) = true).
  { destruct c; cbn; apply Z.ltb_lt; lia. }
  split; rewrite !determine_winner_cons; cbn [determine_winner];
    [now rewrite H21 | now rewrite H12].
Qed.

(** C1 (defect in the code): the sort key takes [float(b.amount)], and the
    two amounts 100000000.00000001 < 100000000.00000002 convert to the same
    binary64 value.  The bids then count as tied on amount and the category
    decides: the Premium bid with the strictly lower amount is selected over
    the Standard bid with the higher amount, in either list order. *)
Theorem determine_winner_ignores_close_amounts :
  amount Sample.premium_lo < amount Sample.standard_hi /\
  PyFloat.of_decimal (amount Sample.premium_lo) =
    PyFloat.of_decimal (amount Sample.standard_hi) /\
  determine_winner [Sample.premium_lo; Sample.standard_hi] = Some Sample.premium_lo /\
  determine_winner [Sample.standard_hi; Sample.premium_lo] = Some Sample.premium_lo.
Proof. repeat split; vm_compute; reflexivity. Qed.

(** C2, as stated, fails: two bids that tie on the whole sort key are
    returned in list order, so swapping them changes the winner. *)
Lemma determine_winner_tie_follows_list_order :
  Permutation [Sample.tie_a; Sample.tie_b] [Sample.tie_b; Sample.tie_a] /\
  determine_winner [Sample.tie_a; Sample.tie_b] = Some Sample.tie_a /\
  determine_winner [Sample.tie_b; Sample.tie_a] = Some Sample.tie_b /\
  determine_winner [Sample.tie_b; Sample.tie_a] <>
    determine_winner [Sample.tie_a; Sample.tie_b].
Proof.
  split; [apply perm_swap|].
  repeat split; try (vm_compute; reflexivity).
  vm_compute; discriminate.
Qed.

(** The same through the endpoints: two bids accepted within one clock
    reading, with amounts that [float] does not tell apart, tie on the whole
    key; the winner is whichever comes first in the list. *)
Lemma reachable_tie_follows_list_order :
  let db := run Sample.db0
              [Sample.open_auction;
               PlaceBid 1 (mkBidCreateBody Sample.bob Sample.amount_lo None) 10 10;
               PlaceBid 1 (mkBidCreateBody Sample.carol Sample.amount_hi None) 10 10] in
  let l := bids_of 1 (bids db) in
  map bidder_id l = [2; 3] /\
  option_map bidder_id (determine_winner l) = Some 2 /\
  option_map bidder_id (determine_winner (rev l)) = Some 3.
Proof. repeat split; vm_compute; reflexivity. Qed.

Lemma strictly_ordered_perm (l l' : list Bid) :
  Permutation l l' -> strictly_ordered l -> strictly_ordered l'.
Proof.
  intros HP H b1 b2 H1 H2.
  apply H; apply (Permutation_in _ (Permutation_sym HP)); assumption.
Qed.

(** C2 (amended): when no two different bids of the list tie on the sort
    key, every permutation of the list has the same winner. *)
Theorem determine_winner_permutation (l l' : list Bid) :
  Permutation l l' ->
  strictly_ordered l ->
  determine_winner l' = determine_winner l.
Proof.
  intros HP Hso.
  pose proof (strictly_ordered_perm HP Hso) as Hso'.
  destruct (determine_winner l) as [w|] eqn:Hw.
  - destruct (determine_winner l') as [w'|] eqn:Hw'.
    + destruct (Bid_eq_dec w' w) as [->|Hne]; [reflexivity|exfalso].
      pose proof (determine_winner_In _ Hw) as Hin.
      pose proof (determine_winner_In _ Hw') as Hin'.
      assert (H1 : tuple_lt (bid_key w) (bid_key w') = true).
      { apply (determine_winner_least Hso Hw); [|exact Hne].
        eapply Permutation_in; [apply Permutation_sym|]; eauto. }
      assert (H2 : tuple_lt (bid_key w') (bid_key w) = true).
      { apply (determine_winner_least Hso' Hw'); [|congruence].
        eapply Permutation_in; eauto. }
      apply tuple_lt_asym in H1. congruence.
    + apply determine_winner_none in Hw'. subst l'.
      apply Permutation_sym, Permutation_nil in HP. subst l. discriminate.
  - apply determine_winner_none in Hw. subst l.
    apply Permutation_nil in HP. now subst l'.
Qed.

Lemma determine_winner_permutation_witness :
  determine_winner [Sample.standard_hi; Sample.premium_lo] =
  determine_winner [Sample.premium_lo; Sample.standard_hi].
Proof.
  apply determine_winner_permutation.
  - apply perm_swap.
  - intros b1 b2 [<-|[<-|[]]] [<-|[<-|[]]] Hne; try congruence;
      vm_compute; auto.
Defined.

(* ================================================================== *)
(** * Running the handlers *)
(* ================================================================== *)

(** Unfolds the session monad down to the queries. *)
Ltac run_handler :=
  cbv beta iota delta [bind query ret raise commit respond] in *.

Create HintDb auction discriminated.

Lemma AuctionStatus_eqb_eq (s1 s2 : AuctionStatus) :
  AuctionStatus_eqb s1 s2 = true <-> s1 = s2.
Proof. destruct s1, s2; simpl; split; congruence. Qed.

Lemma AuctionStatus_eqb_neq (s1 s2 : AuctionStatus) :
  AuctionStatus_eqb s1 s2 = false <-> s1 <> s2.
Proof. destruct s1, s2; simpl; split; congruence. Qed.

Section Tables.
Variable A : Type.
Variable pk : A -> Z.

Lemma fold_max_bound (ids : list Z) (x : Z) :
  In x ids -> x <= fold_right Z.max 0 ids.
Proof.
  induction ids as [|y ids IH]; simpl; [tauto|].
  intros [->|H]; [|specialize (IH H)]; lia.
Qed.

(** A fresh primary key is above every key of the table. *)
Lemma next_id_fresh (l : list A) (a : A) :
  In a l -> pk a < next_id (map pk l).
Proof.
  intros H. unfold next_id.
  pose proof (fold_max_bound (map pk l) (pk a) (in_map pk l a H)). lia.
Qed.

Lemma find_pk_next_id (l : list A) :
  find (fun a => pk a =? next_id (map pk l)) l = None.
Proof.
  destruct (find _ l) as [a|] eqn:H; [|reflexivity].
  apply find_some in H. destruct H as [Hin Heq].
  apply next_id_fresh in Hin. apply Z.eqb_eq in Heq. lia.
Qed.

Lemma find_app_some (p : A -> bool) (l l' : list A) (a : A) :
  find p l = Some a -> find p (l ++ l') = Some a.
Proof.
  induction l as [|x l IH]; simpl; [discriminate|].
  destruct (p x); [auto|apply IH].
Qed.

Lemma find_app_none (p : A -> bool) (l l' : list A) :
  find p l = None -> find p (l ++ l') = find p l'.
Proof.
  induction l as [|x l IH]; simpl; [reflexivity|].
  destruct (p x); [discriminate|apply IH].
Qed.

(** Looking a row up by primary key after an update that keeps the keys. *)
Lemma find_pk_map (f : A -> A) (id : Z) (l : list A) :
  (forall a, pk (f a) = pk a) ->
  find (fun a => pk a =? id) (map f l) =
  option_map f (find (fun a => pk a =? id) l).
Proof.
  intros Hpk. induction l as [|x l IH]; simpl; [reflexivity|].
  rewrite Hpk. destruct (pk x =? id); [reflexivity|apply IH].
Qed.
End Tables.

Lemma auction_by_id_update_same (id : Z) (f : Auction -> Auction)
    (l : list Auction) :
  (forall a, auction_id (f a) = auction_id a) ->
  auction_by_id id (update_auction id f l) = option_map f (auction_by_id id l).
Proof.
  intros Hpk. unfold auction_by_id, update_auction.
  induction l as [|x l IH]; simpl; [reflexivity|].
  destruct (auction_id x =? id) eqn:E.
  - rewrite Hpk, E. reflexivity.
  - rewrite E. apply IH.
Qed.

Lemma auction_by_id_update_other (id id' : Z) (f : Auction -> Auction)
    (l : list Auction) :
  (forall a, auction_id (f a) = auction_id a) ->
  id <> id' ->
  auction_by_id id (update_auction id' f l) = auction_by_id id l.
Proof.
  intros Hpk Hne. unfold auction_by_id, update_auction.
  induction l as [|x l IH]; simpl; [reflexivity|].
  destruct (auction_id x =? id') eqn:E'.
  - rewrite Hpk. apply Z.eqb_eq in E'.
    replace (auction_id x =? id) with false by (symmetry; apply Z.eqb_neq; lia).
    apply IH.
  - destruct (auction_id x =? id); [reflexivity|apply IH].
Qed.

Lemma user_by_id_update_same (id : Z) (f : User -> User) (l : list User) :
  (forall u, user_id (f u) = user_id u) ->
  user_by_id id (update_user id f l) = option_map f (user_by_id id l).
Proof.
  intros Hpk. unfold user_by_id, update_user.
  induction l as [|x l IH]; simpl; [reflexivity|].
  destruct (user_id x =? id) eqn:E.
  - rewrite Hpk, E. reflexivity.
  - rewrite E. apply IH.
Qed.

Lemma user_by_id_update_other (id id' : Z) (f : User -> User) (l : list User) :
  (forall u, user_id (f u) = user_id u) ->
  id <> id' ->
  user_by_id id (update_user id' f l) = user_by_id id l.
Proof.
  intros Hpk Hne. unfold user_by_id, update_user.
  induction l as [|x l IH]; simpl; [reflexivity|].
  destruct (user_id x =? id') eqn:E'.
  - rewrite Hpk. apply Z.eqb_eq in E'.
    replace (user_id x =? id) with false by (symmetry; apply Z.eqb_neq; lia).
    apply IH.
  - destruct (user_id x =? id); [reflexivity|apply IH].
Qed.

(** [get_or_create_user] always returns; it leaves the database alone when
    the wallet is known and appends one fresh user otherwise. *)
Lemma get_or_create_user_known (wallet : string) (db : Database) (u : User) :
  user_by_wallet (lower wallet) (users db) = Some u ->
  get_or_create_user wallet db = (Returned u, db).
Proof. intros H. unfold get_or_create_user. run_handler. now rewrite H. Qed.

Lemma get_or_create_user_unknown (wallet : string) (db : Database) :
  user_by_wallet (lower wallet) (users db) = None ->
  let u := mkUser (next_id (map user_id (users db))) (lower wallet) 0 in
  get_or_create_user wallet db = (Returned u, set_users (users db ++ [u]) db).
Proof. intros H. unfold get_or_create_user. run_handler. now rewrite H. Qed.

Lemma get_or_create_user_cases (wallet : string) (db : Database) :
  (exists u, user_by_wallet (lower wallet) (users db) = Some u /\
             get_or_create_user wallet db = (Returned u, db)) \/
  (user_by_wallet (lower wallet) (users db) = None /\
   let u := mkUser (next_id (map user_id (users db))) (lower wallet) 0 in
   get_or_create_user wallet db = (Returned u, set_users (users db ++ [u]) db)).
Proof.
  destruct (user_by_wallet (lower wallet) (users db)) as [u|] eqn:H.
  - left. exists u. split; [reflexivity|now apply get_or_create_user_known].
  - right. split; [reflexivity|now apply get_or_create_user_unknown].
Qed.

(* ================================================================== *)
(** * Creating an auction *)
(* ================================================================== *)

(** C9: a creation request whose [buyout_price] does not exceed its
    [starting_price] (in particular one where both are 1.0) is rejected by
    the validation of [AuctionCreate]; the handler does not run and the
    database, hence the auctions table, is unchanged.  With a positive
    starting price the rejection carries the message of
    [validate_buyout_price]. *)
Theorem buyout_must_exceed_starting_price
    (body : AuctionCreateBody) (now : Z) (db : Database) (b : Decimal) :
  body_buyout_price body = Some b ->
  b <= body_starting_price body ->
  exists errors,
    post_auction body now db = (Unprocessable errors, db) /\
    errors <> [] /\
    (0 < b -> In buyout_message errors).
Proof.
  intros Hb Hle. unfold post_auction, AuctionCreate_validate.
  set (w := field_wallet_address _). set (sp := field_gt0 _).
  set (mp := field_optional_gt0 _). set (dh := field_duration_hours _).
  assert (Hbp : exists msg,
             field_buyout_price (body_buyout_price body) (value_of sp) = inl msg /\
             (0 < b -> msg = buyout_message)).
  { rewrite Hb. unfold field_buyout_price, field_optional_gt0.
    destruct (Z.ltb_spec 0 b) as [Hpos|Hneg].
    - subst sp. unfold field_gt0.
      destruct (Z.ltb_spec 0 (body_starting_price body)) as [_|Hsp]; [|lia].
      simpl. destruct (Z.leb_spec b (body_starting_price body)); [|lia].
      eexists; split; [reflexivity|reflexivity].
    - eexists; split; [reflexivity|lia]. }
  destruct Hbp as (msg & -> & Hmsg).
  exists (errors_of w ++ errors_of sp ++ errors_of mp ++ [msg] ++ errors_of dh)%list.
  split; [|split].
  - destruct w, sp, mp, dh; reflexivity.
  - intros H.
    do 3 (apply app_eq_nil in H; destruct H as [_ H]).
    discriminate.
  - intros Hpos. rewrite (Hmsg Hpos).
    do 3 (apply in_or_app; right). now left.
Qed.

Lemma buyout_must_exceed_starting_price_witness :
  exists errors,
    post_auction (mkAuctionCreateBody 1 Sample.alice one_unit None (Some one_unit) 1)
      0 Sample.db0 = (Unprocessable errors, Sample.db0) /\
    errors <> [] /\
    (0 < one_unit -> In buyout_message errors).
Proof.
  apply (@buyout_must_exceed_starting_price
           (mkAuctionCreateBody 1 Sample.alice one_unit None (Some one_unit) 1)
           0 Sample.db0 one_unit).
  - reflexivity.
  - simpl. lia.
Defined.

(** A validated creation request always has a buyout price above the
    starting price. *)
Lemma AuctionCreate_validate_buyout (body : AuctionCreateBody)
    (auction_data : AuctionCreate) (b : Decimal) :
  AuctionCreate_validate body = inr auction_data ->
  ac_buyout_price auction_data = Some b ->
  ac_starting_price auction_data < b.
Proof.
  unfold AuctionCreate_validate, field_buyout_price, field_gt0.
  destruct (field_wallet_address _); [discriminate|].
  destruct (Z.ltb_spec 0 (body_starting_price body)); [|discriminate].
  destruct (field_optional_gt0 (body_min_price body)); [discriminate|].
  destruct (field_optional_gt0 (body_buyout_price body)) as [|[v|]];
    [discriminate| |]; simpl.
  - destruct (Z.leb_spec v (body_starting_price body)); [discriminate|].
    destruct (field_duration_hours _); [discriminate|].
    intros [= <-]; simpl. intros [= <-]. assumption.
  - destruct (field_duration_hours _); [discriminate|].
    intros [= <-]; simpl. discriminate.
Qed.

Lemma find_none_forall (A : Type) (p : A -> bool) (l : list A) :
  (forall x, In x l -> p x = false) -> find p l = None.
Proof.
  intros H. destruct (find p l) as [x|] eqn:E; [|reflexivity].
  apply find_some in E. destruct E as [Hin Hp]. rewrite (H x Hin) in Hp.
  discriminate.
Qed.

(** A freshly allocated user owns nothing. *)
Lemma ownership_of_fresh_user (db : Database) (fid : Z) :
  ownerships_have_users db = true ->
  ownership_of fid (next_id (map user_id (users db))) (ownerships db) = None.
Proof.
  intros Hfk. apply find_none_forall. intros o Ho.
  unfold ownerships_have_users in Hfk. rewrite forallb_forall in Hfk.
  specialize (Hfk o Ho). apply existsb_exists in Hfk.
  destruct Hfk as (u & Hu & Heq). apply Z.eqb_eq in Heq.
  pose proof (next_id_fresh user_id (users db) u Hu).
  apply andb_false_iff. right. apply Z.eqb_neq. lia.
Qed.

(** C8, as stated, fails: a creation request from a wallet that is not yet
    registered is answered 403, not 404, and leaves a new user row behind. *)
Lemma create_auction_unknown_seller_is_registered :
  let body := mkAuctionCreateBody 1 Sample.bob one_unit None None 1 in
  let db' := set_users (users Sample.db0 ++ [mkUser 2 Sample.bob 0]) Sample.db0 in
  user_by_wallet Sample.bob (users Sample.db0) = None /\
  post_auction body 0 Sample.db0 =
    (Failure (mkHTTPException HTTP_403_FORBIDDEN MustOwnFlag), db') /\
  HTTP_403_FORBIDDEN <> HTTP_404_NOT_FOUND /\
  db' <> Sample.db0.
Proof. repeat split; try (vm_compute; reflexivity); vm_compute; discriminate. Qed.

(** C8 (amended): in a database where every ownership row names a
    registered user (the foreign key of [FlagOwnership.user_id]), an unknown
    flag gives 404 and leaves the database as it was.  For a known flag and a wallet that is not registered, the seller is
    created, the request fails with 403 because the new user owns nothing,
    no auction is created, and the new user row is the only change. *)
Theorem create_auction_unknown_flag_or_seller
    (auction_data : AuctionCreate) (now : Z) (db : Database) :
  ownerships_have_users db = true ->
  (find (Z.eqb (ac_flag_id auction_data)) (flags db) = None ->
   create_auction auction_data now db =
     (Raised (mkHTTPException HTTP_404_NOT_FOUND
                (FlagNotFound (ac_flag_id auction_data))), db)) /\
  (find (Z.eqb (ac_flag_id auction_data)) (flags db) <> None ->
   user_by_wallet (lower (ac_wallet_address auction_data)) (users db) = None ->
   let seller :=
     mkUser (next_id (map user_id (users db)))
       (lower (ac_wallet_address auction_data)) 0 in
   create_auction auction_data now db =
     (Raised (mkHTTPException HTTP_403_FORBIDDEN MustOwnFlag),
      set_users (users db ++ [seller]) db)).
Proof.
  intros Hfk. split.
  - intros Hflag. unfold create_auction. run_handler. now rewrite Hflag.
  - intros Hflag Hwallet seller. unfold create_auction.
    unfold bind at 1. unfold query at 1.
    destruct (find _ (flags db)) as [f|]; [|congruence].
    unfold bind at 1.
    rewrite (get_or_create_user_unknown _ _ Hwallet). fold seller.
    run_handler. simpl.
    now rewrite (ownership_of_fresh_user db (ac_flag_id auction_data) Hfk).
Qed.

Lemma create_auction_unknown_flag_or_seller_witness :
  let auction_data := mkAuctionCreate 1 Sample.bob one_unit one_unit None 1 in
  (find (Z.eqb 1) (flags Sample.db0) = None ->
   create_auction auction_data 0 Sample.db0 =
     (Raised (mkHTTPException HTTP_404_NOT_FOUND (FlagNotFound 1)), Sample.db0)) /\
  (find (Z.eqb 1) (flags Sample.db0) <> None ->
   user_by_wallet (lower Sample.bob) (users Sample.db0) = None ->
   let seller := mkUser (next_id (map user_id (users Sample.db0))) (lower Sample.bob) 0 in
   create_auction auction_data 0 Sample.db0 =
     (Raised (mkHTTPException HTTP_403_FORBIDDEN MustOwnFlag),
      set_users (users Sample.db0 ++ [seller]) Sample.db0)).
Proof.
  apply (@create_auction_unknown_flag_or_seller
           (mkAuctionCreate 1 Sample.bob one_unit one_unit None 1) 0 Sample.db0).
  reflexivity.
Defined.

(* ================================================================== *)
(** * Bidding on one's own auction *)
(* ================================================================== *)

(** Every failure of [place_bid] carries 404 (no such auction) or 400. *)
Lemma place_bid_failure_status (id : Z) (bid_data : BidCreate)
    (now created : Z) (db db' : Database) (e : HTTPException) :
  place_bid id bid_data now created db = (Raised e, db') ->
  (auction_by_id id (auctions db) = None /\
   status_code e = HTTP_404_NOT_FOUND) \/
  status_code e = HTTP_400_BAD_REQUEST.
Proof.
  unfold place_bid. unfold bind at 1. unfold query at 1.
  destruct (auction_by_id id (auctions db)) as [auction|];
    [|intros [= <- _]; now left].
  destruct (negb _); [intros [= <- _]; now right|].
  destruct (_ <? now); [intros [= <- _]; now right|].
  unfold bind at 1.
  destruct (get_or_create_user_cases (bc_wallet_address bid_data) db)
    as [(u & _ & ->)|(_ & ->)];
    repeat match goal with
    | |- context [if ?c then _ else _] => destruct c
    end;
    run_handler; intros [= <- _]; now right.
Qed.

(** C7, as stated, fails: the seller's own bid is answered 400, not 403. *)
Lemma place_bid_by_seller_is_400 :
  let db := run Sample.db0 [Sample.open_auction] in
  option_map seller_id (auction_by_id 1 (auctions db)) =
    option_map user_id (user_by_wallet Sample.alice (users db)) /\
  post_bid 1 (mkBidCreateBody Sample.alice (2 * one_unit) None) 10 10 db =
    (Failure (mkHTTPException HTTP_400_BAD_REQUEST CannotBidOwnAuction), db) /\
  HTTP_400_BAD_REQUEST <> HTTP_403_FORBIDDEN.
Proof. repeat split; try (vm_compute; reflexivity); vm_compute; discriminate. Qed.

(** C7 (amended): a bid by the seller on an active, unexpired auction fails
    with status 400 and the detail "Cannot bid on your own auction", leaving
    the database unchanged; the status is the one of the other rejections of
    a bid, which all carry 400 (or 404 for an unknown auction), so the
    condition is told apart by its detail only. *)
Theorem place_bid_own_auction
    (id : Z) (bid_data : BidCreate) (now created : Z) (db : Database)
    (auction : Auction) (seller : User) :
  auction_by_id id (auctions db) = Some auction ->
  status auction = ACTIVE ->
  now <= ends_at auction ->
  user_by_wallet (lower (bc_wallet_address bid_data)) (users db) = Some seller ->
  user_id seller = seller_id auction ->
  place_bid id bid_data now created db =
    (Raised (mkHTTPException HTTP_400_BAD_REQUEST CannotBidOwnAuction), db) /\
  (forall id' data' now' created' db1 db2 e,
      place_bid id' data' now' created' db1 = (Raised e, db2) ->
      status_code e <> HTTP_403_FORBIDDEN).
Proof.
  intros Hfind Hactive Hnow Hwallet Hseller. split.
  - unfold place_bid. unfold bind at 1. unfold query at 1.
    rewrite Hfind, Hactive. cbn [negb AuctionStatus_eqb].
    destruct (Z.ltb_spec (ends_at auction) now) as [|_]; [lia|].
    unfold bind at 1. rewrite (get_or_create_user_known _ _ Hwallet).
    rewrite Hseller, Z.eqb_refl. reflexivity.
  - intros id' data' now' created' db1 db2 e H.
    apply place_bid_failure_status in H.
    unfold HTTP_404_NOT_FOUND, HTTP_400_BAD_REQUEST, HTTP_403_FORBIDDEN in *.
    destruct H as [[_ ->] | ->]; discriminate.
Qed.

Lemma place_bid_own_auction_witness :
  let db := run Sample.db0 [Sample.open_auction] in
  place_bid 1 (mkBidCreate Sample.alice (2 * one_unit) STANDARD) 10 10 db =
    (Raised (mkHTTPException HTTP_400_BAD_REQUEST CannotBidOwnAuction), db) /\
  (forall id' data' now' created' db1 db2 e,
      place_bid id' data' now' created' db1 = (Raised e, db2) ->
      status_code e <> HTTP_403_FORBIDDEN).
Proof.
  apply (@place_bid_own_auction 1
           (mkBidCreate Sample.alice (2 * one_unit) STANDARD)
           10 10 (run Sample.db0 [Sample.open_auction])
           (mkAuction 1 1 1 one_unit one_unit None None None None
              ACTIVE Sample.deadline)
           (mkUser 1 Sample.alice 0)).
  - reflexivity.
  - reflexivity.
  - vm_compute. discriminate.
  - reflexivity.
  - reflexivity.
Defined.

(* ================================================================== *)
(** * What each handler does to the database *)
(* ================================================================== *)

Lemma user_by_id_app_fresh (us : list User) (wallet : string) (score : Z) (uid : Z) :
  let u := mkUser (next_id (map user_id us)) wallet score in
  user_by_id uid (us ++ [u]) =
  match user_by_id uid us with
  | Some v => Some v
  | None => if next_id (map user_id us) =? uid then Some u else None
  end.
Proof.
  intros u. unfold user_by_id.
  destruct (find _ us) as [v|] eqn:E.
  - now apply find_app_some.
  - rewrite (find_app_none _ _ _ E). reflexivity.
Qed.

Lemma get_or_create_user_frame (wallet : string) (db : Database) :
  exists u db',
    get_or_create_user wallet db = (Returned u, db') /\
    auctions db' = auctions db /\
    bids db' = bids db /\
    same_outside_auctions db db' /\
    (forall v, In v (users db) -> In v (users db')) /\
    In u (users db').
Proof.
  destruct (get_or_create_user_cases wallet db) as [(u & Hu & ->)|(Hu & ->)].
  - exists u, db. repeat split; auto.
    apply find_some in Hu. tauto.
  - eexists _, _. split; [reflexivity|]. simpl.
    repeat split; auto.
    + intros uid. unfold reputation. simpl. rewrite user_by_id_app_fresh.
      destruct (user_by_id uid (users db)); [reflexivity|].
      destruct (_ =? uid); reflexivity.
    + intros v Hv. apply in_or_app. now left.
    + apply in_or_app. right. now left.
Qed.

Lemma same_outside_auctions_refl (db : Database) : same_outside_auctions db db.
Proof. repeat split. Qed.

Lemma same_outside_auctions_trans (db1 db2 db3 : Database) :
  same_outside_auctions db1 db2 -> same_outside_auctions db2 db3 ->
  same_outside_auctions db1 db3.
Proof.
  intros (F1 & O1 & R1) (F2 & O2 & R2).
  split; [congruence|split; [congruence|]].
  intros uid. now rewrite R2, R1.
Qed.

#[local] Hint Resolve same_outside_auctions_refl : auction.

(** The bid that [place_bid] stores, and the database it leaves, when it
    returns. *)
Lemma place_bid_returned (id : Z) (bid_data : BidCreate) (now created : Z)
    (db db' : Database) (bid : Bid) :
  place_bid id bid_data now created db = (Returned bid, db') ->
  exists auction bidder db1,
    auction_by_id id (auctions db) = Some auction /\
    status auction = ACTIVE /\
    now <= ends_at auction /\
    get_or_create_user (bc_wallet_address bid_data) db = (Returned bidder, db1) /\
    user_id bidder <> seller_id auction /\
    min_price auction <= bc_amount bid_data /\
    (truthy (current_highest_bid auction)
     && le_current (bc_amount bid_data) (current_highest_bid auction))%bool = false /\
    starting_price auction <= bc_amount bid_data /\
    bid = mkBid (next_id (map bid_id (bids db1))) id (user_id bidder)
            (bc_amount bid_data) (bc_bidder_category bid_data) created /\
    db' = set_auctions
            (update_auction id
               (with_highest_bid (Some (bc_amount bid_data)) (Some (user_id bidder)))
               (auctions db1))
            (set_bids (bids db1 ++ [bid]) db1).
Proof.
  unfold place_bid. unfold bind at 1. unfold query at 1.
  destruct (auction_by_id id (auctions db)) as [auction|]; [|discriminate].
  destruct (AuctionStatus_eqb (status auction) ACTIVE) eqn:Hst; [|discriminate].
  apply AuctionStatus_eqb_eq in Hst. cbn [negb].
  destruct (Z.ltb_spec (ends_at auction) now) as [|Hnow]; [discriminate|].
  unfold bind at 1.
  destruct (get_or_create_user (bc_wallet_address bid_data) db) as [[bidder|e] db1]
    eqn:Huser; [|discriminate].
  destruct (Z.eqb_spec (user_id bidder) (seller_id auction)) as [|Hself];
    [discriminate|].
  destruct (Z.ltb_spec (bc_amount bid_data) (min_price auction)) as [|Hmin];
    [discriminate|].
  destruct (truthy _ && le_current _ _)%bool eqn:Hcur; [discriminate|].
  destruct (Z.ltb_spec (bc_amount bid_data) (starting_price auction)) as [|Hstart];
    [discriminate|].
  run_handler. intros [= <- <-].
  exists auction, bidder, db1. repeat split; auto.
Qed.

(** A bid that is turned down leaves the auctions and the bids as they
    were. *)
Lemma place_bid_raised (id : Z) (bid_data : BidCreate) (now created : Z)
    (db db' : Database) (e : HTTPException) :
  place_bid id bid_data now created db = (Raised e, db') ->
  auctions db' = auctions db /\ bids db' = bids db /\
  same_outside_auctions db db' /\
  (forall v, In v (users db) -> In v (users db')).
Proof.
  unfold place_bid. unfold bind at 1. unfold query at 1.
  destruct (auction_by_id id (auctions db)) as [auction|];
    [|intros [= _ <-]; auto with auction].
  destruct (negb _); [intros [= _ <-]; auto with auction|].
  destruct (_ <? now); [intros [= _ <-]; auto with auction|].
  unfold bind at 1.
  destruct (get_or_create_user_frame (bc_wallet_address bid_data) db)
    as (u & db1 & -> & Ha & Hb & Hs & Hu & _).
  repeat match goal with
         | |- context [if ?c then _ else _] => destruct c
         end;
    run_handler; intros [= _ <-]; auto.
Qed.

Lemma buyout_auction_returned (id : Z) (buyout_data : BuyoutCreate) (now : Z)
    (db db' : Database) (a' : Auction) :
  buyout_auction id buyout_data now db = (Returned a', db') ->
  exists auction price buyer db1,
    auction_by_id id (auctions db) = Some auction /\
    status auction = ACTIVE /\
    buyout_price auction = Some price /\
    now <= ends_at auction /\
    get_or_create_user (bo_wallet_address buyout_data) db = (Returned buyer, db1) /\
    user_id buyer <> seller_id auction /\
    a' = buyout_writes price (user_id buyer) auction /\
    db' = set_users
            (update_user (user_id buyer) (add_reputation 20) (users db1))
            (set_auctions
               (update_auction id (buyout_writes price (user_id buyer))
                  (auctions db1)) db1).
Proof.
  unfold buyout_auction. unfold bind at 1. unfold query at 1.
  destruct (auction_by_id id (auctions db)) as [auction|]; [|discriminate].
  destruct (AuctionStatus_eqb (status auction) ACTIVE) eqn:Hst; [|discriminate].
  apply AuctionStatus_eqb_eq in Hst. cbn [negb].
  destruct (buyout_price auction) as [price|] eqn:Hprice; [|discriminate].
  destruct (Z.ltb_spec (ends_at auction) now) as [|Hnow]; [discriminate|].
  unfold bind at 1.
  destruct (get_or_create_user (bo_wallet_address buyout_data) db) as [[buyer|e] db1]
    eqn:Huser; [|discriminate].
  destruct (Z.eqb_spec (user_id buyer) (seller_id auction)) as [|Hself];
    [discriminate|].
  run_handler. intros [= <- <-].
  exists auction, price, buyer, db1. repeat split; auto.
Qed.

Lemma buyout_auction_raised (id : Z) (buyout_data : BuyoutCreate) (now : Z)
    (db db' : Database) (e : HTTPException) :
  buyout_auction id buyout_data now db = (Raised e, db') ->
  auctions db' = auctions db /\ bids db' = bids db /\
  same_outside_auctions db db' /\
  (forall v, In v (users db) -> In v (users db')).
Proof.
  unfold buyout_auction. unfold bind at 1. unfold query at 1.
  destruct (auction_by_id id (auctions db)) as [auction|];
    [|intros [= _ <-]; auto with auction].
  destruct (negb _); [intros [= _ <-]; auto with auction|].
  destruct (buyout_price auction); [|intros [= _ <-]; auto with auction].
  destruct (_ <? now); [intros [= _ <-]; auto with auction|].
  unfold bind at 1.
  destruct (get_or_create_user_frame (bo_wallet_address buyout_data) db)
    as (u & db1 & -> & Ha & Hb & Hs & Hu & _).
  destruct (_ =? _); run_handler; [intros [= _ <-]; auto|discriminate].
Qed.

Lemma close_auction_returned (id now : Z) (db db' : Database) (a' : Auction) :
  close_auction id now db = (Returned a', db') ->
  exists auction,
    auction_by_id id (auctions db) = Some auction /\
    status auction = ACTIVE /\
    ends_at auction <= now /\
    match determine_winner (bids_of id (bids db)) with
    | Some w =>
        a' = close_writes w auction /\
        db' = set_users
                (match user_by_id (bidder_id w) (users db) with
                 | Some u => update_user (user_id u) (add_reputation 15) (users db)
                 | None => users db
                 end)
                (set_auctions (update_auction id (close_writes w) (auctions db)) db)
    | None =>
        a' = with_status CLOSED auction /\
        db' = set_auctions
                (update_auction id (with_status CLOSED) (auctions db)) db
    end.
Proof.
  unfold close_auction. unfold bind at 1. unfold query at 1.
  destruct (auction_by_id id (auctions db)) as [auction|]; [|discriminate].
  destruct (AuctionStatus_eqb (status auction) ACTIVE) eqn:Hst; [|discriminate].
  apply AuctionStatus_eqb_eq in Hst. cbn [negb].
  destruct (Z.ltb_spec now (ends_at auction)) as [|Hnow]; [discriminate|].
  run_handler.
  destruct (determine_winner (bids_of id (bids db))) as [w|];
    intros [= <- <-]; exists auction; repeat split; auto.
Qed.

(** A close that is turned down writes nothing. *)
Lemma close_auction_raised (id now : Z) (db db' : Database) (e : HTTPException) :
  close_auction id now db = (Raised e, db') -> db' = db.
Proof.
  unfold close_auction. unfold bind at 1. unfold query at 1.
  destruct (auction_by_id id (auctions db)) as [auction|];
    [|intros [= _ <-]; reflexivity].
  destruct (negb _); [intros [= _ <-]; reflexivity|].
  destruct (now <? _); [intros [= _ <-]; reflexivity|].
  run_handler. destruct (determine_winner _); discriminate.
Qed.

Lemma cancel_auction_returned (id : Z) (wallet : string) (db db' : Database) (x : unit) :
  cancel_auction id wallet db = (Returned x, db') ->
  exists auction user,
    auction_by_id id (auctions db) = Some auction /\
    user_by_wallet (lower wallet) (users db) = Some user /\
    user_id user = seller_id auction /\
    status auction = ACTIVE /\
    current_highest_bid auction = None /\
    db' = set_auctions
            (update_auction id (with_status CANCELLED) (auctions db)) db.
Proof.
  unfold cancel_auction. unfold bind at 1. unfold query at 1.
  destruct (auction_by_id id (auctions db)) as [auction|]; [|discriminate].
  unfold bind at 1. unfold query at 1.
  destruct (user_by_wallet (lower wallet) (users db)) as [user|]; [|discriminate].
  destruct (Z.eqb_spec (user_id user) (seller_id auction)) as [Hseller|];
    [|discriminate]. cbn [negb].
  destruct (AuctionStatus_eqb (status auction) ACTIVE) eqn:Hst; [|discriminate].
  apply AuctionStatus_eqb_eq in Hst. cbn [negb].
  destruct (current_highest_bid auction) eqn:Hcur; [discriminate|].
  run_handler. intros [= _ <-].
  exists auction, user. repeat split; auto.
Qed.

Lemma cancel_auction_raised (id : Z) (wallet : string) (db db' : Database)
    (e : HTTPException) :
  cancel_auction id wallet db = (Raised e, db') -> db' = db.
Proof.
  unfold cancel_auction. unfold bind at 1. unfold query at 1.
  destruct (auction_by_id id (auctions db)) as [auction|];
    [|intros [= _ <-]; reflexivity].
  unfold bind at 1. unfold query at 1.
  destruct (match user_by_wallet _ _ with Some _ => _ | None => _ end);
    [intros [= _ <-]; reflexivity|].
  destruct (negb _); [intros [= _ <-]; reflexivity|].
  destruct (current_highest_bid auction); [intros [= _ <-]; reflexivity|].
  run_handler. discriminate.
Qed.

Lemma create_auction_returned (auction_data : AuctionCreate) (now : Z)
    (db db' : Database) (a : Auction) :
  create_auction auction_data now db = (Returned a, db') ->
  exists seller db1,
    get_or_create_user (ac_wallet_address auction_data) db = (Returned seller, db1) /\
    active_auction_for (ac_flag_id auction_data) (auctions db1) = None /\
    a = mkAuction (next_id (map auction_id (auctions db1)))
          (ac_flag_id auction_data) (user_id seller)
          (ac_starting_price auction_data) (ac_min_price auction_data)
          (ac_buyout_price auction_data) None None None ACTIVE
          (add_hours now (ac_duration_hours auction_data)) /\
    db' = set_auctions (auctions db1 ++ [a]) db1.
Proof.
  unfold create_auction. unfold bind at 1. unfold query at 1.
  destruct (find _ (flags db)); [|discriminate].
  unfold bind at 1.
  destruct (get_or_create_user (ac_wallet_address auction_data) db)
    as [[seller|e] db1] eqn:Huser; [|discriminate].
  unfold bind at 1. unfold query at 1.
  destruct (ownership_of _ _ _); [|discriminate].
  unfold bind at 1. unfold query at 1.
  destruct (active_auction_for _ _) eqn:Hactive; [discriminate|].
  run_handler. intros [= <- <-].
  exists seller, db1. repeat split; auto.
Qed.

Lemma create_auction_raised (auction_data : AuctionCreate) (now : Z)
    (db db' : Database) (e : HTTPException) :
  create_auction auction_data now db = (Raised e, db') ->
  auctions db' = auctions db /\ bids db' = bids db /\
  same_outside_auctions db db' /\
  (forall v, In v (users db) -> In v (users db')).
Proof.
  unfold create_auction. unfold bind at 1. unfold query at 1.
  destruct (find _ (flags db)); [|intros [= _ <-]; auto with auction].
  unfold bind at 1.
  destruct (get_or_create_user_frame (ac_wallet_address auction_data) db)
    as (u & db1 & -> & Ha & Hb & Hs & Hu & _).
  unfold bind at 1. unfold query at 1.
  destruct (ownership_of _ _ _); [|intros [= _ <-]; auto].
  unfold bind at 1. unfold query at 1.
  destruct (active_auction_for _ _); [intros [= _ <-]; auto|].
  run_handler. discriminate.
Qed.

(* ================================================================== *)
(** * The effect of a request *)
(* ================================================================== *)

Lemma get_or_create_user_returned (wallet : string) (db db1 : Database) (u : User) :
  get_or_create_user wallet db = (Returned u, db1) ->
  auctions db1 = auctions db /\ bids db1 = bids db /\
  same_outside_auctions db db1 /\
  (forall v, In v (users db) -> In v (users db1)) /\
  In u (users db1).
Proof.
  destruct (get_or_create_user_frame wallet db) as (u' & db' & -> & H).
  intros [= <- <-]. exact H.
Qed.

Lemma BidCreate_validate_inr (body : BidCreateBody) (bid_data : BidCreate) :
  BidCreate_validate body = inr bid_data ->
  bc_amount bid_data = bbody_amount body /\ 0 < bc_amount bid_data.
Proof.
  unfold BidCreate_validate, field_gt0.
  destruct (field_wallet_address _); [discriminate|].
  destruct (Z.ltb_spec 0 (bbody_amount body)); [|discriminate].
  intros [= <-]. simpl. auto.
Qed.

(** The guard on the current highest bid, for a positive amount. *)
Lemma guard_passed (cur : option Decimal) (m : Decimal) :
  0 < m ->
  (truthy cur && le_current m cur)%bool = false ->
  forall h, cur = Some h -> h < m.
Proof.
  intros Hm H h ->. simpl in H.
  destruct (Z.eqb_spec h 0); simpl in H; [lia|].
  apply Z.leb_gt in H. exact H.
Qed.

Lemma guard_failed (h m : Decimal) :
  0 < m -> m <= h ->
  (truthy (Some h) && le_current m (Some h))%bool = true.
Proof.
  intros Hm Hle. simpl.
  destruct (Z.eqb_spec h 0); [lia|]. simpl. apply Z.leb_le. exact Hle.
Qed.

Lemma with_highest_bid_id v who a : auction_id (with_highest_bid v who a) = auction_id a.
Proof. reflexivity. Qed.

Lemma buyout_writes_id p b a : auction_id (buyout_writes p b a) = auction_id a.
Proof. reflexivity. Qed.

Lemma close_writes_id w a : auction_id (close_writes w a) = auction_id a.
Proof. reflexivity. Qed.

Lemma with_status_id st a : auction_id (with_status st a) = auction_id a.
Proof. reflexivity. Qed.

#[local] Hint Resolve with_highest_bid_id buyout_writes_id close_writes_id
  with_status_id : auction.

(** Every request falls under one of the four effects. *)
Lemma step_effect (db : Database) (r : Request) : Effect r db (step db r).
Proof.
  destruct r as [body now|id body now created|id wallet now|id now|id wallet];
    unfold step.
  - unfold post_auction.
    destruct (AuctionCreate_validate body) as [errors|auction_data];
      [now apply eff_none|].
    unfold respond.
    destruct (create_auction auction_data now db) as [[a|e] db'] eqn:H; simpl.
    + apply create_auction_returned in H.
      destruct H as (seller & db1 & Hu & Hnone & Ha & ->).
      apply get_or_create_user_returned in Hu.
      destruct Hu as (Hau & Hb & _). simpl.
      rewrite Hau in *.
      apply eff_created with a; subst a; eauto.
    + apply create_auction_raised in H. destruct H as (Hau & Hb & _).
      now apply eff_none.
  - unfold post_bid.
    destruct (BidCreate_validate body) as [errors|bid_data] eqn:Hv;
      [now apply eff_none|].
    apply BidCreate_validate_inr in Hv. destruct Hv as [_ Hpos].
    unfold respond.
    destruct (place_bid id bid_data now created db) as [[bid|e] db'] eqn:H; simpl.
    + apply place_bid_returned in H.
      destruct H as (auction & bidder & db1 & Hfind & Hact & Hnow & Hu & Hself
                     & Hmin & Hcur & Hstart & Hbid & ->).
      apply get_or_create_user_returned in Hu.
      destruct Hu as (Hau & Hb & _). simpl. rewrite Hau, Hb in *.
      apply eff_bid with id auction bid; subst bid; auto.
      split; [exact Hmin|split; [exact Hstart|]].
      exact (guard_passed Hpos Hcur).
    + apply place_bid_raised in H. destruct H as (Hau & Hb & _).
      now apply eff_none.
  - unfold post_buyout.
    destruct (BuyoutCreate_validate wallet) as [errors|buyout_data];
      [now apply eff_none|].
    unfold respond.
    destruct (buyout_auction id buyout_data now db) as [[a|e] db'] eqn:H; simpl.
    + apply buyout_auction_returned in H.
      destruct H as (auction & price & buyer & db1 & Hfind & Hact & Hprice & Hnow
                     & Hu & Hself & Ha & ->).
      apply get_or_create_user_returned in Hu.
      destruct Hu as (Hau & Hb & _). simpl. rewrite Hau.
      apply eff_ended with id auction (buyout_writes price (user_id buyer));
        auto; discriminate.
    + apply buyout_auction_raised in H. destruct H as (Hau & Hb & _).
      now apply eff_none.
  - unfold post_close, respond.
    destruct (close_auction id now db) as [[a|e] db'] eqn:H; simpl.
    + apply close_auction_returned in H.
      destruct H as (auction & Hfind & Hact & Hnow & H).
      destruct (determine_winner (bids_of id (bids db))) as [w|];
        destruct H as [_ ->].
      * apply eff_ended with id auction (close_writes w); auto; discriminate.
      * apply eff_ended with id auction (with_status CLOSED); auto; discriminate.
    + apply close_auction_raised in H. subst db'. now apply eff_none.
  - unfold post_cancel, respond.
    destruct (cancel_auction id wallet db) as [[x|e] db'] eqn:H; simpl.
    + apply cancel_auction_returned in H.
      destruct H as (auction & user & Hfind & _ & _ & Hact & _ & ->).
      apply eff_ended with id auction (with_status CANCELLED); auto; discriminate.
    + apply cancel_auction_raised in H. subst db'. now apply eff_none.
Qed.

(* ================================================================== *)
(** * Terminal states *)
(* ================================================================== *)

Lemma auction_by_id_some (id : Z) (l : list Auction) (a : Auction) :
  auction_by_id id l = Some a -> In a l /\ auction_id a = id.
Proof.
  intros H. apply find_some in H. destruct H as [Hin Heq].
  apply Z.eqb_eq in Heq. auto.
Qed.

(** A request never rewrites the row of an auction that is not Active. *)
Lemma effect_keeps_terminal (r : Request) (db db' : Database) (id : Z)
    (auction : Auction) :
  Effect r db db' ->
  auction_by_id id (auctions db) = Some auction ->
  status auction <> ACTIVE ->
  auction_by_id id (auctions db') = Some auction.
Proof.
  intros [Hau _|a Hau _ _ _ _ _ _ _|id0 a0 bid Hfind Hact Hau _ _ _ _ _
          |id0 a0 f Hfind Hact Hau _ Hid _ _] Hterm Hst; rewrite Hau.
  - exact Hterm.
  - now apply find_app_some.
  - destruct (Z.eq_dec id id0) as [->|Hne]; [congruence|].
    rewrite auction_by_id_update_other; auto.
  - destruct (Z.eq_dec id id0) as [->|Hne]; [congruence|].
    rewrite auction_by_id_update_other; auto.
Qed.

Lemma run_cons (db : Database) (r : Request) (rs : list Request) :
  run db (r :: rs) = run (step db r) rs.
Proof. reflexivity. Qed.

Lemma run_keeps_terminal (rs : list Request) (db : Database) (id : Z)
    (auction : Auction) :
  auction_by_id id (auctions db) = Some auction ->
  status auction <> ACTIVE ->
  auction_by_id id (auctions (run db rs)) = Some auction.
Proof.
  revert db. induction rs as [|r rs IH]; intros db Hfind Hst; [exact Hfind|].
  rewrite run_cons. apply IH; [|exact Hst].
  eapply effect_keeps_terminal; eauto using step_effect.
Qed.

Section Terminal.
Variables (db : Database) (id : Z) (auction : Auction).
Hypothesis Hfind : auction_by_id id (auctions db) = Some auction.
Hypothesis Hterminal : status auction <> ACTIVE.

Lemma terminal_status_test : negb (AuctionStatus_eqb (status auction) ACTIVE) = true.
Proof. apply negb_true_iff, AuctionStatus_eqb_neq, Hterminal. Qed.

Lemma place_bid_terminal (bid_data : BidCreate) (now created : Z) :
  place_bid id bid_data now created db = (Raised not_active, db).
Proof.
  unfold place_bid. unfold bind at 1. unfold query at 1.
  now rewrite Hfind, terminal_status_test.
Qed.

Lemma buyout_auction_terminal (buyout_data : BuyoutCreate) (now : Z) :
  buyout_auction id buyout_data now db = (Raised not_active, db).
Proof.
  unfold buyout_auction. unfold bind at 1. unfold query at 1.
  now rewrite Hfind, terminal_status_test.
Qed.

Lemma close_auction_terminal (now : Z) :
  close_auction id now db = (Raised not_active, db).
Proof.
  unfold close_auction. unfold bind at 1. unfold query at 1.
  now rewrite Hfind, terminal_status_test.
Qed.

(** The seller test of [cancel_auction] comes before its status test. *)
Lemma cancel_auction_terminal (wallet : string) :
  cancel_auction id wallet db =
    (Raised (if requester_is_seller wallet auction db then not_active
             else mkHTTPException HTTP_403_FORBIDDEN OnlySellerCanCancel), db).
Proof.
  unfold cancel_auction, requester_is_seller.
  unfold bind at 1. unfold query at 1. rewrite Hfind.
  unfold bind at 1. unfold query at 1.
  destruct (user_by_wallet (lower wallet) (users db)) as [u|]; [|reflexivity].
  destruct (user_id u =? seller_id auction); cbn [negb]; [|reflexivity].
  now rewrite terminal_status_test.
Qed.
End Terminal.

(** Once a buyout has gone through, the auction is found Closed. *)
Lemma buyout_auction_closes (id : Z) (buyout_data : BuyoutCreate) (now : Z)
    (db db' : Database) (a' : Auction) :
  buyout_auction id buyout_data now db = (Returned a', db') ->
  auction_by_id id (auctions db') = Some a' /\ status a' = CLOSED.
Proof.
  intros H. apply buyout_auction_returned in H.
  destruct H as (auction & price & buyer & db1 & Hfind & _ & _ & _ & Hu & _ & -> & ->).
  apply get_or_create_user_returned in Hu. destruct Hu as (Hau & _).
  simpl. rewrite Hau, auction_by_id_update_same, Hfind; auto.
Qed.

(** C5, as stated, fails: on a Closed auction a Cancel from somebody who is
    not the seller is answered 403 (Forbidden), not 400 (InvalidState). *)
Lemma cancel_closed_auction_by_stranger_is_403 :
  let db := run Sample.db0
              [Sample.open_auction_with_buyout; Buyout 1 Sample.bob 10] in
  option_map status (auction_by_id 1 (auctions db)) = Some CLOSED /\
  post_cancel 1 Sample.carol db =
    (Failure (mkHTTPException HTTP_403_FORBIDDEN OnlySellerCanCancel), db) /\
  HTTP_403_FORBIDDEN <> HTTP_400_BAD_REQUEST.
Proof. repeat split; try (vm_compute; reflexivity); vm_compute; discriminate. Qed.

(** C5 (amended): on an auction that is Closed or Cancelled, PlaceBid,
    Buyout and Close fail with 400 "Auction is not active"; Cancel fails with
    the same error when the requester is the seller and with 403 "Only the
    seller can cancel the auction" otherwise.  Each of these failures leaves
    the whole database, hence the auction's fields and every reputation
    score, as it was.  Whatever requests follow, the auction's row stays the
    same, so it never returns to Active; and after a Buyout has succeeded
    every bid on that auction fails with 400 "Auction is not active". *)
Theorem terminal_auction_is_frozen (db : Database) (id : Z) (auction : Auction) :
  auction_by_id id (auctions db) = Some auction ->
  status auction <> ACTIVE ->
  (forall bid_data now created,
      place_bid id bid_data now created db = (Raised not_active, db)) /\
  (forall buyout_data now,
      buyout_auction id buyout_data now db = (Raised not_active, db)) /\
  (forall now, close_auction id now db = (Raised not_active, db)) /\
  (forall wallet,
      cancel_auction id wallet db =
        (Raised (if requester_is_seller wallet auction db then not_active
                 else mkHTTPException HTTP_403_FORBIDDEN OnlySellerCanCancel),
         db)) /\
  (forall rs, auction_by_id id (auctions (run db rs)) = Some auction) /\
  (forall id' buyout_data now db0 a' db1 bid_data now' created,
      buyout_auction id' buyout_data now db0 = (Returned a', db1) ->
      place_bid id' bid_data now' created db1 = (Raised not_active, db1)).
Proof.
  intros Hfind Hterminal. repeat split.
  - intros. now apply place_bid_terminal with auction.
  - intros. now apply buyout_auction_terminal with auction.
  - intros. now apply close_auction_terminal with auction.
  - intros. now apply cancel_auction_terminal.
  - intros. now apply run_keeps_terminal.
  - intros id' buyout_data now db0 a' db1 bid_data now' created H.
    apply buyout_auction_closes in H. destruct H as [Hf Hs].
    apply place_bid_terminal with a'; [exact Hf|congruence].
Qed.

Lemma terminal_auction_is_frozen_witness :
  let db := run Sample.db0
              [Sample.open_auction_with_buyout; Buyout 1 Sample.bob 10] in
  let auction :=
    mkAuction 1 1 1 one_unit one_unit (Some (5 * one_unit))
      (Some (5 * one_unit)) (Some 2) None CLOSED Sample.deadline in
  (forall bid_data now created,
      place_bid 1 bid_data now created db = (Raised not_active, db)) /\
  (forall buyout_data now,
      buyout_auction 1 buyout_data now db = (Raised not_active, db)) /\
  (forall now, close_auction 1 now db = (Raised not_active, db)) /\
  (forall wallet,
      cancel_auction 1 wallet db =
        (Raised (if requester_is_seller wallet auction db then not_active
                 else mkHTTPException HTTP_403_FORBIDDEN OnlySellerCanCancel),
         db)) /\
  (forall rs, auction_by_id 1 (auctions (run db rs)) = Some auction) /\
  (forall id' buyout_data now db0 a' db1 bid_data now' created,
      buyout_auction id' buyout_data now db0 = (Returned a', db1) ->
      place_bid id' bid_data now' created db1 = (Raised not_active, db1)).
Proof.
  apply (@terminal_auction_is_frozen
           (run Sample.db0
              [Sample.open_auction_with_buyout; Buyout 1 Sample.bob 10])
           1
           (mkAuction 1 1 1 one_unit one_unit (Some (5 * one_unit))
              (Some (5 * one_unit)) (Some 2) None CLOSED Sample.deadline)).
  - vm_compute. reflexivity.
  - simpl. discriminate.
Defined.

(* ================================================================== *)
(** * One Active auction per flag *)
(* ================================================================== *)

Section Counting.
Variable A : Type.
Variable p : A -> bool.

Lemma filter_map_length_le (g : A -> A) (l : list A) :
  (forall a, p (g a) = true -> p a = true) ->
  (List.length (filter p (map g l)) <= List.length (filter p l))%nat.
Proof.
  intros Hg. induction l as [|x l IH]; simpl; [lia|].
  destruct (p (g x)) eqn:E.
  - rewrite (Hg x E). simpl. lia.
  - destruct (p x); simpl; lia.
Qed.

Lemma find_none_filter_nil (l : list A) : find p l = None -> filter p l = [].
Proof.
  induction l as [|x l IH]; simpl; [reflexivity|].
  destruct (p x); [discriminate|exact IH].
Qed.
End Counting.

Lemma active_count_eq (fid : Z) (db : Database) :
  active_count fid db = List.length (filter (active_on fid) (auctions db)).
Proof. reflexivity. Qed.

Lemma active_on_status (fid : Z) (a : Auction) :
  active_on fid a = true -> status a = ACTIVE.
Proof.
  unfold active_on. intros H. apply andb_true_iff in H.
  now apply AuctionStatus_eqb_eq.
Qed.

(** Only [CreateAuction] can raise the number of Active auctions of a flag,
    and it does so only from zero. *)
Lemma effect_active_count (r : Request) (db db' : Database) (fid : Z) :
  Effect r db db' ->
  (active_count fid db' <= active_count fid db)%nat \/
  ((exists body now, r = CreateAuction body now) /\
   active_count fid db = 0%nat /\ active_count fid db' = 1%nat).
Proof.
  rewrite !active_count_eq.
  intros [Hau _|a Hau _ Hst _ _ _ Hnone Hreq|id a bid _ _ Hau _ _ _ _ _
          |id a f _ _ Hau _ _ Hflag Hstatus]; rewrite Hau.
  - left. lia.
  - rewrite filter_app, length_app. simpl.
    destruct (active_on fid a) eqn:E; simpl; [|left; lia].
    right. split; [exact Hreq|].
    assert (fid = flag_id a) as ->.
    { unfold active_on in E. apply andb_true_iff in E. destruct E as [E _].
      apply Z.eqb_eq in E. congruence. }
    unfold active_auction_for in Hnone.
    rewrite (find_none_filter_nil _ _ Hnone). split; reflexivity.
  - left. apply filter_map_length_le. intros x.
    destruct (auction_id x =? id); auto.
  - left. apply filter_map_length_le. intros x.
    destruct (auction_id x =? id); [|auto].
    intros H. apply active_on_status in H. now apply Hstatus in H.
Qed.

Lemma effect_at_most_one_active (r : Request) (db db' : Database) :
  Effect r db db' -> at_most_one_active db -> at_most_one_active db'.
Proof.
  intros Heff Hinv fid. specialize (Hinv fid).
  destruct (effect_active_count fid Heff) as [H|(_ & _ & H)]; lia.
Qed.

Lemma run_at_most_one_active (rs : list Request) (db : Database) :
  at_most_one_active db -> at_most_one_active (run db rs).
Proof.
  revert db. induction rs as [|r rs IH]; intros db H; [exact H|].
  rewrite run_cons. apply IH.
  eapply effect_at_most_one_active; eauto using step_effect.
Qed.




(** A second auction on a flag that already has an Active one. *)
Lemma second_auction_on_flag_refused :
  let db := run Sample.db0 [Sample.open_auction] in
  post_auction (mkAuctionCreateBody 1 Sample.alice one_unit None None 24) 50 db =
    (Failure already_active, db).
Proof. vm_compute. reflexivity. Qed.

(* ================================================================== *)
(** * Monotone bids *)
(* ================================================================== *)

Section SortedLists.
Variable A : Type.
Variables R Q : A -> A -> Prop.

Lemma StronglySorted_snoc (l : list A) (y : A) :
  StronglySorted R l -> (forall x, In x l -> R x y) ->
  StronglySorted R (l ++ [y]).
Proof.
  induction 1 as [|a l Hs IH Hf]; intros Hy; simpl.
  - constructor; constructor.
  - constructor.
    + apply IH. intros x Hx. apply Hy. now right.
    + apply Forall_app. split; [exact Hf|].
      constructor; [apply Hy; now left|constructor].
Qed.

Lemma StronglySorted_weaken (l : list A) :
  (forall x y, R x y -> Q x y) -> StronglySorted R l -> StronglySorted Q l.
Proof.
  intros HRQ. induction 1 as [|a l Hs IH Hf]; constructor; [exact IH|].
  eapply Forall_impl; [|exact Hf]. intros x. apply HRQ.
Qed.
End SortedLists.


Lemma bids_of_app (id : Z) (l l' : list Bid) :
  bids_of id (l ++ l') = (bids_of id l ++ bids_of id l')%list.
Proof. apply filter_app. Qed.

Lemma bids_of_In (id : Z) (l : list Bid) (b : Bid) :
  In b (bids_of id l) <-> In b l /\ bid_auction_id b = id.
Proof. unfold bids_of. rewrite filter_In, Z.eqb_eq. tauto. Qed.

Lemma update_auction_In (id : Z) (f : Auction -> Auction) (l : list Auction)
    (a' : Auction) :
  In a' (update_auction id f l) ->
  exists a, In a l /\
    ((auction_id a = id /\ a' = f a) \/ (auction_id a <> id /\ a' = a)).
Proof.
  unfold update_auction. rewrite in_map_iff. intros (a & Ha & Hin).
  exists a. split; [exact Hin|].
  destruct (Z.eqb_spec (auction_id a) id); [left|right]; auto.
Qed.

Lemma update_auction_keeps_ids (id : Z) (f : Auction -> Auction)
    (l : list Auction) (a : Auction) :
  (forall x, auction_id (f x) = auction_id x) ->
  In a l ->
  exists a', In a' (update_auction id f l) /\ auction_id a' = auction_id a.
Proof.
  intros Hid Hin.
  exists (if auction_id a =? id then f a else a). split.
  - unfold update_auction. now apply (in_map (fun a => if auction_id a =? id then f a else a)).
  - destruct (auction_id a =? id); [apply Hid|reflexivity].
Qed.

Lemma last_bid_snoc (l : list Bid) (b : Bid) : last_bid (l ++ [b]) = Some b.
Proof. unfold last_bid. now rewrite rev_app_distr. Qed.

Lemma last_bid_some (l : list Bid) (b : Bid) :
  last_bid l = Some b -> exists l', l = (l' ++ [b])%list.
Proof.
  unfold last_bid. intros H. exists (rev (tl (rev l))).
  rewrite <- (rev_involutive l) at 1.
  destruct (rev l) as [|x r]; [discriminate|].
  injection H as ->. reflexivity.
Qed.

(** A database without auctions and bids satisfies the invariant. *)
Lemma bids_ordered_fresh (tau : Bid -> Z) (t : Z) (db : Database) :
  fresh_database db -> bids_ordered tau t db.
Proof.
  intros [Ha Hb]. unfold bids_ordered. rewrite Ha, Hb. simpl.
  repeat split; try contradiction. intros id. constructor.
Qed.

(** The invariant is kept by every request whose bid, if it stores one, has
    a time that is not earlier than the latest one. *)
Lemma effect_bids_ordered (tau : Bid -> Z) (r : Request) (db db' : Database)
    (t t' : Z) :
  Effect r db db' ->
  bids_ordered tau t db ->
  t <= t' ->
  (forall b, stamp_of r = Some (created_at b) -> t <= tau b <= t') ->
  bids_ordered tau t' db'.
Proof.
  intros Heff (Hcache & Hsorted & Htime & Hfk & Hlast) Htt' Hstamp.
  destruct Heff as [Hau Hb|a Hau Hb Hst Hcur Hwho Hid Hnone _
                   |id auction bid Hfind Hact Hau Hb Hbid Hpos Hacc Hc
                   |id auction f Hfind Hact Hau Hb Hfid _ Hfst];
    unfold bids_ordered; rewrite Hau, Hb.
  - (* nothing written *)
    split; [|split; [|split; [|split]]]; auto.
    intros b Hin. specialize (Htime b Hin). lia.
  - (* a new auction *)
    assert (Hnew : bids_of (auction_id a) (bids db) = []).
    { destruct (bids_of (auction_id a) (bids db)) as [|b l] eqn:E; [reflexivity|].
      exfalso. assert (Hin : In b (bids_of (auction_id a) (bids db)))
        by (rewrite E; now left).
      apply bids_of_In in Hin. destruct Hin as [Hin Heq].
      destruct (Hfk b Hin) as (a0 & Ha0 & Heq0).
      pose proof (next_id_fresh auction_id (auctions db) a0 Ha0). lia. }
    split; [|split; [|split; [|split]]]; auto.
    + intros x Hx Hxs b Hin. apply in_app_or in Hx.
      destruct Hx as [Hx|[<-|[]]]; [now apply (Hcache x Hx Hxs)|].
      rewrite Hnew in Hin. destruct Hin.
    + intros b Hin. specialize (Htime b Hin). lia.
    + intros b Hin. destruct (Hfk b Hin) as (a0 & Ha0 & Heq0).
      exists a0. split; [apply in_or_app; now left|exact Heq0].
    + intros x Hx Hxs. apply in_app_or in Hx.
      destruct Hx as [Hx|[<-|[]]]; [now apply Hlast|].
      rewrite Hnew. split; assumption.
  - (* a new bid *)
    apply auction_by_id_some in Hfind. destruct Hfind as [Hin0 Hid0].
    assert (Hold : forall b, In b (bids_of id (bids db)) ->
                     amount b < amount bid /\ tau b <= tau bid).
    { intros b Hin. split.
      - rewrite <- Hid0 in Hin.
        destruct (Hcache auction Hin0 Hact b Hin) as (h & Hh & Hle).
        destruct Hacc as (_ & _ & Hgt). specialize (Hgt h Hh). lia.
      - apply bids_of_In in Hin. destruct Hin as [Hin _].
        specialize (Htime b Hin). specialize (Hstamp _ Hc). lia. }
    split; [|split; [|split; [|split]]].
    + intros a' Ha' Hst b Hin.
      apply update_auction_In in Ha'.
      destruct Ha' as (a & Ha & [[Heq ->]|[Hne ->]]).
      * exists (amount bid). split; [reflexivity|].
        change (auction_id (with_highest_bid _ _ a)) with (auction_id a) in Hin.
        rewrite Heq, bids_of_app in Hin. apply in_app_or in Hin.
        destruct Hin as [Hin|Hin].
        -- destruct (Hold b Hin). lia.
        -- apply bids_of_In in Hin. destruct Hin as [[<-|[]] _]. lia.
      * apply (Hcache a Ha Hst). rewrite bids_of_app in Hin.
        apply in_app_or in Hin. destruct Hin as [Hin|Hin]; [exact Hin|].
        apply bids_of_In in Hin. destruct Hin as [[<-|[]] Heq]. congruence.
    + intros id'. rewrite bids_of_app. simpl.
      destruct (Z.eqb_spec (bid_auction_id bid) id') as [Heq|Hne].
      * apply StronglySorted_snoc; [apply Hsorted|].
        rewrite <- Heq, Hbid. exact Hold.
      * rewrite app_nil_r. apply Hsorted.
    + intros b Hin. apply in_app_or in Hin.
      destruct Hin as [Hin|[<-|[]]].
      * specialize (Htime b Hin). lia.
      * now apply Hstamp.
    + intros b Hin. apply in_app_or in Hin.
      destruct Hin as [Hin|[<-|[]]].
      * destruct (Hfk b Hin) as (a0 & Ha0 & Heq0).
        destruct (update_auction_keeps_ids id
                    (with_highest_bid (Some (amount bid)) (Some (bidder_id bid)))
                    (auctions db) a0 (with_highest_bid_id _ _) Ha0)
          as (a' & Ha' & Heq').
        exists a'. split; [exact Ha'|congruence].
      * destruct (update_auction_keeps_ids id
                    (with_highest_bid (Some (amount bid)) (Some (bidder_id bid)))
                    (auctions db) auction (with_highest_bid_id _ _) Hin0)
          as (a' & Ha' & Heq').
        exists a'. split; [exact Ha'|congruence].
    + intros a' Ha' Hst.
      apply update_auction_In in Ha'.
      destruct Ha' as (a & Ha & [[Heq ->]|[Hne ->]]).
      * change (auction_id (with_highest_bid _ _ a)) with (auction_id a).
        rewrite Heq, bids_of_app. unfold bids_of at 2. simpl.
        rewrite Hbid, Z.eqb_refl, last_bid_snoc. split; reflexivity.
      * rewrite bids_of_app. unfold bids_of at 2. simpl.
        replace (bid_auction_id bid =? auction_id a) with false
          by (symmetry; apply Z.eqb_neq; congruence).
        rewrite app_nil_r. now apply Hlast.
  - (* an auction ended *)
    split; [|split; [|split; [|split]]]; auto.
    + intros a' Ha' Hst b Hin.
      apply update_auction_In in Ha'.
      destruct Ha' as (a & Ha & [[Heq ->]|[Hne ->]]).
      * now apply Hfst in Hst.
      * now apply (Hcache a Ha Hst).
    + intros b Hin. specialize (Htime b Hin). lia.
    + intros b Hin. destruct (Hfk b Hin) as (a0 & Ha0 & Heq0).
      destruct (update_auction_keeps_ids id f (auctions db) a0 Hfid Ha0)
        as (a' & Ha' & Heq').
      exists a'. split; [exact Ha'|congruence].
    + intros a' Ha' Hst.
      apply update_auction_In in Ha'.
      destruct Ha' as (a & Ha & [[Heq ->]|[Hne ->]]).
      * now apply Hfst in Hst.
      * now apply Hlast.
Qed.

(** With the clock left out, every run keeps the invariant. *)
Lemma run_bids_ordered_no_clock (rs : list Request) (db : Database) :
  bids_ordered no_clock 0 db -> bids_ordered no_clock 0 (run db rs).
Proof.
  revert db. induction rs as [|r rs IH]; intros db Hinv; [exact Hinv|].
  rewrite run_cons. apply IH.
  apply (effect_bids_ordered (step_effect db r) Hinv (Z.le_refl 0)).
  intros b _. unfold no_clock. lia.
Qed.






(** When the earlier checks pass, the rejection names the current highest
    bid. *)
Lemma place_bid_not_higher (id : Z) (bid_data : BidCreate) (now created : Z)
    (db : Database) (auction : Auction) (bidder : User) (h : Decimal) :
  auction_by_id id (auctions db) = Some auction ->
  status auction = ACTIVE ->
  now <= ends_at auction ->
  user_by_wallet (lower (bc_wallet_address bid_data)) (users db) = Some bidder ->
  user_id bidder <> seller_id auction ->
  min_price auction <= bc_amount bid_data ->
  current_highest_bid auction = Some h ->
  0 < bc_amount bid_data <= h ->
  place_bid id bid_data now created db =
    (Raised (mkHTTPException HTTP_400_BAD_REQUEST (BidNotHigher h)), db).
Proof.
  intros Hfind Hact Hnow Hu Hself Hmin Hcur [Hpos Hle].
  unfold place_bid. unfold bind at 1. unfold query at 1.
  rewrite Hfind, Hact. cbn [negb AuctionStatus_eqb].
  destruct (Z.ltb_spec (ends_at auction) now); [lia|].
  unfold bind at 1. rewrite (get_or_create_user_known _ _ Hu).
  destruct (Z.eqb_spec (user_id bidder) (seller_id auction)); [contradiction|].
  destruct (Z.ltb_spec (bc_amount bid_data) (min_price auction)); [lia|].
  rewrite Hcur, (guard_failed Hpos Hle). reflexivity.
Qed.



(** The scenarios of the specification: 0.5 on a starting price of 1.0, and
    2.0 after 2.0. *)
Lemma bid_below_starting_price_refused :
  let db := run Sample.db0 [Sample.open_auction] in
  post_bid 1 (mkBidCreateBody Sample.bob 50000000 None) 10 10 db =
    (Failure (mkHTTPException HTTP_400_BAD_REQUEST (BidBelowMinPrice one_unit)),
     set_users (users db ++ [mkUser 2 Sample.bob 0]) db).
Proof. vm_compute. reflexivity. Qed.

Lemma equal_bid_refused :
  let db := run Sample.db0
              [Sample.open_auction;
               PlaceBid 1 (mkBidCreateBody Sample.bob (2 * one_unit) None) 10 10] in
  post_bid 1 (mkBidCreateBody Sample.carol (2 * one_unit) None) 20 20 db =
    (Failure (mkHTTPException HTTP_400_BAD_REQUEST (BidNotHigher (2 * one_unit))),
     set_users (users db ++ [mkUser 3 Sample.carol 0]) db).
Proof. vm_compute. reflexivity. Qed.

(* ================================================================== *)
(** * Settlement: buyout and close *)
(* ================================================================== *)









(** A buyout and a close on concrete databases. *)
Lemma buyout_example :
  let db := run Sample.db0 [Sample.open_auction_with_buyout] in
  let db' := step db (Buyout 1 Sample.bob 10) in
  option_map status (auction_by_id 1 (auctions db')) = Some CLOSED /\
  option_map current_highest_bid (auction_by_id 1 (auctions db'))
    = Some (Some (5 * one_unit)) /\
  option_map highest_bidder_id (auction_by_id 1 (auctions db')) = Some (Some 2) /\
  reputation db 2 = 0 /\ reputation db' 2 = 20 /\
  reputation db' 1 = reputation db 1.
Proof. repeat split; vm_compute; reflexivity. Qed.

Lemma close_without_bids_example :
  let db := run Sample.db0 [Sample.open_auction] in
  let db' := step db (Close 1 Sample.deadline) in
  option_map status (auction_by_id 1 (auctions db')) = Some CLOSED /\
  option_map highest_bidder_id (auction_by_id 1 (auctions db')) = Some None /\
  users db' = users db.
Proof. repeat split; vm_compute; reflexivity. Qed.

(* ================================================================== *)
(** * The highest-bid cache against winner determination *)
(* ================================================================== *)

(** C10 (defect in the code): bob bids 100000000.00000001 and carol outbids
    him with 100000000.00000002; both bids are accepted by [place_bid], which
    compares the decimals exactly, and the cache names carol's bid.  At
    close, [determine_winner] compares [float(amount)]: the two amounts
    convert to the same binary64 value, the bids tie on amount and category,
    and the earlier [created_at] wins.  The auction closes on bob's bid, and
    bob receives the 15 points. *)
Theorem close_overrides_highest_bid_cache :
  let db := run Sample.db0 Sample.two_close_bids in
  let db' := step db (Close 1 Sample.deadline) in
  map amount (bids_of 1 (bids db)) = [Sample.amount_lo; Sample.amount_hi] /\
  map bidder_id (bids_of 1 (bids db)) = [2; 3] /\
  Sample.amount_lo < Sample.amount_hi /\
  option_map current_highest_bid (auction_by_id 1 (auctions db))
    = Some (Some Sample.amount_hi) /\
  option_map highest_bidder_id (auction_by_id 1 (auctions db)) = Some (Some 3) /\
  option_map bidder_id (determine_winner (bids_of 1 (bids db))) = Some 2 /\
  option_map status (auction_by_id 1 (auctions db')) = Some CLOSED /\
  option_map current_highest_bid (auction_by_id 1 (auctions db'))
    = Some (Some Sample.amount_lo) /\
  option_map highest_bidder_id (auction_by_id 1 (auctions db')) = Some (Some 2) /\
  reputation db' 2 = 15 /\
  reputation db' 3 = 0.
Proof. repeat split; vm_compute; reflexivity. Qed.

(** With amounts that differ by more than the rounding of [float], the same
    run closes on the last bid. *)
Lemma close_agrees_with_cache_example :
  let db := run Sample.db0
              [Sample.open_auction;
               PlaceBid 1 (mkBidCreateBody Sample.bob (2 * one_unit) None) 10 10;
               PlaceBid 1 (mkBidCreateBody Sample.carol (3 * one_unit)
                             (Some PREMIUM)) 20 20] in
  let db' := step db (Close 1 Sample.deadline) in
  option_map highest_bidder_id (auction_by_id 1 (auctions db)) = Some (Some 3) /\
  option_map highest_bidder_id (auction_by_id 1 (auctions db')) = Some (Some 3) /\
  option_map current_highest_bid (auction_by_id 1 (auctions db'))
    = Some (Some (3 * one_unit)) /\
  option_map winner_category (auction_by_id 1 (auctions db'))
    = Some (Some PREMIUM).
Proof. repeat split; vm_compute; reflexivity. Qed.

Lemma neg_ltb (a b : PyFloat.float) :
  PyFloat.ltb a b = true -> PyFloat.ltb (PyFloat.neg b) (PyFloat.neg a) = true.
Proof. unfold PyFloat.neg, SFopp. FloatOrder.float_order. Qed.

(** A bid whose key is strictly below all the earlier ones wins from the
    end of the list. *)
Lemma determine_winner_last (l : list Bid) (b : Bid) :
  (forall x, In x l -> tuple_lt (bid_key b) (bid_key x) = true) ->
  determine_winner (l ++ [b]) = Some b.
Proof.
  induction l as [|x l IH]; intros H; [reflexivity|].
  simpl app. rewrite determine_winner_cons, IH.
  - rewrite H; [reflexivity|now left].
  - intros y Hy. apply H. now right.
Qed.

(** Where [float] keeps the amounts apart, winner determination returns the
    last, highest bid: a disagreement between the cache and the winner can
    come from the conversion alone. *)
Lemma determine_winner_of_increasing_floats (l : list Bid) (b : Bid) :
  floats_increase (l ++ [b]) -> determine_winner (l ++ [b]) = Some b.
Proof.
  intros H. apply determine_winner_last. intros x Hx.
  assert (Hlt : PyFloat.ltb (PyFloat.of_decimal (amount x))
                  (PyFloat.of_decimal (amount b)) = true).
  { clear -H Hx. induction l as [|y l IH]; [destruct Hx|].
    simpl in H. inversion H as [|? ? Hs Hf]; subst.
    destruct Hx as [->|Hx]; [|now apply IH].
    rewrite Forall_forall in Hf. apply Hf, in_or_app. right. now left. }
  unfold tuple_lt, bid_key. apply neg_ltb in Hlt.
  now rewrite (FloatOrder.ltb_not_eqb _ _ Hlt).
Qed.

(* ================================================================== *)
(** * Referential integrity of the bidders *)
(* ================================================================== *)

Lemma has_user_In (db : Database) (u : User) :
  In u (users db) -> has_user (user_id u) db = true.
Proof.
  intros H. apply existsb_exists. exists u. split; [exact H|apply Z.eqb_refl].
Qed.

Lemma has_user_incl (db db' : Database) (uid : Z) :
  (forall v, In v (users db) -> In v (users db')) ->
  has_user uid db = true -> has_user uid db' = true.
Proof.
  intros Hincl H. apply existsb_exists in H. destruct H as (u & Hin & Heq).
  apply existsb_exists. exists u. auto.
Qed.

Lemma has_user_update (db : Database) (l : list Auction) (id uid : Z)
    (f : User -> User) :
  (forall u, user_id (f u) = user_id u) ->
  has_user uid db = true ->
  has_user uid (set_users (update_user id f (users db)) (set_auctions l db))
    = true.
Proof.
  intros Hid H. apply existsb_exists in H. destruct H as (u & Hin & Heq).
  apply existsb_exists.
  exists (if user_id u =? id then f u else u). split.
  - simpl. unfold update_user.
    now apply (in_map (fun u => if user_id u =? id then f u else u)).
  - destruct (user_id u =? id); [rewrite Hid|]; exact Heq.
Qed.

(** A request keeps every user id, and a bid it stores names a user. *)
Lemma step_users (db : Database) (r : Request) :
  (forall uid, has_user uid db = true -> has_user uid (step db r) = true) /\
  (forall b, In b (bids (step db r)) ->
     In b (bids db) \/ has_user (bidder_id b) (step db r) = true).
Proof.
  destruct r as [body now|id body now created|id wallet now|id now|id wallet];
    unfold step.
  - unfold post_auction.
    destruct (AuctionCreate_validate body) as [errors|auction_data]; [auto|].
    unfold respond.
    destruct (create_auction auction_data now db) as [[a|e] db'] eqn:H; simpl.
    + apply create_auction_returned in H.
      destruct H as (seller & db1 & Hu & _ & _ & ->).
      apply get_or_create_user_returned in Hu.
      destruct Hu as (_ & Hb & _ & Hincl & _). simpl. rewrite Hb.
      split; [|auto]. intros uid. apply has_user_incl. exact Hincl.
    + apply create_auction_raised in H. destruct H as (_ & Hb & _ & Hincl).
      rewrite Hb. split; [|auto]. intros uid. now apply has_user_incl.
  - unfold post_bid.
    destruct (BidCreate_validate body) as [errors|bid_data]; [auto|].
    unfold respond.
    destruct (place_bid id bid_data now created db) as [[bid|e] db'] eqn:H; simpl.
    + apply place_bid_returned in H.
      destruct H as (auction & bidder & db1 & _ & _ & _ & Hu & _ & _ & _ & _
                     & -> & ->).
      apply get_or_create_user_returned in Hu.
      destruct Hu as (_ & Hb & _ & Hincl & Hin). simpl. rewrite Hb.
      split.
      * intros uid. apply has_user_incl. exact Hincl.
      * intros b Hb'. apply in_app_or in Hb'.
        destruct Hb' as [Hb'|[<-|[]]]; [now left|right].
        simpl. exact (has_user_In db1 bidder Hin).
    + apply place_bid_raised in H. destruct H as (_ & Hb & _ & Hincl).
      rewrite Hb. split; [|auto]. intros uid. now apply has_user_incl.
  - unfold post_buyout.
    destruct (BuyoutCreate_validate wallet) as [errors|buyout_data]; [auto|].
    unfold respond.
    destruct (buyout_auction id buyout_data now db) as [[a|e] db'] eqn:H; simpl.
    + apply buyout_auction_returned in H.
      destruct H as (auction & price & buyer & db1 & _ & _ & _ & _ & Hu & _ & _
                     & ->).
      apply get_or_create_user_returned in Hu.
      destruct Hu as (_ & Hb & _ & Hincl & _).
      split.
      * intros uid Huid. apply has_user_update; [reflexivity|].
        now apply has_user_incl with db.
      * simpl. rewrite Hb. auto.
    + apply buyout_auction_raised in H. destruct H as (_ & Hb & _ & Hincl).
      rewrite Hb. split; [|auto]. intros uid. now apply has_user_incl.
  - unfold post_close, respond.
    destruct (close_auction id now db) as [[a|e] db'] eqn:H; simpl.
    + apply close_auction_returned in H.
      destruct H as (auction & _ & _ & _ & H).
      destruct (determine_winner (bids_of id (bids db))) as [w|];
        destruct H as [_ ->]; simpl; [|auto].
      split; [|auto]. intros uid Huid.
      destruct (user_by_id (bidder_id w) (users db)) as [u|]; [|exact Huid].
      now apply has_user_update.
    + apply close_auction_raised in H. subst db'. auto.
  - unfold post_cancel, respond.
    destruct (cancel_auction id wallet db) as [[x|e] db'] eqn:H; simpl.
    + apply cancel_auction_returned in H.
      destruct H as (auction & user & _ & _ & _ & _ & _ & ->). simpl. auto.
    + apply cancel_auction_raised in H. subst db'. auto.
Qed.

Lemma step_bids_have_bidders (db : Database) (r : Request) :
  bids_have_bidders db = true -> bids_have_bidders (step db r) = true.
Proof.
  intros H. unfold bids_have_bidders in *. rewrite forallb_forall in *.
  destruct (step_users db r) as [Hkeep Hnew].
  intros b Hb. destruct (Hnew b Hb) as [Hold|Hhas]; [|exact Hhas].
  apply Hkeep. exact (H b Hold).
Qed.

(** Every bid of a database reached from one without bids names a
    registered user: the integrity assumed when a close awards its points. *)
Lemma run_bids_have_bidders (rs : list Request) (db : Database) :
  bids_have_bidders db = true -> bids_have_bidders (run db rs) = true.
Proof.
  revert db. induction rs as [|r rs IH]; intros db H; [exact H|].
  rewrite run_cons. apply IH. now apply step_bids_have_bidders.
Qed.

Lemma fresh_database_bids_have_bidders (db : Database) :
  fresh_database db -> bids_have_bidders db = true.
Proof. intros [_ H]. unfold bids_have_bidders. now rewrite H. Qed.

(* ================================================================== *)
(** * Where the cache and the winner agree *)
(* ================================================================== *)

Lemma last_bid_none (l : list Bid) : last_bid l = None -> l = [].
Proof.
  unfold last_bid. intros H. rewrite <- (rev_involutive l).
  destruct (rev l); [reflexivity|discriminate].
Qed.

(** In every database reached from one without auctions and bids, the cache
    of an Active auction names its most recently accepted bid; when [float]
    keeps the amounts of its bids apart, that bid is also the one winner
    determination selects. *)
Lemma cache_is_winner_where_floats_increase (db0 : Database)
    (rs : list Request) (id : Z) (auction : Auction) :
  fresh_database db0 ->
  auction_by_id id (auctions (run db0 rs)) = Some auction ->
  status auction = ACTIVE ->
  cache_is auction (last_bid (bids_of id (bids (run db0 rs)))) /\
  (floats_increase (bids_of id (bids (run db0 rs))) ->
   cache_is auction (determine_winner (bids_of id (bids (run db0 rs))))).
Proof.
  intros Hfresh Hfind Hact.
  pose proof (run_bids_ordered_no_clock rs (bids_ordered_fresh no_clock 0 Hfresh))
    as (_ & _ & _ & _ & Hlast).
  apply auction_by_id_some in Hfind. destruct Hfind as [Hin <-].
  specialize (Hlast auction Hin Hact).
  split; [exact Hlast|]. intros Hfl.
  destruct (last_bid (bids_of (auction_id auction) (bids (run db0 rs))))
    as [b|] eqn:E.
  - apply last_bid_some in E. destruct E as (l' & E). rewrite E in *.
    now rewrite determine_winner_of_increasing_floats.
  - apply last_bid_none in E. rewrite E. exact Hlast.
Qed.

(* ================================================================== *)
(** * Every way a request leaves the database *)
(* ================================================================== *)

Lemma get_or_create_user_eq (wallet : string) (db : Database) :
  get_or_create_user wallet db = (Returned (resolve_user wallet db), register wallet db).
Proof.
  unfold resolve_user, register.
  destruct (get_or_create_user_cases wallet db) as [(u & Hu & ->)|(Hu & ->)];
    rewrite Hu; [reflexivity|].
  unfold resolve_user. now rewrite Hu.
Qed.

Lemma register_auctions (wallet : string) (db : Database) :
  auctions (register wallet db) = auctions db.
Proof. unfold register. now destruct (user_by_wallet _ _). Qed.

Lemma register_bids (wallet : string) (db : Database) :
  bids (register wallet db) = bids db.
Proof. unfold register. now destruct (user_by_wallet _ _). Qed.

Lemma register_flags (wallet : string) (db : Database) :
  flags (register wallet db) = flags db.
Proof. unfold register. now destruct (user_by_wallet _ _). Qed.

Lemma register_ownerships (wallet : string) (db : Database) :
  ownerships (register wallet db) = ownerships db.
Proof. unfold register. now destruct (user_by_wallet _ _). Qed.


Lemma AuctionCreate_validate_prices (body : AuctionCreateBody)
    (auction_data : AuctionCreate) :
  AuctionCreate_validate body = inr auction_data ->
  0 < ac_starting_price auction_data /\ 0 < ac_min_price auction_data.
Proof.
  unfold AuctionCreate_validate, field_gt0, field_optional_gt0.
  destruct (field_wallet_address _); [discriminate|].
  destruct (Z.ltb_spec 0 (body_starting_price body)); [|discriminate].
  destruct (body_min_price body) as [m|].
  - destruct (Z.ltb_spec 0 m); [|discriminate].
    destruct (field_buyout_price _ _); [discriminate|].
    destruct (field_duration_hours _); [discriminate|].
    intros [= <-]. simpl. auto.
  - destruct (field_buyout_price _ _); [discriminate|].
    destruct (field_duration_hours _); [discriminate|].
    intros [= <-]. simpl. auto.
Qed.

(** The transition of a request, read off the handlers. *)
Lemma step_transition (db : Database) (r : Request) : Transition r db (step db r).
Proof.
  destruct r as [body now|id body now created|id wallet now|id now|id wallet];
    unfold step.
  - unfold post_auction.
    destruct (AuctionCreate_validate body) as [errors|auction_data] eqn:Hv;
      [now apply tr_refused with None|].
    pose proof (AuctionCreate_validate_prices _ Hv) as [Hsp Hmp].
    pose proof (fun b => @AuctionCreate_validate_buyout body auction_data b Hv) as Hbp.
    unfold respond, create_auction. unfold bind at 1. unfold query at 1.
    destruct (find _ (flags db)); [|now apply tr_refused with None].
    unfold bind at 1. rewrite get_or_create_user_eq.
    unfold bind at 1. unfold query at 1. rewrite register_ownerships.
    destruct (ownership_of _ _ _) eqn:Hown;
      [|now apply tr_refused with (Some (ac_wallet_address auction_data))].
    unfold bind at 1. unfold query at 1. rewrite register_auctions.
    destruct (active_auction_for _ _) eqn:Hact;
      [now apply tr_refused with (Some (ac_wallet_address auction_data))|].
    run_handler. rewrite register_auctions. simpl.
    eapply tr_created with (wallet := ac_wallet_address auction_data);
      try reflexivity; simpl; eauto.
    rewrite Hown. discriminate.
  - unfold post_bid.
    destruct (BidCreate_validate body) as [errors|bid_data] eqn:Hv;
      [now apply tr_refused with None|].
    apply BidCreate_validate_inr in Hv. destruct Hv as [_ Hpos].
    unfold respond, place_bid. unfold bind at 1. unfold query at 1.
    destruct (auction_by_id id (auctions db)) as [auction|] eqn:Hfind;
      [|now apply tr_refused with None].
    destruct (AuctionStatus_eqb (status auction) ACTIVE) eqn:Hst;
      [|now apply tr_refused with None].
    apply AuctionStatus_eqb_eq in Hst. cbn [negb].
    destruct (_ <? now); [now apply tr_refused with None|].
    unfold bind at 1. rewrite get_or_create_user_eq.
    destruct (Z.eqb_spec (user_id (resolve_user (bc_wallet_address bid_data) db))
                (seller_id auction)) as [|Hself];
      [now apply tr_refused with (Some (bc_wallet_address bid_data))|].
    destruct (Z.ltb_spec (bc_amount bid_data) (min_price auction)) as [|Hmin];
      [now apply tr_refused with (Some (bc_wallet_address bid_data))|].
    destruct (truthy _ && le_current _ _)%bool eqn:Hcur;
      [now apply tr_refused with (Some (bc_wallet_address bid_data))|].
    destruct (Z.ltb_spec (bc_amount bid_data) (starting_price auction)) as [|Hstart];
      [now apply tr_refused with (Some (bc_wallet_address bid_data))|].
    run_handler. rewrite register_auctions, register_bids. simpl.
    eapply tr_bid with
      (wallet := bc_wallet_address bid_data) (auction := auction)
      (bid := mkBid (next_id (map bid_id (bids db))) id
                (user_id (resolve_user (bc_wallet_address bid_data) db))
                (bc_amount bid_data) (bc_bidder_category bid_data) created);
      try reflexivity; simpl; eauto.
    split; [exact Hmin|split; [exact Hstart|]].
    exact (guard_passed Hpos Hcur).
  - unfold post_buyout.
    destruct (BuyoutCreate_validate wallet) as [errors|buyout_data] eqn:Hv;
      [now apply tr_refused with None|].
    unfold respond, buyout_auction. unfold bind at 1. unfold query at 1.
    destruct (auction_by_id id (auctions db)) as [auction|] eqn:Hfind;
      [|now apply tr_refused with None].
    destruct (AuctionStatus_eqb (status auction) ACTIVE) eqn:Hst;
      [|now apply tr_refused with None].
    apply AuctionStatus_eqb_eq in Hst. cbn [negb].
    destruct (buyout_price auction) as [price|] eqn:Hprice;
      [|now apply tr_refused with None].
    destruct (_ <? now); [now apply tr_refused with None|].
    unfold bind at 1. rewrite get_or_create_user_eq.
    destruct (Z.eqb_spec (user_id (resolve_user (bo_wallet_address buyout_data) db))
                (seller_id auction)) as [|Hself];
      [now apply tr_refused with (Some (bo_wallet_address buyout_data))|].
    run_handler. rewrite register_auctions. simpl.
    eapply tr_buyout with (wallet := bo_wallet_address buyout_data)
                          (auction := auction); eauto.
  - unfold post_close, respond, close_auction. unfold bind at 1. unfold query at 1.
    destruct (auction_by_id id (auctions db)) as [auction|] eqn:Hfind;
      [|now apply tr_refused with None].
    destruct (AuctionStatus_eqb (status auction) ACTIVE) eqn:Hst;
      [|now apply tr_refused with None].
    apply AuctionStatus_eqb_eq in Hst. cbn [negb].
    destruct (Z.ltb_spec now (ends_at auction)) as [|Hnow];
      [now apply tr_refused with None|].
    run_handler.
    destruct (determine_winner (bids_of id (bids db))) as [w|] eqn:Hw; simpl.
    + eapply tr_closed with (auction := auction) (w := w); eauto.
    + eapply tr_closed_empty with (auction := auction); eauto.
      now apply determine_winner_none.
  - unfold post_cancel, respond.
    destruct (cancel_auction id wallet db) as [[x|e] db'] eqn:H; simpl.
    + apply cancel_auction_returned in H.
      destruct H as (auction & user & Hfind & Hu & Hseller & Hact & Hcur & ->).
      eapply tr_cancelled with (auction := auction); eauto.
      unfold requester_is_seller. rewrite Hu. now apply Z.eqb_eq.
    + apply cancel_auction_raised in H. subst db'. now apply tr_refused with None.
Qed.

(* ================================================================== *)
(** * Keys stay unique *)
(* ================================================================== *)

Section Keys.
Variables (A K : Type).
Variable pk : A -> K.

Lemma NoDup_map_snoc (l : list A) (x : A) :
  NoDup (map pk l) -> ~ In (pk x) (map pk l) -> NoDup (map pk (l ++ [x])).
Proof.
  intros Hnd Hnotin. rewrite map_app. simpl.
  apply NoDup_app; [exact Hnd|repeat constructor; intros []|].
  intros k Hk [<-|[]]. contradiction.
Qed.

Lemma map_pk_update (test : A -> bool) (f : A -> A) (l : list A) :
  (forall a, pk (f a) = pk a) ->
  map pk (map (fun a => if test a then f a else a) l) = map pk l.
Proof.
  intros Hf. rewrite map_map. apply map_ext. intros a.
  destruct (test a); [apply Hf|reflexivity].
Qed.
End Keys.

Lemma next_id_not_In (A : Type) (pk : A -> Z) (l : list A) :
  ~ In (next_id (map pk l)) (map pk l).
Proof.
  intros H. apply in_map_iff in H. destruct H as (a & Heq & Hin).
  pose proof (next_id_fresh pk l a Hin). lia.
Qed.

Lemma user_by_wallet_none_not_In (wallet : string) (l : list User) :
  user_by_wallet wallet l = None -> ~ In wallet (map wallet_address l).
Proof.
  intros Hnone H. apply in_map_iff in H. destruct H as (u & Heq & Hin).
  apply (find_none _ _ Hnone) in Hin. rewrite Heq, String.eqb_refl in Hin.
  discriminate.
Qed.

Lemma register_users_unique (wallet : string) (db : Database) :
  NoDup (map user_id (users db)) -> NoDup (map wallet_address (users db)) ->
  NoDup (map user_id (users (register wallet db))) /\
  NoDup (map wallet_address (users (register wallet db))).
Proof.
  intros Hid Hw. unfold register, resolve_user.
  destruct (user_by_wallet (lower wallet) (users db)) eqn:E; [auto|]. simpl.
  split; apply NoDup_map_snoc; auto.
  - apply next_id_not_In.
  - now apply user_by_wallet_none_not_In.
Qed.

Lemma update_user_ids (id : Z) (d : Z) (l : list User) :
  map user_id (update_user id (add_reputation d) l) = map user_id l /\
  map wallet_address (update_user id (add_reputation d) l) = map wallet_address l.
Proof. split; apply map_pk_update; reflexivity. Qed.

Lemma update_auction_ids (id : Z) (f : Auction -> Auction) (l : list Auction) :
  (forall a, auction_id (f a) = auction_id a) ->
  map auction_id (update_auction id f l) = map auction_id l.
Proof. apply map_pk_update. Qed.

(** No request breaks the uniqueness of a key. *)
Lemma transition_keys (r : Request) (db db' : Database) :
  Transition r db db' -> keys_unique db -> keys_unique db'.
Proof.
  intros Htr (Hu & Hw & Ha & Hb).
  destruct Htr as [w E|w a _ _ _ Hid _ _ _ _ _ _ _ _ E
                  |w id auction bid _ _ _ Hid _ _ _ _ _ E
                  |w id auction price _ _ _ _ _ E
                  |id auction win _ _ _ _ E
                  |id auction _ _ _ _ E
                  |id auction w _ _ _ _ _ E]; subst db'; unfold keys_unique; simpl.
  - destruct w as [w|]; [|auto].
    rewrite register_auctions, register_bids.
    destruct (register_users_unique w db Hu Hw). auto.
  - rewrite register_bids.
    destruct (register_users_unique w db Hu Hw) as [H1 H2].
    repeat split; auto.
    apply NoDup_map_snoc; [exact Ha|]. rewrite Hid. apply next_id_not_In.
  - destruct (register_users_unique w db Hu Hw) as [H1 H2].
    rewrite update_auction_ids by reflexivity.
    repeat split; auto.
    apply NoDup_map_snoc; [exact Hb|]. rewrite Hid. apply next_id_not_In.
  - destruct (register_users_unique w db Hu Hw) as [H1 H2].
    destruct (update_user_ids (user_id (resolve_user w db)) 20
                (users (register w db))) as [-> ->].
    rewrite update_auction_ids, register_bids by reflexivity. auto.
  - rewrite update_auction_ids by reflexivity.
    destruct (user_by_id (bidder_id win) (users db)) as [u|]; [|auto].
    destruct (update_user_ids (user_id u) 15 (users db)) as [-> ->]. auto.
  - rewrite update_auction_ids by reflexivity. auto.
  - rewrite update_auction_ids by reflexivity. auto.
Qed.

Lemma run_keys (rs : list Request) (db : Database) :
  keys_unique db -> keys_unique (run db rs).
Proof.
  revert db. induction rs as [|r rs IH]; intros db H; [exact H|].
  rewrite run_cons. apply IH.
  exact (transition_keys (step_transition db r) H).
Qed.

(* ================================================================== *)
(** * What holds of every row *)
(* ================================================================== *)

Ltac transition_cases H :=
  destruct H as
    [wallet E
    |wallet a Hreq Hnoactive Hown Hid Hseller Hst Hcur Hhb Hwc Hsp Hmp Hbp E
    |wallet id auction bid Hstamp Hfound Hact Hbid Hbaid Hbidder Hns Hpos Hacc E
    |wallet id auction price Hreq Hfound Hact Hbp Hns E
    |id auction w Hreq Hfound Hact Hwin E
    |id auction Hreq Hfound Hact Hnobids E
    |id auction wallet Hreq Hfound Hact Hcur Hsel E].

Lemma unique_row (l : list Auction) (a : Auction) :
  NoDup (map auction_id l) -> In a l -> auction_by_id (auction_id a) l = Some a.
Proof.
  unfold auction_by_id.
  induction l as [|x l IH]; simpl; intros Hnd Hin; [contradiction|].
  inversion Hnd as [|? ? Hx Hl]; subst.
  destruct Hin as [->|Hin].
  - now rewrite Z.eqb_refl.
  - destruct (Z.eqb_spec (auction_id x) (auction_id a)) as [Heq|Hne].
    + exfalso. apply Hx. rewrite Heq. now apply in_map.
    + auto.
Qed.

Lemma update_auction_row (id : Z) (f : Auction -> Auction) (l : list Auction)
    (a : Auction) :
  In a l -> In (if auction_id a =? id then f a else a) (update_auction id f l).
Proof.
  intros Hin. unfold update_auction.
  exact (in_map (fun a => if auction_id a =? id then f a else a) l a Hin).
Qed.

Lemma bid_sound_update (db db' : Database) (id : Z) (f : Auction -> Auction)
    (b : Bid) :
  (forall a, auction_id (f a) = auction_id a /\ seller_id (f a) = seller_id a /\
             min_price (f a) = min_price a /\
             starting_price (f a) = starting_price a) ->
  auctions db' = update_auction id f (auctions db) ->
  bid_sound db b -> bid_sound db' b.
Proof.
  intros Hf E (a & Hin & Hid & Hs & Hm & Hp & H0).
  exists (if auction_id a =? id then f a else a). rewrite E.
  split; [now apply update_auction_row|].
  destruct (Hf a) as (F1 & F2 & F3 & F4).
  destruct (auction_id a =? id); [rewrite F1, F2, F3, F4|]; auto.
Qed.

Lemma bid_sound_same (db db' : Database) (b : Bid) :
  auctions db' = auctions db -> bid_sound db b -> bid_sound db' b.
Proof. unfold bid_sound. now intros ->. Qed.

Lemma auction_sound_ext (db db' : Database) (a : Auction) :
  bids_of (auction_id a) (bids db') = bids_of (auction_id a) (bids db) ->
  auction_sound db a -> auction_sound db' a.
Proof.
  unfold auction_sound, closed_on, closed_without_winner. intros ->.
  intros H. exact H.
Qed.

Lemma no_bids_for_next_auction (db : Database) :
  (forall b, In b (bids db) -> bid_sound db b) ->
  bids_of (next_id (map auction_id (auctions db))) (bids db) = [].
Proof.
  intros Hb. unfold bids_of.
  apply find_none_filter_nil. apply find_none_forall. intros b Hin.
  destruct (Hb b Hin) as (a & Ha & Hid & _).
  pose proof (next_id_fresh auction_id (auctions db) a Ha).
  apply Z.eqb_neq. lia.
Qed.

Lemma transition_bid_sound (r : Request) (db db' : Database) :
  Transition r db db' ->
  (forall b, In b (bids db) -> bid_sound db b) ->
  forall b, In b (bids db') -> bid_sound db' b.
Proof.
  intros Htr Hb. transition_cases Htr; subst db'; simpl.
  - destruct wallet as [wallet|]; [|exact Hb].
    rewrite register_bids. intros b Hin.
    apply bid_sound_same with (db := db); [apply register_auctions|auto].
  - rewrite ?register_bids. intros b Hin.
    destruct (Hb b Hin) as (a0 & Hin0 & H0).
    exists a0. simpl. split; [apply in_or_app; now left|exact H0].
  - rewrite ?register_bids. intros b Hin.
    apply in_app_or in Hin. destruct Hin as [Hin|[<-|[]]].
    + eapply bid_sound_update; [|reflexivity|exact (Hb b Hin)].
      intros a0. repeat split.
    + destruct (auction_by_id_some _ _ Hfound) as [Hin0 Hid0].
      destruct Hacc as (Hm & Hs & _).
      exists (with_highest_bid (Some (amount bid)) (Some (bidder_id bid)) auction).
      simpl. split.
      * pose proof (update_auction_row id
          (with_highest_bid (Some (amount bid)) (Some (bidder_id bid)))
          (auctions db) auction Hin0) as Hrow.
        now rewrite Hid0, Z.eqb_refl in Hrow.
      * repeat split; auto; congruence.
  - rewrite ?register_bids. intros b Hin.
    eapply bid_sound_update; [|reflexivity|exact (Hb b Hin)].
    intros a0. repeat split.
  - intros b Hin.
    eapply bid_sound_update; [|reflexivity|exact (Hb b Hin)].
    intros a0. repeat split.
  - intros b Hin.
    eapply bid_sound_update; [|reflexivity|exact (Hb b Hin)].
    intros a0. repeat split.
  - intros b Hin.
    eapply bid_sound_update; [|reflexivity|exact (Hb b Hin)].
    intros a0. repeat split.
Qed.

Lemma bids_of_snoc_other (id : Z) (l : list Bid) (b : Bid) :
  bid_auction_id b <> id -> bids_of id (l ++ [b]) = bids_of id l.
Proof.
  intros H. rewrite bids_of_app. unfold bids_of at 2. simpl.
  apply Z.eqb_neq in H. rewrite H. apply app_nil_r.
Qed.

Lemma bids_of_snoc_same (l : list Bid) (b : Bid) :
  bids_of (bid_auction_id b) (l ++ [b]) =
  (bids_of (bid_auction_id b) l ++ [b])%list.
Proof.
  rewrite bids_of_app. unfold bids_of at 2. simpl. now rewrite Z.eqb_refl.
Qed.

Ltac the_row Hka Hin0 Hid0 Hfound :=
  let U := fresh "U" in
  pose proof (@unique_row _ _ Hka Hin0) as U; rewrite Hid0, Hfound in U;
  injection U as <-.

Lemma transition_auction_sound (r : Request) (db db' : Database) :
  Transition r db db' -> sound db ->
  forall a', In a' (auctions db') -> auction_sound db' a'.
Proof.
  intros Htr ((_ & _ & Hka & _) & Hb & Ha).
  transition_cases Htr; subst db'.
  - intros a' Hin. apply auction_sound_ext with (db := db).
    + destruct wallet; [now rewrite register_bids|reflexivity].
    + apply Ha. destruct wallet; [now rewrite register_auctions in Hin|exact Hin].
  - simpl. intros a' Hin. apply in_app_or in Hin. destruct Hin as [Hin|[<-|[]]].
    + apply auction_sound_ext with (db := db); [simpl; now rewrite register_bids|auto].
    + unfold auction_sound. simpl.
      rewrite register_bids, Hid, (no_bids_for_next_auction Hb).
      split; [exact Hsp|]. split; [exact Hmp|]. split; [exact Hbp|].
      split; [rewrite Hhb; discriminate|].
      split; [intros _; split; [split; simpl; assumption|assumption]|].
      split; intros Hs; rewrite Hst in Hs; discriminate.
  - simpl. intros a' Hin.
    apply update_auction_In in Hin. destruct Hin as (a0 & Hin0 & [[Hid0 ->]|[Hid0 ->]]).
    + the_row Hka Hin0 Hid0 Hfound.
      destruct (Ha _ Hin0) as (P1 & P2 & P3 & P4 & P5 & P6 & P7).
      destruct (P5 Hact) as [_ Hwc].
      unfold auction_sound. simpl.
      rewrite Hid0, <- Hbaid, bids_of_snoc_same, last_bid_snoc.
      split; [exact P1|]. split; [exact P2|]. split; [exact P3|].
      split; [intros H; apply Hns; congruence|].
      split; [intros _; split; [split; reflexivity|exact Hwc]|].
      split; intros Hs; rewrite Hact in Hs; discriminate.
    + apply auction_sound_ext with (db := db); [|auto]. simpl.
      apply bids_of_snoc_other. congruence.
  - simpl. intros a' Hin.
    apply update_auction_In in Hin. destruct Hin as (a0 & Hin0 & [[Hid0 ->]|[Hid0 ->]]).
    + the_row Hka Hin0 Hid0 Hfound.
      destruct (Ha _ Hin0) as (P1 & P2 & P3 & P4 & P5 & P6 & P7).
      destruct (P5 Hact) as [_ Hwc].
      unfold auction_sound. simpl. rewrite register_bids, Hwc.
      split; [exact P1|]. split; [exact P2|]. split; [exact P3|].
      split; [intros H; apply Hns; congruence|].
      split; [discriminate|]. split; [discriminate|].
      intros _. right. simpl.
      split; [now rewrite Hbp|]. split; [rewrite Hbp|]; discriminate.
    + apply auction_sound_ext with (db := db); [|auto]. simpl.
      now rewrite register_bids.
  - simpl. intros a' Hin.
    apply update_auction_In in Hin. destruct Hin as (a0 & Hin0 & [[Hid0 ->]|[Hid0 ->]]).
    + the_row Hka Hin0 Hid0 Hfound.
      destruct (Ha _ Hin0) as (P1 & P2 & P3 & P4 & P5 & P6 & P7).
      pose proof (determine_winner_In _ Hwin) as Hw.
      unfold auction_sound. simpl.
      split; [exact P1|]. split; [exact P2|]. split; [exact P3|].
      split.
      { apply bids_of_In in Hw. destruct Hw as [Hw Hwid].
        destruct (Hb w Hw) as (a1 & Hin1 & Hid1 & Hne & _).
        rewrite Hwid in Hid1. the_row Hka Hin1 Hid1 Hfound.
        intros H. apply Hne. congruence. }
      split; [discriminate|]. split; [discriminate|].
      intros _. exists w. simpl. rewrite Hid0. auto.
    + apply auction_sound_ext with (db := db); [reflexivity|auto].
  - simpl. intros a' Hin.
    apply update_auction_In in Hin. destruct Hin as (a0 & Hin0 & [[Hid0 ->]|[Hid0 ->]]).
    + the_row Hka Hin0 Hid0 Hfound.
      destruct (Ha _ Hin0) as (P1 & P2 & P3 & P4 & P5 & P6 & P7).
      destruct (P5 Hact) as [[Hc Hh] Hwc].
      rewrite Hid0, Hnobids in Hc, Hh. simpl in Hc, Hh.
      unfold auction_sound. simpl. rewrite Hwc, Hid0.
      split; [exact P1|]. split; [exact P2|]. split; [exact P3|].
      split; [exact P4|].
      split; [discriminate|]. split; [discriminate|].
      intros _. left. simpl. rewrite Hid0. auto.
    + apply auction_sound_ext with (db := db); [reflexivity|auto].
  - simpl. intros a' Hin.
    apply update_auction_In in Hin. destruct Hin as (a0 & Hin0 & [[Hid0 ->]|[Hid0 ->]]).
    + the_row Hka Hin0 Hid0 Hfound.
      destruct (Ha _ Hin0) as (P1 & P2 & P3 & P4 & P5 & P6 & P7).
      destruct (P5 Hact) as [[Hc Hh] Hwc].
      assert (Hnone : bids_of (auction_id auction) (bids db) = []).
      { apply last_bid_none.
        destruct (last_bid (bids_of (auction_id auction) (bids db))); [|reflexivity].
        rewrite Hcur in Hc. discriminate. }
      rewrite Hnone in Hh. simpl in Hh.
      unfold auction_sound. simpl.
      split; [exact P1|]. split; [exact P2|]. split; [exact P3|].
      split; [exact P4|].
      split; [discriminate|]. split; [auto|discriminate].
    + apply auction_sound_ext with (db := db); [reflexivity|auto].
Qed.

Lemma transition_sound (r : Request) (db db' : Database) :
  Transition r db db' -> sound db -> sound db'.
Proof.
  intros Htr Hs. split; [|split].
  - destruct Hs as (Hk & _). exact (transition_keys Htr Hk).
  - destruct Hs as (_ & Hb & _). exact (transition_bid_sound Htr Hb).
  - exact (transition_auction_sound Htr Hs).
Qed.

Lemma run_sound (rs : list Request) (db : Database) :
  sound db -> sound (run db rs).
Proof.
  revert db. induction rs as [|r rs IH]; intros db H; [exact H|].
  rewrite run_cons. apply IH.
  exact (transition_sound (step_transition db r) H).
Qed.

Lemma initial_sound (db : Database) : initial db -> sound db.
Proof.
  intros ((Ha & Hb) & Hu & Hw). unfold sound, keys_unique.
  rewrite Ha, Hb. simpl.
  split; [repeat split; auto; constructor|].
  split; intros ? [].
Qed.

Lemma sample_initial : initial Sample.db0.
Proof.
  split; [split; reflexivity|].
  split; simpl; (constructor; [intros []|constructor]).
Qed.

(** X1: starting from a database whose users have distinct ids and wallets,
    no sequence of auction requests ever stores two users with the same
    wallet or the same id, two auctions with the same id, or two bids with
    the same id: [get_or_create_user] looks the lowercased wallet up before
    it inserts. *)
Theorem keys_stay_unique (db0 : Database) (rs : list Request) :
  initial db0 -> keys_unique (run db0 rs).
Proof.
  intros H. apply initial_sound in H. apply (run_sound rs) in H.
  now destruct H.
Qed.

Lemma keys_stay_unique_witness :
  initial Sample.db0 /\ keys_unique (run Sample.db0 Sample.two_close_bids).
Proof.
  split; [exact sample_initial|].
  apply (@keys_stay_unique Sample.db0 Sample.two_close_bids).
  exact sample_initial.
Defined.





(** X4: the cached highest bidder of an auction is never its seller, neither
    after a bid nor after a buyout nor after the auction was closed. *)
Theorem highest_bidder_is_never_seller (db0 : Database) (rs : list Request)
    (a : Auction) :
  initial db0 ->
  In a (auctions (run db0 rs)) ->
  highest_bidder_id a <> Some (seller_id a).
Proof.
  intros H Hin. apply initial_sound in H. apply (run_sound rs) in H.
  destruct H as (_ & _ & Ha). destruct (Ha a Hin) as (_ & _ & _ & P4 & _).
  exact P4.
Qed.

Lemma highest_bidder_is_never_seller_witness :
  let db := run Sample.db0 Sample.two_close_bids in
  let a := mkAuction 1 1 1 one_unit one_unit None (Some Sample.amount_hi)
             (Some 3) None ACTIVE (add_hours 0 1) in
  initial Sample.db0 /\ In a (auctions db) /\
  highest_bidder_id a <> Some (seller_id a).
Proof.
  intros db a.
  assert (Hin : In a (auctions db)) by (vm_compute; auto).
  split; [exact sample_initial|]. split; [exact Hin|].
  exact (@highest_bidder_is_never_seller Sample.db0 Sample.two_close_bids a
           sample_initial Hin).
Defined.

(** X5: a Cancelled auction has no bid at all, no cached highest bid or
    bidder and no winner category, whatever was requested before or after
    the cancellation. *)
Theorem cancelled_auction_has_no_bids (db0 : Database) (rs : list Request)
    (a : Auction) :
  initial db0 ->
  In a (auctions (run db0 rs)) ->
  status a = CANCELLED ->
  bids_of (auction_id a) (bids (run db0 rs)) = [] /\
  current_highest_bid a = None /\ highest_bidder_id a = None /\
  winner_category a = None.
Proof.
  intros H Hin Hst. apply initial_sound in H. apply (run_sound rs) in H.
  destruct H as (_ & _ & Ha).
  destruct (Ha a Hin) as (_ & _ & _ & _ & _ & P6 & _). exact (P6 Hst).
Qed.

Lemma cancelled_auction_has_no_bids_witness :
  let rs := [Sample.open_auction; Cancel 1 Sample.alice;
             PlaceBid 1 (mkBidCreateBody Sample.bob one_unit None) 10 10] in
  let db := run Sample.db0 rs in
  let a := mkAuction 1 1 1 one_unit one_unit None None None None CANCELLED
             (add_hours 0 1) in
  initial Sample.db0 /\ In a (auctions db) /\ status a = CANCELLED /\
  bids_of (auction_id a) (bids db) = [] /\
  current_highest_bid a = None /\ highest_bidder_id a = None /\
  winner_category a = None.
Proof.
  intros rs db a.
  assert (Hin : In a (auctions db)) by (vm_compute; auto).
  split; [exact sample_initial|]. split; [exact Hin|].
  split; [reflexivity|].
  exact (@cancelled_auction_has_no_bids Sample.db0 rs a sample_initial Hin
           eq_refl).
Defined.

(** X6: how a Closed auction was settled can be read off its row.  With a
    winner category, the category, the cached bidder and the cached amount
    are those of one stored bid of the auction.  Without one, either the
    auction has no bid and no cache, or it was bought out: the cache holds
    its buyout price and a buyer. *)
Theorem closed_auction_provenance (db0 : Database) (rs : list Request)
    (a : Auction) :
  initial db0 ->
  In a (auctions (run db0 rs)) ->
  status a = CLOSED ->
  match winner_category a with
  | Some c => closed_on (run db0 rs) a c
  | None => closed_without_winner (run db0 rs) a
  end.
Proof.
  intros H Hin Hst. apply initial_sound in H. apply (run_sound rs) in H.
  destruct H as (_ & _ & Ha).
  destruct (Ha a Hin) as (_ & _ & _ & _ & _ & _ & P7). exact (P7 Hst).
Qed.

Lemma closed_auction_provenance_witness :
  let rs := (Sample.two_close_bids ++
             [PlaceBid 1 (mkBidCreateBody Sample.bob (2 * Sample.amount_hi)
                            (Some PREMIUM)) 30 30;
              Close 1 Sample.deadline])%list in
  let db := run Sample.db0 rs in
  let a := mkAuction 1 1 1 one_unit one_unit None
             (Some (2 * Sample.amount_hi)) (Some 2) (Some PREMIUM) CLOSED
             (add_hours 0 1) in
  initial Sample.db0 /\ In a (auctions db) /\ status a = CLOSED /\
  closed_on db a PREMIUM.
Proof.
  intros rs db a.
  assert (Hin : In a (auctions db)) by (vm_compute; auto).
  split; [exact sample_initial|]. split; [exact Hin|].
  split; [reflexivity|].
  exact (@closed_auction_provenance Sample.db0 rs a sample_initial Hin eq_refl).
Defined.

(** X7: only a Closed auction carries a winner category: while an auction is
    Active, and when it was cancelled, the field is empty. *)
Theorem winner_category_only_when_closed (db0 : Database) (rs : list Request)
    (a : Auction) (c : FlagCategory) :
  initial db0 ->
  In a (auctions (run db0 rs)) ->
  winner_category a = Some c ->
  status a = CLOSED.
Proof.
  intros H Hin Hc. apply initial_sound in H. apply (run_sound rs) in H.
  destruct H as (_ & _ & Ha).
  destruct (Ha a Hin) as (_ & _ & _ & _ & P5 & P6 & _).
  destruct (status a); [|reflexivity|].
  - destruct (P5 eq_refl) as [_ Hn]. congruence.
  - destruct (P6 eq_refl) as (_ & _ & _ & Hn). congruence.
Qed.

Lemma winner_category_only_when_closed_witness :
  let rs := (Sample.two_close_bids ++
             [PlaceBid 1 (mkBidCreateBody Sample.bob (2 * Sample.amount_hi)
                            (Some PREMIUM)) 30 30;
              Close 1 Sample.deadline])%list in
  let db := run Sample.db0 rs in
  let a := mkAuction 1 1 1 one_unit one_unit None
             (Some (2 * Sample.amount_hi)) (Some 2) (Some PREMIUM) CLOSED
             (add_hours 0 1) in
  initial Sample.db0 /\ In a (auctions db) /\
  winner_category a = Some PREMIUM /\ status a = CLOSED.
Proof.
  intros rs db a.
  assert (Hin : In a (auctions db)) by (vm_compute; auto).
  split; [exact sample_initial|]. split; [exact Hin|].
  split; [reflexivity|].
  exact (@winner_category_only_when_closed Sample.db0 rs a PREMIUM
           sample_initial Hin eq_refl).
Defined.

(* ================================================================== *)
(** * What no request does *)
(* ================================================================== *)

Lemma same_terms_refl (a : Auction) : same_terms a a.
Proof. repeat split. Qed.

Lemma same_terms_trans (a b c : Auction) :
  same_terms a b -> same_terms b c -> same_terms a c.
Proof.
  unfold same_terms. intros (A1 & A2 & A3 & A4 & A5 & A6 & A7)
    (B1 & B2 & B3 & B4 & B5 & B6 & B7).
  repeat split; congruence.
Qed.

Lemma update_auction_terms (id : Z) (f : Auction -> Auction) (l : list Auction)
    (k : Z) (row : Auction) :
  (forall x, same_terms x (f x)) ->
  auction_by_id k l = Some row ->
  exists row', auction_by_id k (update_auction id f l) = Some row' /\
               same_terms row row'.
Proof.
  intros Hf Hrow.
  assert (Hid : forall x, auction_id (f x) = auction_id x)
    by (intros x; now destruct (Hf x)).
  destruct (Z.eq_dec k id) as [->|Hne].
  - rewrite auction_by_id_update_same, Hrow by exact Hid. simpl. eauto.
  - rewrite auction_by_id_update_other by auto. rewrite Hrow.
    eauto using same_terms_refl.
Qed.

Lemma transition_terms (r : Request) (db db' : Database) (k : Z) (row : Auction) :
  Transition r db db' ->
  auction_by_id k (auctions db) = Some row ->
  exists row', auction_by_id k (auctions db') = Some row' /\ same_terms row row'.
Proof.
  intros Htr Hrow. transition_cases Htr; subst db'; simpl.
  - exists row. split; [|apply same_terms_refl].
    destruct wallet; [now rewrite register_auctions|exact Hrow].
  - exists row. split; [|apply same_terms_refl].
    now apply find_app_some.
  - apply update_auction_terms; [|exact Hrow]. intros x. repeat split.
  - apply update_auction_terms; [|exact Hrow]. intros x. repeat split.
  - apply update_auction_terms; [|exact Hrow]. intros x. repeat split.
  - apply update_auction_terms; [|exact Hrow]. intros x. repeat split.
  - apply update_auction_terms; [|exact Hrow]. intros x. repeat split.
Qed.

(** X8: no request deletes an auction or rewrites its terms: a row that can
    be looked up by its id can be looked up after any sequence of requests,
    with the same flag, seller, starting price, minimum price, buyout price
    and deadline. *)
Theorem auction_terms_never_change (rs : list Request) (db : Database) (k : Z)
    (row : Auction) :
  auction_by_id k (auctions db) = Some row ->
  exists row', auction_by_id k (auctions (run db rs)) = Some row' /\
               same_terms row row'.
Proof.
  revert db row. induction rs as [|r rs IH]; intros db row Hrow.
  - exists row. split; [exact Hrow|apply same_terms_refl].
  - rewrite run_cons.
    destruct (transition_terms k (step_transition db r) Hrow) as (row1 & H1 & T1).
    destruct (IH _ _ H1) as (row2 & H2 & T2).
    exists row2. split; [exact H2|exact (same_terms_trans T1 T2)].
Qed.

Lemma auction_terms_never_change_witness :
  let db := run Sample.db0 [Sample.open_auction] in
  let row := mkAuction 1 1 1 one_unit one_unit None None None None ACTIVE
               (add_hours 0 1) in
  auction_by_id 1 (auctions db) = Some row /\
  exists row',
    auction_by_id 1 (auctions (run db (tl Sample.two_close_bids))) = Some row' /\
    same_terms row row'.
Proof.
  intros db row.
  assert (Hrow : auction_by_id 1 (auctions db) = Some row) by reflexivity.
  split; [exact Hrow|].
  exact (@auction_terms_never_change (tl Sample.two_close_bids) db 1 row Hrow).
Defined.

Lemma register_users (wallet : string) (db : Database) :
  exists l, users (register wallet db) = (users db ++ l)%list.
Proof.
  unfold register. destruct (user_by_wallet _ _).
  - exists []. now rewrite app_nil_r.
  - simpl. eauto.
Qed.

Lemma extends_refl (db : Database) : extends db db.
Proof. repeat split; exists []; now rewrite app_nil_r. Qed.

Lemma extends_trans (db1 db2 db3 : Database) :
  extends db1 db2 -> extends db2 db3 -> extends db1 db3.
Proof.
  intros ((u1 & U1) & (w1 & W1) & (a1 & A1) & (b1 & B1))
         ((u2 & U2) & (w2 & W2) & (a2 & A2) & (b2 & B2)).
  repeat split.
  - exists (u1 ++ u2)%list. now rewrite U2, U1, app_assoc.
  - exists (w1 ++ w2)%list. now rewrite W2, W1, app_assoc.
  - exists (a1 ++ a2)%list. now rewrite A2, A1, app_assoc.
  - exists (b1 ++ b2)%list. now rewrite B2, B1, app_assoc.
Qed.

Lemma extends_register (wallet : string) (db : Database) :
  extends db (register wallet db).
Proof.
  destruct (register_users wallet db) as (l & E).
  unfold extends. rewrite E, register_auctions, register_bids, !map_app.
  repeat split; eauto; exists []; now rewrite app_nil_r.
Qed.

Lemma transition_extends (r : Request) (db db' : Database) :
  Transition r db db' -> extends db db'.
Proof.
  intros Htr. transition_cases Htr; subst db'.
  - destruct wallet; [apply extends_register|apply extends_refl].
  - apply extends_trans with (register wallet db); [apply extends_register|].
    unfold extends. simpl. rewrite register_auctions, map_app.
    repeat split; eauto; exists []; now rewrite app_nil_r.
  - apply extends_trans with (register wallet db); [apply extends_register|].
    unfold extends. simpl.
    rewrite update_auction_ids, register_auctions, register_bids by reflexivity.
    repeat split; eauto; exists []; now rewrite app_nil_r.
  - apply extends_trans with (register wallet db); [apply extends_register|].
    unfold extends. simpl.
    destruct (update_user_ids (user_id (resolve_user wallet db)) 20
                (users (register wallet db))) as [-> ->].
    rewrite update_auction_ids, register_auctions by reflexivity.
    repeat split; exists []; now rewrite app_nil_r.
  - unfold extends. simpl. rewrite update_auction_ids by reflexivity.
    destruct (user_by_id (bidder_id w) (users db)) as [u|].
    + destruct (update_user_ids (user_id u) 15 (users db)) as [-> ->].
      repeat split; exists []; now rewrite app_nil_r.
    + repeat split; exists []; now rewrite app_nil_r.
  - unfold extends. simpl. rewrite update_auction_ids by reflexivity.
    repeat split; exists []; now rewrite app_nil_r.
  - unfold extends. simpl. rewrite update_auction_ids by reflexivity.
    repeat split; exists []; now rewrite app_nil_r.
Qed.

(** X9: the tables only grow.  After any sequence of requests the users
    table starts with the ids and wallets it had, the auctions table with
    the ids it had, and the bids table with the very rows it had: nothing is
    deleted, no wallet or key is rewritten, and no stored bid is modified. *)
Theorem tables_only_grow (rs : list Request) (db : Database) :
  extends db (run db rs).
Proof.
  revert db. induction rs as [|r rs IH]; intros db; [apply extends_refl|].
  rewrite run_cons.
  exact (extends_trans (transition_extends (step_transition db r)) (IH _)).
Qed.

Lemma transition_untouched (r : Request) (db db' : Database) :
  Transition r db db' ->
  flags db' = flags db /\ ownerships db' = ownerships db.
Proof.
  intros Htr. transition_cases Htr; subst db'; simpl;
    rewrite ?register_flags, ?register_ownerships; auto.
  destruct wallet; rewrite ?register_flags, ?register_ownerships; auto.
Qed.

(** X10: no auction request writes the flags table or the ownerships table.
    In particular a buyout or the closing of an auction with a winner does
    not transfer the flag: the ownership rows are the same before and
    after. *)
Theorem settlement_never_moves_ownership (rs : list Request) (db : Database) :
  flags (run db rs) = flags db /\ ownerships (run db rs) = ownerships db.
Proof.
  revert db. induction rs as [|r rs IH]; intros db; [auto|].
  rewrite run_cons. destruct (IH (step db r)) as [-> ->].
  exact (transition_untouched (step_transition db r)).
Qed.

Lemma reputation_users (db db' : Database) (uid : Z) :
  users db' = users db -> reputation db' uid = reputation db uid.
Proof. unfold reputation. now intros ->. Qed.

Lemma reputation_register (wallet : string) (db : Database) (uid : Z) :
  reputation (register wallet db) uid = reputation db uid.
Proof.
  unfold register, resolve_user.
  destruct (user_by_wallet (lower wallet) (users db)); [reflexivity|].
  unfold reputation, user_by_id. simpl.
  destruct (find (fun u => user_id u =? uid) (users db)) as [u|] eqn:E.
  - now rewrite (find_app_some _ _ _ E).
  - rewrite (find_app_none _ _ _ E). simpl.
    now destruct (_ =? uid).
Qed.

Lemma reputation_set_users (db : Database) (us : list User) (uid : Z) :
  reputation (set_users us db) uid =
  match user_by_id uid us with
  | Some u => reputation_score u
  | None => 0
  end.
Proof. reflexivity. Qed.

Lemma reputation_add (us : list User) (id delta uid : Z) :
  match user_by_id uid (update_user id (add_reputation delta) us) with
  | Some u => reputation_score u
  | None => 0
  end =
  match user_by_id uid us with
  | Some u => reputation_score u + (if uid =? id then delta else 0)
  | None => 0
  end.
Proof.
  destruct (Z.eqb_spec uid id) as [->|Hne].
  - rewrite user_by_id_update_same by reflexivity.
    destruct (user_by_id id us); reflexivity.
  - rewrite user_by_id_update_other by auto.
    destruct (user_by_id uid us); [simpl; lia|reflexivity].
Qed.

Lemma transition_reputation (r : Request) (db db' : Database) (uid : Z) :
  Transition r db db' ->
  reputation db' uid = reputation db uid \/
  ((exists id wallet now, r = Buyout id wallet now) /\
   reputation db' uid = reputation db uid + 20) \/
  ((exists id now, r = Close id now) /\
   reputation db' uid = reputation db uid + 15).
Proof.
  intros Htr. transition_cases Htr; subst db'.
  - left. destruct wallet; [apply reputation_register|reflexivity].
  - left. rewrite <- (reputation_register wallet db uid).
    now apply reputation_users.
  - left. rewrite <- (reputation_register wallet db uid).
    now apply reputation_users.
  - rewrite <- (reputation_register wallet db uid).
    rewrite reputation_set_users, reputation_add.
    unfold reputation.
    destruct (user_by_id uid (users (register wallet db))); [|now left].
    destruct (uid =? _); [right; left; split; [|reflexivity]|left; lia].
    destruct Hreq as (raw & now & ->). eauto.
  - destruct (user_by_id (bidder_id w) (users db)) as [u|]; [|now left].
    rewrite reputation_set_users, reputation_add.
    unfold reputation.
    destruct (user_by_id uid (users db)); [|now left].
    destruct (uid =? _); [right; right; split; [|reflexivity]|left; lia].
    destruct Hreq as (now & -> & _). eauto.
  - now left.
  - now left.
Qed.

(** X11: one request changes the reputation score of a user in one of three
    ways: not at all, by +20 when the request is a buyout, or by +15 when
    the request closes an auction.  Creating an auction, bidding and
    cancelling never touch a score, and no request lowers one. *)
Theorem step_changes_reputation (db : Database) (r : Request) (uid : Z) :
  reputation (step db r) uid = reputation db uid \/
  ((exists id wallet now, r = Buyout id wallet now) /\
   reputation (step db r) uid = reputation db uid + 20) \/
  ((exists id now, r = Close id now) /\
   reputation (step db r) uid = reputation db uid + 15).
Proof. intros. apply transition_reputation, step_transition. Qed.

(** Hence over any sequence of requests the reputation score of a user
    never goes down. *)
Theorem reputation_never_decreases (rs : list Request) (db : Database) (uid : Z) :
  reputation db uid <= reputation (run db rs) uid.
Proof.
  revert db. induction rs as [|r rs IH]; intros db; [simpl; lia|].
  rewrite run_cons. specialize (IH (step db r)).
  destruct (transition_reputation uid (step_transition db r))
    as [E|[[_ E]|[_ E]]]; lia.
Qed.

(* ================================================================== *)
(** * When a request is served *)
(* ================================================================== *)




Lemma cancel_auction_progress (id : Z) (wallet : string) (db : Database)
    (auction : Auction) :
  auction_by_id id (auctions db) = Some auction ->
  requester_is_seller wallet auction db = true ->
  status auction = ACTIVE ->
  current_highest_bid auction = None ->
  cancel_auction id wallet db =
  (Returned tt,
   set_auctions (update_auction id (with_status CANCELLED) (auctions db)) db).
Proof.
  intros Hfound Hsel Hact Hcur. unfold requester_is_seller in Hsel.
  unfold cancel_auction. unfold bind at 1. unfold query at 1.
  rewrite Hfound. unfold bind at 1. unfold query at 1.
  destruct (user_by_wallet (lower wallet) (users db)) as [u|]; [|discriminate].
  rewrite Hsel, Hact, Hcur. reflexivity.
Qed.

Lemma buyout_auction_progress (id : Z) (buyout_data : BuyoutCreate) (now : Z)
    (db : Database) (auction : Auction) (price : Decimal) :
  auction_by_id id (auctions db) = Some auction ->
  status auction = ACTIVE ->
  buyout_price auction = Some price ->
  now <= ends_at auction ->
  user_id (resolve_user (bo_wallet_address buyout_data) db) <> seller_id auction ->
  let buyer := user_id (resolve_user (bo_wallet_address buyout_data) db) in
  let db1 := register (bo_wallet_address buyout_data) db in
  buyout_auction id buyout_data now db =
  (Returned (buyout_writes price buyer auction),
   set_users (update_user buyer (add_reputation 20) (users db1))
     (set_auctions (update_auction id (buyout_writes price buyer) (auctions db))
        db1)).
Proof.
  intros Hfound Hact Hbp Hnow Hns buyer db1.
  unfold buyout_auction. unfold bind at 1. unfold query at 1.
  rewrite Hfound, Hact, Hbp. cbn [negb AuctionStatus_eqb].
  destruct (Z.ltb_spec (ends_at auction) now); [lia|].
  unfold bind at 1. rewrite get_or_create_user_eq.
  destruct (Z.eqb_spec (user_id (resolve_user (bo_wallet_address buyout_data) db))
              (seller_id auction)); [contradiction|].
  run_handler. subst buyer db1. rewrite register_auctions. reflexivity.
Qed.

Lemma create_auction_progress (auction_data : AuctionCreate) (now : Z)
    (db : Database) :
  find (Z.eqb (ac_flag_id auction_data)) (flags db) <> None ->
  ownership_of (ac_flag_id auction_data)
    (user_id (resolve_user (ac_wallet_address auction_data) db))
    (ownerships db) <> None ->
  active_auction_for (ac_flag_id auction_data) (auctions db) = None ->
  let a := mkAuction (next_id (map auction_id (auctions db)))
             (ac_flag_id auction_data)
             (user_id (resolve_user (ac_wallet_address auction_data) db))
             (ac_starting_price auction_data) (ac_min_price auction_data)
             (ac_buyout_price auction_data) None None None ACTIVE
             (add_hours now (ac_duration_hours auction_data)) in
  create_auction auction_data now db =
  (Returned a,
   set_auctions (auctions db ++ [a])
     (register (ac_wallet_address auction_data) db)).
Proof.
  intros Hflag Hown Hnone a.
  unfold create_auction. unfold bind at 1. unfold query at 1.
  destruct (find _ (flags db)); [|contradiction].
  unfold bind at 1. rewrite get_or_create_user_eq.
  unfold bind at 1. unfold query at 1. rewrite register_ownerships.
  destruct (ownership_of _ _ _); [|contradiction].
  unfold bind at 1. unfold query at 1. rewrite register_auctions, Hnone.
  run_handler. rewrite register_auctions. reflexivity.
Qed.

Lemma create_auction_checked (auction_data : AuctionCreate) (now : Z)
    (db db' : Database) (a : Auction) :
  create_auction auction_data now db = (Returned a, db') ->
  find (Z.eqb (ac_flag_id auction_data)) (flags db) <> None /\
  ownership_of (ac_flag_id auction_data)
    (user_id (resolve_user (ac_wallet_address auction_data) db))
    (ownerships db) <> None /\
  active_auction_for (ac_flag_id auction_data) (auctions db) = None.
Proof.
  unfold create_auction. unfold bind at 1. unfold query at 1.
  destruct (find _ (flags db)); [|discriminate].
  unfold bind at 1. rewrite get_or_create_user_eq.
  unfold bind at 1. unfold query at 1. rewrite register_ownerships.
  destruct (ownership_of _ _ _); [|discriminate].
  unfold bind at 1. unfold query at 1. rewrite register_auctions.
  destruct (active_auction_for _ _); [discriminate|].
  intros _. repeat split; discriminate.
Qed.




(** X14: what a refused request leaves behind.  A handler that raises
    before it looks the wallet up (auction or flag not found, auction not
    Active, deadline passed, no buyout option) leaves the database as it
    was; one that raises afterwards (own auction, amount too low, flag not
    owned, auction already active) has already committed the user row of a
    wallet it did not know, and nothing else. *)
Theorem refused_request_commits_only_the_user :
  (forall auction_data now db db' e,
     create_auction auction_data now db = (Raised e, db') ->
     db' = committed_on_failure (ac_wallet_address auction_data) e db) /\
  (forall id bid_data now created db db' e,
     place_bid id bid_data now created db = (Raised e, db') ->
     db' = committed_on_failure (bc_wallet_address bid_data) e db) /\
  (forall id buyout_data now db db' e,
     buyout_auction id buyout_data now db = (Raised e, db') ->
     db' = committed_on_failure (bo_wallet_address buyout_data) e db).
Proof.
  split; [|split].
  - intros auction_data now db db' e.
    unfold create_auction. unfold bind at 1. unfold query at 1.
    destruct (find _ (flags db)); [|intros [= <- <-]; reflexivity].
    unfold bind at 1. rewrite get_or_create_user_eq.
    unfold bind at 1. unfold query at 1.
    destruct (ownership_of _ _ _); [|intros [= <- <-]; reflexivity].
    unfold bind at 1. unfold query at 1.
    destruct (active_auction_for _ _); [intros [= <- <-]; reflexivity|].
    run_handler. discriminate.
  - intros id bid_data now created db db' e.
    unfold place_bid. unfold bind at 1. unfold query at 1.
    destruct (auction_by_id id (auctions db)) as [auction|];
      [|intros [= <- <-]; reflexivity].
    destruct (negb _); [intros [= <- <-]; reflexivity|].
    destruct (_ <? now); [intros [= <- <-]; reflexivity|].
    unfold bind at 1. rewrite get_or_create_user_eq.
    repeat match goal with
           | |- context [if ?c then _ else _] => destruct c
           end;
      run_handler; first [discriminate|intros [= <- <-]; reflexivity].
  - intros id buyout_data now db db' e.
    unfold buyout_auction. unfold bind at 1. unfold query at 1.
    destruct (auction_by_id id (auctions db)) as [auction|];
      [|intros [= <- <-]; reflexivity].
    destruct (negb _); [intros [= <- <-]; reflexivity|].
    destruct (buyout_price auction); [|intros [= <- <-]; reflexivity].
    destruct (_ <? now); [intros [= <- <-]; reflexivity|].
    unfold bind at 1. rewrite get_or_create_user_eq.
    destruct (_ =? _); run_handler; [intros [= <- <-]; reflexivity|discriminate].
Qed.

(** X15: in a database the requests can reach, the seller of an Active
    auction can cancel it exactly when no bid is stored for it; with a bid
    stored the answer is 400 "Cannot cancel auction with existing bids" and
    nothing is written.  (The handler reads the cached highest bid, which
    for an Active auction is empty exactly when the auction has no bid.) *)
Theorem seller_cancels_iff_no_bids (db0 : Database) (rs : list Request)
    (id : Z) (wallet : string) (auction : Auction) :
  initial db0 ->
  auction_by_id id (auctions (run db0 rs)) = Some auction ->
  status auction = ACTIVE ->
  requester_is_seller wallet auction (run db0 rs) = true ->
  (fst (post_cancel id wallet (run db0 rs)) = Success tt <->
   bids_of id (bids (run db0 rs)) = []) /\
  (bids_of id (bids (run db0 rs)) <> [] ->
   post_cancel id wallet (run db0 rs) =
   (Failure (mkHTTPException HTTP_400_BAD_REQUEST CannotCancelWithBids),
    run db0 rs)).
Proof.
  intros Hinit Hfound Hact Hsel.
  apply initial_sound in Hinit. apply (run_sound rs) in Hinit.
  destruct Hinit as (_ & _ & Ha).
  destruct (auction_by_id_some _ _ Hfound) as [Hin Hid].
  destruct (Ha _ Hin) as (_ & _ & _ & _ & P5 & _).
  destruct (P5 Hact) as [[Hc _] _]. rewrite Hid in Hc.
  set (db := run db0 rs) in *.
  assert (Hiff : current_highest_bid auction = None <-> bids_of id (bids db) = []).
  { split.
    - intros Hnone. apply last_bid_none.
      destruct (last_bid (bids_of id (bids db))); [|reflexivity].
      rewrite Hnone in Hc. discriminate.
    - intros Hnil. now rewrite Hnil in Hc. }
  unfold post_cancel, respond. split; [split|].
  - intros H.
    destruct (cancel_auction id wallet db) as [[[]|e] db'] eqn:Hcancel;
      [|discriminate].
    apply cancel_auction_returned in Hcancel.
    destruct Hcancel as (x & u & Hx & _ & _ & _ & Hnone & _).
    apply Hiff. congruence.
  - intros Hnil. apply Hiff in Hnil.
    now rewrite (@cancel_auction_progress id wallet db auction
                   Hfound Hsel Hact Hnil).
  - intros Hbids.
    unfold cancel_auction. unfold bind at 1. unfold query at 1.
    rewrite Hfound. unfold bind at 1. unfold query at 1.
    unfold requester_is_seller in Hsel.
    destruct (user_by_wallet (lower wallet) (users db)) as [u|]; [|discriminate].
    rewrite Hsel, Hact. cbn [negb AuctionStatus_eqb].
    destruct (current_highest_bid auction) as [h|]; [reflexivity|].
    exfalso. apply Hbids. now apply Hiff.
Qed.

Lemma seller_cancels_iff_no_bids_witness :
  let db := run Sample.db0 Sample.two_close_bids in
  let auction := mkAuction 1 1 1 one_unit one_unit None (Some Sample.amount_hi)
                   (Some 3) None ACTIVE (add_hours 0 1) in
  initial Sample.db0 /\
  auction_by_id 1 (auctions db) = Some auction /\
  status auction = ACTIVE /\
  requester_is_seller Sample.alice auction db = true /\
  (fst (post_cancel 1 Sample.alice db) = Success tt <->
   bids_of 1 (bids db) = []) /\
  (bids_of 1 (bids db) <> [] ->
   post_cancel 1 Sample.alice db =
   (Failure (mkHTTPException HTTP_400_BAD_REQUEST CannotCancelWithBids), db)).
Proof.
  intros db auction.
  split; [exact sample_initial|].
  split; [reflexivity|]. split; [reflexivity|]. split; [reflexivity|].
  exact (@seller_cancels_iff_no_bids Sample.db0 Sample.two_close_bids 1
           Sample.alice auction sample_initial eq_refl eq_refl eq_refl).
Defined.

(** X16: a buyout is served whatever the bids are.  On an Active auction
    with a buyout price, before or at the deadline, a valid wallet other
    than the seller's buys at the buyout price: the row becomes Closed with
    the buyout price and the buyer in the cache, its winner category stays
    as it was, and the bids table is not touched - also when the cached
    highest bid was above the buyout price. *)
Theorem buyout_served_whatever_the_bids (id : Z) (wallet : string) (now : Z)
    (db : Database) (auction : Auction) (price : Decimal)
    (buyout_data : BuyoutCreate) :
  BuyoutCreate_validate wallet = inr buyout_data ->
  auction_by_id id (auctions db) = Some auction ->
  status auction = ACTIVE ->
  buyout_price auction = Some price ->
  now <= ends_at auction ->
  user_id (resolve_user (bo_wallet_address buyout_data) db) <> seller_id auction ->
  exists a' db',
    post_buyout id wallet now db = (Success a', db') /\
    auction_by_id id (auctions db') = Some a' /\
    status a' = CLOSED /\
    current_highest_bid a' = Some price /\
    highest_bidder_id a' =
      Some (user_id (resolve_user (bo_wallet_address buyout_data) db)) /\
    winner_category a' = winner_category auction /\
    bids db' = bids db.
Proof.
  intros Hv Hfound Hact Hbp Hnow Hns. unfold post_buyout, respond.
  rewrite Hv.
  rewrite (@buyout_auction_progress id buyout_data now db auction price
             Hfound Hact Hbp Hnow Hns).
  eexists. eexists. split; [reflexivity|]. simpl.
  rewrite auction_by_id_update_same, Hfound, register_bids by reflexivity.
  repeat split.
Qed.

Lemma buyout_served_whatever_the_bids_witness :
  let db := run Sample.db0
              [Sample.open_auction_with_buyout;
               PlaceBid 1 (mkBidCreateBody Sample.bob (7 * one_unit) None) 10 10] in
  let auction := mkAuction 1 1 1 one_unit one_unit (Some (5 * one_unit))
                   (Some (7 * one_unit)) (Some 2) None ACTIVE (add_hours 0 1) in
  let buyout_data := mkBuyoutCreate Sample.carol in
  BuyoutCreate_validate Sample.carol = inr buyout_data /\
  auction_by_id 1 (auctions db) = Some auction /\
  status auction = ACTIVE /\
  buyout_price auction = Some (5 * one_unit) /\
  20 <= ends_at auction /\
  user_id (resolve_user (bo_wallet_address buyout_data) db) <> seller_id auction /\
  exists a' db',
    post_buyout 1 Sample.carol 20 db = (Success a', db') /\
    auction_by_id 1 (auctions db') = Some a' /\
    status a' = CLOSED /\
    current_highest_bid a' = Some (5 * one_unit) /\
    highest_bidder_id a' =
      Some (user_id (resolve_user (bo_wallet_address buyout_data) db)) /\
    winner_category a' = winner_category auction /\
    bids db' = bids db.
Proof.
  intros db auction buyout_data.
  assert (H1 : BuyoutCreate_validate Sample.carol = inr buyout_data)
    by reflexivity.
  assert (H2 : auction_by_id 1 (auctions db) = Some auction) by reflexivity.
  assert (H5 : 20 <= ends_at auction) by (vm_compute; discriminate).
  assert (H6 : user_id (resolve_user (bo_wallet_address buyout_data) db)
               <> seller_id auction) by (vm_compute; discriminate).
  repeat (split; [first [assumption|reflexivity]|]).
  exact (@buyout_served_whatever_the_bids 1 Sample.carol 20 db auction
           (5 * one_unit) buyout_data H1 H2 eq_refl eq_refl H5 H6).
Defined.


Lemma user_by_wallet_update (wallet : string) (id delta : Z) (l : list User)
    (u : User) :
  user_by_wallet wallet l = Some u ->
  exists u', user_by_wallet wallet (update_user id (add_reputation delta) l)
             = Some u' /\ user_id u' = user_id u.
Proof.
  unfold user_by_wallet, update_user.
  induction l as [|x l IH]; simpl; [discriminate|].
  destruct (user_id x =? id); simpl;
    (destruct (String.eqb (wallet_address x) wallet);
     [intros [= <-]; eauto|exact IH]).
Qed.

Lemma register_finds (wallet : string) (db : Database) :
  user_by_wallet (lower wallet) (users (register wallet db))
  = Some (resolve_user wallet db).
Proof.
  unfold register, resolve_user, user_by_wallet.
  destruct (find _ (users db)) as [u|] eqn:E; [exact E|].
  simpl. rewrite (find_app_none _ _ _ E). simpl.
  now rewrite String.eqb_refl.
Qed.

Lemma register_keeps_wallet (wallet w : string) (db : Database) (u : User) :
  user_by_wallet wallet (users db) = Some u ->
  user_by_wallet wallet (users (register w db)) = Some u.
Proof.
  intros H. destruct (register_users w db) as (l & ->).
  now apply find_app_some.
Qed.

Lemma transition_wallet (r : Request) (db db' : Database) (k : string)
    (u : User) :
  Transition r db db' ->
  user_by_wallet k (users db) = Some u ->
  exists u', user_by_wallet k (users db') = Some u' /\ user_id u' = user_id u.
Proof.
  intros Htr Hu. transition_cases Htr; subst db'; simpl.
  - destruct wallet; [|eauto]. eauto using register_keeps_wallet.
  - eauto using register_keeps_wallet.
  - eauto using register_keeps_wallet.
  - apply user_by_wallet_update. now apply register_keeps_wallet.
  - destruct (user_by_id _ _); [|eauto]. now apply user_by_wallet_update.
  - eauto.
  - eauto.
Qed.

Lemma run_wallet (rs : list Request) (db : Database) (k : string) (u : User) :
  user_by_wallet k (users db) = Some u ->
  exists u', user_by_wallet k (users (run db rs)) = Some u' /\
             user_id u' = user_id u.
Proof.
  revert db u. induction rs as [|r rs IH]; intros db u Hu; [eauto|].
  rewrite run_cons.
  destruct (@transition_wallet r db (step db r) k u (step_transition db r) Hu)
    as (u1 & H1 & E1).
  destruct (IH _ _ H1) as (u2 & H2 & E2). exists u2. split; congruence.
Qed.

Lemma run_untouched (rs : list Request) (db : Database) :
  flags (run db rs) = flags db /\ ownerships (run db rs) = ownerships db.
Proof.
  revert db. induction rs as [|r rs IH]; intros db; [auto|].
  rewrite run_cons. destruct (IH (step db r)) as [-> ->].
  exact (transition_untouched (step_transition db r)).
Qed.

(** X18: selling a flag does not end the seller's right to auction it.
    Whoever once opened an auction on a flag can open another one with the
    same body after any sequence of requests, as soon as the flag has no
    Active auction - also after the first auction was closed with a winner
    or bought out, because no request moves the ownership row. *)
Theorem seller_can_auction_again (body : AuctionCreateBody) (now now' : Z)
    (db db1 : Database) (a : Auction) (rs : list Request) :
  post_auction body now db = (Success a, db1) ->
  active_auction_for (flag_id a) (auctions (run db1 rs)) = None ->
  exists a',
    fst (post_auction body now' (run db1 rs)) = Success a' /\
    flag_id a' = flag_id a /\ seller_id a' = seller_id a.
Proof.
  unfold post_auction, respond.
  destruct (AuctionCreate_validate body) as [errors|auction_data];
    [discriminate|].
  destruct (create_auction auction_data now db) as [[x|e] dbx] eqn:Hc;
    [|discriminate].
  intros [= -> ->].
  destruct (create_auction_checked _ _ _ Hc) as (Hflag & Hown & Hnone).
  rewrite (@create_auction_progress auction_data now db Hflag Hown Hnone) in Hc.
  injection Hc as <- <-. simpl. intros Hfree.
  set (w := ac_wallet_address auction_data) in *.
  set (db1 := set_auctions _ (register w db)) in *.
  assert (Hu1 : user_by_wallet (lower w) (users db1)
                = Some (resolve_user w db)) by apply register_finds.
  destruct (@run_wallet rs db1 (lower w) _ Hu1) as (u2 & Hu2 & Hid2).
  assert (Hres : user_id (resolve_user w (run db1 rs))
                 = user_id (resolve_user w db)).
  { unfold resolve_user at 1. now rewrite Hu2. }
  destruct (run_untouched rs db1) as [Hf Ho].
  assert (Hflag2 : find (Z.eqb (ac_flag_id auction_data)) (flags (run db1 rs))
                   <> None).
  { rewrite Hf. unfold db1. simpl. now rewrite register_flags. }
  assert (Hown2 : ownership_of (ac_flag_id auction_data)
                    (user_id (resolve_user (ac_wallet_address auction_data)
                                (run db1 rs)))
                    (ownerships (run db1 rs)) <> None).
  { fold w. rewrite Hres, Ho. unfold db1. simpl.
    now rewrite register_ownerships. }
  rewrite (@create_auction_progress auction_data now' (run db1 rs)
             Hflag2 Hown2 Hfree).
  simpl. fold w. rewrite Hres. eauto.
Qed.

Lemma seller_can_auction_again_witness :
  let rs := [PlaceBid 1 (mkBidCreateBody Sample.bob (7 * one_unit) None) 10 10;
             Close 1 Sample.deadline] in
  let body := mkAuctionCreateBody 1 Sample.alice one_unit None None 1 in
  let a := mkAuction 1 1 1 one_unit one_unit None None None None ACTIVE
             (add_hours 0 1) in
  let db1 := run Sample.db0 [Sample.open_auction] in
  post_auction body 0 Sample.db0 = (Success a, db1) /\
  active_auction_for (flag_id a) (auctions (run db1 rs)) = None /\
  exists a',
    fst (post_auction body (2 * Sample.deadline) (run db1 rs)) = Success a' /\
    flag_id a' = flag_id a /\ seller_id a' = seller_id a.
Proof.
  intros rs body a db1.
  assert (H1 : post_auction body 0 Sample.db0 = (Success a, db1))
    by (vm_compute; reflexivity).
  assert (H2 : active_auction_for (flag_id a) (auctions (run db1 rs)) = None)
    by (vm_compute; reflexivity).
  split; [exact H1|]. split; [exact H2|].
  exact (@seller_can_auction_again body 0 (2 * Sample.deadline) Sample.db0 db1
           a rs H1 H2).
Defined.

(* ================================================================== *)
(** * The listings *)
(* ================================================================== *)

Section SortedOrder.
Variable A : Type.
Variable key : A -> Z.
Variable lt : Z -> Z -> bool.
Hypothesis lt_asym : forall a b, lt a b = true -> lt b a = false.
Hypothesis ge_trans :
  forall a b c, lt b a = false -> lt c b = false -> lt c a = false.

Lemma insert_sorted_Permutation (x : A) (l : list A) :
  Permutation (insert_sorted key lt x l) (x :: l).
Proof.
  induction l as [|y l IH]; simpl; [apply Permutation_refl|].
  destruct (lt (key y) (key x)); [|apply Permutation_refl].
  eapply Permutation_trans; [apply perm_skip, IH|apply perm_swap].
Qed.

Lemma sorted_Permutation (l : list A) : Permutation (sorted key lt l) l.
Proof.
  induction l as [|x l IH]; simpl; [constructor|].
  eapply Permutation_trans; [apply insert_sorted_Permutation|].
  now apply perm_skip.
Qed.

Lemma insert_sorted_in_order (x : A) (l : list A) :
  StronglySorted (fun x y => lt (key y) (key x) = false) l ->
  StronglySorted (fun x y => lt (key y) (key x) = false)
    (insert_sorted key lt x l).
Proof.
  induction 1 as [|y l Hs IH Hf]; simpl.
  - constructor; constructor.
  - destruct (lt (key y) (key x)) eqn:E.
    + constructor; [exact IH|].
      eapply Permutation_Forall;
        [apply Permutation_sym, insert_sorted_Permutation|].
      constructor; [exact (@lt_asym _ _ E)|exact Hf].
    + constructor; [constructor; assumption|].
      constructor; [exact E|].
      eapply Forall_impl; [|exact Hf]. intros z Hz.
      exact (@ge_trans _ _ _ E Hz).
Qed.

Lemma sorted_in_order (l : list A) :
  StronglySorted (fun x y => lt (key y) (key x) = false) (sorted key lt l).
Proof.
  induction l as [|x l IH]; simpl; [constructor|].
  now apply insert_sorted_in_order.
Qed.

(** Sorting a list that is strictly descending puts it upside down. *)
Lemma insert_sorted_last (x : A) (l : list A) :
  Forall (fun y => lt (key y) (key x) = true) l ->
  insert_sorted key lt x l = (l ++ [x])%list.
Proof.
  induction 1 as [|y l Hy Hf IH]; simpl; [reflexivity|].
  now rewrite Hy, IH.
Qed.

Lemma sorted_rev (l : list A) :
  StronglySorted (fun x y => lt (key y) (key x) = true) l ->
  sorted key lt l = rev l.
Proof.
  induction 1 as [|x l Hs IH Hf]; simpl; [reflexivity|].
  rewrite IH. apply insert_sorted_last.
  apply Forall_rev. exact Hf.
Qed.

(** Sorting a list whose keys do not differ leaves it as it is. *)
Lemma sorted_ties (l : list A) :
  (forall x y, In x l -> In y l -> lt (key y) (key x) = false) ->
  sorted key lt l = l.
Proof.
  induction l as [|x l IH]; simpl; intros H; [reflexivity|].
  rewrite IH by (intros; apply H; now right).
  destruct l as [|y l]; simpl; [reflexivity|].
  rewrite (H x y); [reflexivity|now left|right; now left].
Qed.
End SortedOrder.

Lemma filter_filter_andb (A : Type) (p q : A -> bool) (l : list A) :
  filter q (filter p l) = filter (fun a => p a && q a) l.
Proof.
  induction l as [|x l IH]; simpl; [reflexivity|].
  destruct (p x); simpl; [|exact IH].
  destruct (q x); now rewrite IH.
Qed.

Lemma filter_true (A : Type) (l : list A) : filter (fun _ => true) l = l.
Proof. induction l as [|x l IH]; simpl; [reflexivity|now rewrite IH]. Qed.

Lemma filter_andb_true_r (A : Type) (p : A -> bool) (l : list A) :
  filter (fun a => p a && true) l = filter p l.
Proof. apply filter_ext. intros a. apply andb_true_r. Qed.

Lemma get_auctions_eq (active_only : bool) (flag : option Z) (db : Database) :
  get_auctions active_only flag db =
  map (build_auction_response db)
    (order_by_ends_at (filter (listed active_only flag) (auctions db))).
Proof.
  unfold get_auctions, listed. do 2 f_equal.
  destruct active_only, flag as [f|]; try destruct (f =? 0);
    rewrite ?filter_filter_andb, ?filter_andb_true_r, ?filter_true;
    reflexivity.
Qed.

Lemma filter_at_most_one (A : Type) (p : A -> bool) (l : list A) :
  (List.length (filter p l) <= 1)%nat ->
  filter p l = match find p l with
               | Some a => [a]
               | None => []
               end.
Proof.
  induction l as [|x l IH]; simpl; [reflexivity|].
  destruct (p x); simpl; [|exact IH].
  intros H. destruct (filter p l); [reflexivity|simpl in H; lia].
Qed.

(** X19: what [GET /api/auctions] lists.  The answer holds exactly the
    auction rows that pass the two optional filters (Active only; the flag,
    when a non-zero [flag_id] is given), each once, in non-decreasing order
    of [ends_at], and each with the number of its bid rows as
    [bid_count]. *)
Theorem get_auctions_listing (active_only : bool) (flag : option Z)
    (db : Database) :
  let answer := get_auctions active_only flag db in
  Permutation (map resp_auction answer)
    (filter (listed active_only flag) (auctions db)) /\
  StronglySorted (fun a b => ends_at a <= ends_at b) (map resp_auction answer) /\
  Forall (fun r =>
            bid_count r =
            Z.of_nat (List.length
                        (bids_of (auction_id (resp_auction r)) (bids db))))
    answer.
Proof.
  intros answer. unfold answer. rewrite get_auctions_eq, map_map. simpl.
  rewrite map_id. unfold order_by_ends_at. split; [|split].
  - apply sorted_Permutation.
  - eapply StronglySorted_weaken; [|apply sorted_in_order].
    + intros x y H. simpl in H. apply Z.ltb_ge in H. exact H.
    + intros a b H. apply Z.ltb_lt in H. apply Z.ltb_ge. lia.
    + intros a b c H1 H2. apply Z.ltb_ge in H1, H2. apply Z.ltb_ge. lia.
  - apply Forall_map. apply Forall_forall. intros a _. reflexivity.
Qed.

(** X20: in a database the requests can reach from one without auctions,
    asking [GET /api/auctions] for the Active auctions of a flag (a non-zero
    [flag_id]) gives at most one entry: the flag's Active auction, if it has
    one. *)
Theorem active_listing_of_a_flag (db0 : Database) (rs : list Request) (f : Z) :
  fresh_database db0 ->
  f <> 0 ->
  get_auctions true (Some f) (run db0 rs) =
  match active_auction_for f (auctions (run db0 rs)) with
  | Some a => [build_auction_response (run db0 rs) a]
  | None => []
  end.
Proof.
  intros [Hfresh _] Hf.
  assert (H0 : at_most_one_active db0).
  { intros fid. unfold active_count. rewrite Hfresh. simpl. lia. }
  apply (run_at_most_one_active rs) in H0. specialize (H0 f).
  rewrite get_auctions_eq. set (db := run db0 rs) in *.
  assert (E : filter (listed true (Some f)) (auctions db)
              = filter (active_on f) (auctions db)).
  { apply filter_ext. intros a. unfold listed, active_on.
    apply Z.eqb_neq in Hf. rewrite Hf. apply andb_comm. }
  rewrite E. unfold active_count in H0.
  rewrite (filter_at_most_one _ _ H0). unfold active_auction_for.
  destruct (find (active_on f) (auctions db)); reflexivity.
Qed.

Lemma active_listing_of_a_flag_witness :
  let db := run Sample.db0 Sample.two_close_bids in
  fresh_database Sample.db0 /\ 1 <> 0 /\
  get_auctions true (Some 1) db =
  match active_auction_for 1 (auctions db) with
  | Some a => [build_auction_response db a]
  | None => []
  end.
Proof.
  intros db.
  assert (H1 : fresh_database Sample.db0) by (split; reflexivity).
  assert (H2 : 1 <> 0) by discriminate.
  split; [exact H1|]. split; [exact H2|].
  exact (@active_listing_of_a_flag Sample.db0 Sample.two_close_bids 1 H1 H2).
Defined.

Lemma get_auction_found (id : Z) (db : Database) (auction : Auction) :
  auction_by_id id (auctions db) = Some auction ->
  get_auction id db =
  (Returned
     (mkAuctionDetailResponse auction
        (Z.of_nat (List.length (newest_first (bids_of id (bids db)))))
        (newest_first (bids_of id (bids db)))
        (match highest_bidder_id auction with
         | Some uid => user_by_id uid (users db)
         | None => None
         end)),
   db).
Proof.
  intros Hfound. unfold get_auction. unfold bind at 1. unfold query at 1.
  rewrite Hfound. reflexivity.
Qed.

(** X21: what [GET /api/auctions/{id}] answers.  For an id without a row it
    is 404; otherwise it is the first row with that id, together with all
    the bid rows of the auction, each once, later [created_at] first, and
    their number as [bid_count].  The database is not written. *)
Theorem get_auction_answer (id : Z) (db : Database) :
  match auction_by_id id (auctions db) with
  | None =>
      get_auction id db =
      (Raised (mkHTTPException HTTP_404_NOT_FOUND (AuctionNotFound id)), db)
  | Some auction =>
      exists r,
        get_auction id db = (Returned r, db) /\
        detail_auction r = auction /\
        Permutation (detail_bids r) (bids_of id (bids db)) /\
        StronglySorted (fun b1 b2 => created_at b2 <= created_at b1)
          (detail_bids r) /\
        detail_bid_count r = Z.of_nat (List.length (bids_of id (bids db)))
  end.
Proof.
  destruct (auction_by_id id (auctions db)) as [auction|] eqn:Hfound.
  - eexists. split; [exact (get_auction_found _ _ Hfound)|]. simpl.
    unfold newest_first.
    pose proof (sorted_Permutation created_at (fun k1 k2 => k2 <? k1)
                  (bids_of id (bids db))) as Hperm.
    split; [reflexivity|]. split; [exact Hperm|]. split.
    + eapply StronglySorted_weaken; [|apply sorted_in_order].
      * intros x y H. simpl in H. apply Z.ltb_ge in H. exact H.
      * intros a b H. apply Z.ltb_lt in H. apply Z.ltb_ge. lia.
      * intros a b c H1 H2. apply Z.ltb_ge in H1, H2. apply Z.ltb_ge. lia.
    + f_equal. exact (Permutation_length Hperm).
  - unfold get_auction. unfold bind at 1. unfold query at 1.
    now rewrite Hfound.
Qed.

(** X22: the order of the bid history.  When the bids of an auction were
    stamped at strictly increasing instants, [GET /api/auctions/{id}] lists
    them latest first, the exact reverse of the order in which they were
    stored.  Bids that all carry the same stamp are listed in the order in
    which they were stored: the sort is stable, so among equal stamps the
    earlier (and lower) bid comes first. *)
Theorem bid_history_order (id : Z) (db : Database) (auction : Auction) :
  auction_by_id id (auctions db) = Some auction ->
  exists r,
    get_auction id db = (Returned r, db) /\
    (stamps_increase (bids_of id (bids db)) ->
     detail_bids r = rev (bids_of id (bids db))) /\
    ((forall b b', In b (bids_of id (bids db)) -> In b' (bids_of id (bids db)) ->
                   created_at b = created_at b') ->
     detail_bids r = bids_of id (bids db)).
Proof.
  intros Hfound. eexists. split; [exact (get_auction_found _ _ Hfound)|].
  simpl. unfold newest_first. split.
  - intros Hs. apply sorted_rev.
    eapply StronglySorted_weaken; [|exact Hs].
    intros x y H. simpl in H. now apply Z.ltb_lt.
  - intros Hties. apply sorted_ties. intros x y Hx Hy.
    rewrite (Hties x y Hx Hy). apply Z.ltb_irrefl.
Qed.

Lemma bid_history_order_witness :
  let db := run Sample.db0 Sample.two_close_bids in
  let auction := mkAuction 1 1 1 one_unit one_unit None (Some Sample.amount_hi)
                   (Some 3) None ACTIVE (add_hours 0 1) in
  auction_by_id 1 (auctions db) = Some auction /\
  exists r,
    get_auction 1 db = (Returned r, db) /\
    (stamps_increase (bids_of 1 (bids db)) ->
     detail_bids r = rev (bids_of 1 (bids db))) /\
    ((forall b b', In b (bids_of 1 (bids db)) -> In b' (bids_of 1 (bids db)) ->
                   created_at b = created_at b') ->
     detail_bids r = bids_of 1 (bids db)).
Proof.
  intros db auction.
  assert (H : auction_by_id 1 (auctions db) = Some auction) by reflexivity.
  split; [exact H|].
  exact (@bid_history_order 1 db auction H).
Defined.

(* ================================================================== *)
(** * Wallets and request bodies *)
(* ================================================================== *)

Lemma lower_ascii_idempotent (c : ascii) :
  lower_ascii (lower_ascii c) = lower_ascii c.
Proof.
  destruct c as [[] [] [] [] [] [] [] []]; reflexivity.
Qed.

Lemma lower_idempotent (s : string) : lower (lower s) = lower s.
Proof.
  induction s as [|c s IH]; simpl; [reflexivity|].
  now rewrite lower_ascii_idempotent, IH.
Qed.

(** X23: [get_or_create_user] is idempotent and blind to the case of the
    wallet: once it has run for a wallet, a second call with any spelling
    that lowercases to the same string returns the same user row and writes
    nothing, and the stored wallet is the lowercased one. *)
Theorem get_or_create_user_again (wallet wallet' : string) (db : Database) :
  lower wallet' = lower wallet ->
  get_or_create_user wallet' (register wallet db)
  = (Returned (resolve_user wallet db), register wallet db) /\
  wallet_address (resolve_user wallet db) = lower wallet /\
  get_or_create_user (lower wallet) db = get_or_create_user wallet db.
Proof.
  intros Hlow. split; [|split].
  - rewrite get_or_create_user_eq.
    assert (Hu : resolve_user wallet' (register wallet db)
                 = resolve_user wallet db).
    { unfold resolve_user at 1. now rewrite Hlow, register_finds. }
    assert (Hr : register wallet' (register wallet db) = register wallet db).
    { unfold register at 1. now rewrite Hlow, register_finds. }
    now rewrite Hu, Hr.
  - unfold resolve_user, user_by_wallet.
    destruct (find _ (users db)) as [u|] eqn:E; [|reflexivity].
    apply find_some in E. destruct E as [_ E]. now apply String.eqb_eq in E.
  - rewrite !get_or_create_user_eq. unfold register, resolve_user.
    rewrite !lower_idempotent. reflexivity.
Qed.

Lemma get_or_create_user_again_witness :
  let wallet := "0xAbCdAbCdAbCdAbCdAbCdAbCdAbCdAbCdAbCdAbCd" in
  let wallet' := "0xABCDabcdABCDabcdABCDabcdABCDabcdABCDabcd" in
  lower wallet' = lower wallet /\
  get_or_create_user wallet' (register wallet Sample.db0)
  = (Returned (resolve_user wallet Sample.db0), register wallet Sample.db0) /\
  wallet_address (resolve_user wallet Sample.db0) = lower wallet /\
  get_or_create_user (lower wallet) Sample.db0
  = get_or_create_user wallet Sample.db0.
Proof.
  intros wallet wallet'.
  assert (H : lower wallet' = lower wallet) by reflexivity.
  split; [exact H|].
  exact (@get_or_create_user_again wallet wallet' Sample.db0 H).
Defined.

Lemma field_wallet_address_inr (v w : string) :
  field_wallet_address v = inr w <->
  len v = 42 /\ startswith v "0x" = true /\ w = lower v.
Proof.
  unfold field_wallet_address, validate_wallet.
  destruct (Z.ltb_spec (len v) 42); [split; [discriminate|lia]|].
  destruct (Z.ltb_spec 42 (len v)); [split; [discriminate|lia]|].
  destruct (startswith v "0x"); simpl.
  - split; [intros [= <-]; repeat split; lia|intros (_ & _ & ->); reflexivity].
  - split; [discriminate|intros (_ & [=] & _)].
Qed.

Lemma field_gt0_inr (v x : Decimal) :
  field_gt0 v = inr x <-> 0 < v /\ x = v.
Proof.
  unfold field_gt0. destruct (Z.ltb_spec 0 v).
  - split; [intros [= <-]; auto|intros [_ ->]; reflexivity].
  - split; [discriminate|lia].
Qed.

Lemma field_optional_gt0_inr (v x : option Decimal) :
  field_optional_gt0 v = inr x <-> (forall m, v = Some m -> 0 < m) /\ x = v.
Proof.
  unfold field_optional_gt0. destruct v as [d|].
  - destruct (Z.ltb_spec 0 d) as [Hd|Hd].
    + split; [intros [= <-]; split; [intros m [= <-]; assumption|reflexivity]
             |intros [_ ->]; reflexivity].
    + split; [discriminate|intros [Hall _]; specialize (Hall d eq_refl); lia].
  - split; [intros [= <-]; split; [discriminate|reflexivity]
           |intros [_ ->]; reflexivity].
Qed.

Lemma field_buyout_price_inr (v x : option Decimal) (sp : Decimal) :
  0 < sp ->
  field_buyout_price v (Some sp) = inr x <->
  (forall b, v = Some b -> sp < b) /\ x = v.
Proof.
  intros Hsp. unfold field_buyout_price, field_optional_gt0,
    validate_buyout_price.
  destruct v as [b|].
  - destruct (Z.ltb_spec 0 b) as [Hb|Hb].
    + destruct (Z.leb_spec b sp) as [Hle|Hgt].
      * split; [discriminate|intros [Hall _]; specialize (Hall b eq_refl); lia].
      * split; [intros [= <-]; split; [intros ? [= <-]; assumption|reflexivity]
               |intros [_ ->]; reflexivity].
    + split; [discriminate|intros [Hall _]; specialize (Hall b eq_refl); lia].
  - split; [intros [= <-]; split; [discriminate|reflexivity]
           |intros [_ ->]; reflexivity].
Qed.

Lemma field_duration_hours_inr (v x : Z) :
  field_duration_hours v = inr x <-> 1 <= v <= 168 /\ x = v.
Proof.
  unfold field_duration_hours.
  destruct (Z.ltb_spec v 1); [split; [discriminate|lia]|].
  destruct (Z.ltb_spec 168 v); [split; [discriminate|lia]|].
  split; [intros [= <-]; split; [lia|reflexivity]|intros [_ ->]; reflexivity].
Qed.

(** X24: which bodies [AuctionCreate] takes, and what the handler then
    sees.  A body validates exactly when the wallet has 42 characters and
    starts with 0x, [starting_price] is positive, [min_price] is absent or
    positive, [buyout_price] is absent or above [starting_price], and
    [duration_hours] lies between 1 and 168.  The handler receives the
    wallet in lower case and, for an absent [min_price], the starting
    price.  No check relates [min_price] to the other two prices. *)
Theorem AuctionCreate_validate_iff (body : AuctionCreateBody) (d : AuctionCreate) :
  AuctionCreate_validate body = inr d <->
  len (body_wallet_address body) = 42 /\
  startswith (body_wallet_address body) "0x" = true /\
  0 < body_starting_price body /\
  (forall m, body_min_price body = Some m -> 0 < m) /\
  (forall b, body_buyout_price body = Some b -> body_starting_price body < b) /\
  1 <= body_duration_hours body <= 168 /\
  d = mkAuctionCreate (body_flag_id body) (lower (body_wallet_address body))
        (body_starting_price body)
        (match body_min_price body with
         | Some m => m
         | None => body_starting_price body
         end)
        (body_buyout_price body) (body_duration_hours body).
Proof.
  unfold AuctionCreate_validate, set_min_price_default. split.
  - destruct (field_wallet_address _) as [?|w] eqn:Hw;
      destruct (field_gt0 _) as [?|sp] eqn:Hsp;
      destruct (field_optional_gt0 _) as [?|mp] eqn:Hmp;
      simpl value_of;
      destruct (field_buyout_price _ _) as [?|bp] eqn:Hbp;
      destruct (field_duration_hours _) as [?|dh] eqn:Hdh;
      try discriminate.
    intros [= <-].
    apply field_wallet_address_inr in Hw. destruct Hw as (W1 & W2 & ->).
    apply field_gt0_inr in Hsp. destruct Hsp as (S1 & ->).
    apply field_optional_gt0_inr in Hmp. destruct Hmp as (M1 & ->).
    apply field_buyout_price_inr in Hbp; [|exact S1]. destruct Hbp as (B1 & ->).
    apply field_duration_hours_inr in Hdh. destruct Hdh as (D1 & ->).
    repeat split; auto; lia.
  - intros (W1 & W2 & S1 & M1 & B1 & D1 & ->).
    rewrite (proj2 (field_wallet_address_inr (body_wallet_address body) _)
               (conj W1 (conj W2 eq_refl))).
    rewrite (proj2 (field_gt0_inr (body_starting_price body) _)
               (conj S1 eq_refl)).
    rewrite (proj2 (field_optional_gt0_inr (body_min_price body) _)
               (conj M1 eq_refl)).
    simpl value_of.
    rewrite (proj2 (field_buyout_price_inr (body_buyout_price body) _ S1)
               (conj B1 eq_refl)).
    rewrite (proj2 (field_duration_hours_inr (body_duration_hours body) _)
               (conj D1 eq_refl)).
    reflexivity.
Qed.

(* ================================================================== *)
(** * The two NFTs of a flag *)
(* ================================================================== *)

Section PrimaryKey.
Variable A : Type.
Variable pk : A -> Z.

Lemma find_pk_unique (l : list A) (a : A) :
  NoDup (map pk l) -> In a l -> find (fun x => pk x =? pk a) l = Some a.
Proof.
  induction l as [|x l IH]; simpl; intros Hnd Hin; [contradiction|].
  inversion Hnd as [|? ? Hx Hl]; subst.
  destruct Hin as [->|Hin].
  - now rewrite Z.eqb_refl.
  - destruct (Z.eqb_spec (pk x) (pk a)) as [Heq|Hne].
    + exfalso. apply Hx. rewrite Heq. now apply in_map.
    + auto.
Qed.

Lemma find_pk_some (id : Z) (l : list A) (a : A) :
  find (fun x => pk x =? id) l = Some a -> In a l /\ pk a = id.
Proof.
  intros H. apply find_some in H. destruct H as [Hin Hid].
  split; [exact Hin|now apply Z.eqb_eq].
Qed.

Lemma update_pk_In (id : Z) (f : A -> A) (l : list A) (a' : A) :
  In a' (map (fun x => if pk x =? id then f x else x) l) ->
  exists a, In a l /\ ((pk a = id /\ a' = f a) \/ (pk a <> id /\ a' = a)).
Proof.
  intros H. apply in_map_iff in H. destruct H as (a & Ha & Hin).
  exists a. split; [exact Hin|].
  destruct (Z.eqb_spec (pk a) id); [left|right]; auto.
Qed.

Lemma update_pk_row (id : Z) (f : A -> A) (l : list A) (a : A) :
  In a l ->
  In (if pk a =? id then f a else a)
     (map (fun x => if pk x =? id then f x else x) l).
Proof.
  intros Hin.
  exact (in_map (fun x => if pk x =? id then f x else x) l a Hin).
Qed.
End PrimaryKey.

Lemma flags_get_or_create_user_frame (wallet : string) (db : Flags.Tables) :
  Flags.flag_rows (snd (Flags.get_or_create_user wallet db)) = Flags.flag_rows db /\
  Flags.ownership_rows (snd (Flags.get_or_create_user wallet db))
  = Flags.ownership_rows db /\
  Flags.interest_rows (snd (Flags.get_or_create_user wallet db))
  = Flags.interest_rows db.
Proof.
  unfold Flags.get_or_create_user.
  destruct (user_by_wallet _ _); simpl; auto.
Qed.

Lemma holders_snoc (ty : Flags.OwnershipType) (flag_id : Z)
    (l : list Flags.FlagOwnership) (o : Flags.FlagOwnership) :
  Flags.holders ty flag_id (l ++ [o]) =
  (Flags.holders ty flag_id l ++
   (if (Flags.fo_flag_id o =? flag_id)
       && Flags.OwnershipType_eqb (Flags.ownership_type o) ty
    then [o] else []))%list.
Proof. unfold Flags.holders. now rewrite filter_app. Qed.

Lemma pairs_sound_same (db db' : Flags.Tables) :
  Flags.flag_rows db' = Flags.flag_rows db ->
  Flags.ownership_rows db' = Flags.ownership_rows db ->
  Flags.pairs_sound db -> Flags.pairs_sound db'.
Proof. unfold Flags.pairs_sound. now intros -> ->. Qed.

(** Recording an NFT: the flag row is rewritten by [g], one ownership row
    of kind [ty] is added. *)
Lemma pairs_sound_record (db : Flags.Tables) (flag_id : Z) (flag : Flags.Flag)
    (g : Flags.Flag -> Flags.Flag) (o : Flags.FlagOwnership)
    (us : list User) (its : list Flags.FlagInterest) :
  Flags.pairs_sound db ->
  Flags.flag_by_id flag_id (Flags.flag_rows db) = Some flag ->
  (forall x, Flags.fl_id (g x) = Flags.fl_id x) ->
  Flags.fo_flag_id o = flag_id ->
  Flags.pair_state (g flag) ->
  (if Flags.NFTStatus_eqb (Flags.first_nft_status (g flag)) Flags.AVAILABLE
   then 0 else 1)%nat =
  ((if Flags.NFTStatus_eqb (Flags.first_nft_status flag) Flags.AVAILABLE
    then 0 else 1) +
   (if Flags.OwnershipType_eqb (Flags.ownership_type o) Flags.FIRST
    then 1 else 0))%nat ->
  (if Flags.NFTStatus_eqb (Flags.second_nft_status (g flag)) Flags.AVAILABLE
   then 0 else 1)%nat =
  ((if Flags.NFTStatus_eqb (Flags.second_nft_status flag) Flags.AVAILABLE
    then 0 else 1) +
   (if Flags.OwnershipType_eqb (Flags.ownership_type o) Flags.SECOND
    then 1 else 0))%nat ->
  Flags.pairs_sound
    (Flags.mkTables (Flags.update_flag_row flag_id g (Flags.flag_rows db)) us
       (Flags.ownership_rows db ++ [o]) its).
Proof.
  intros (Hnd & Hfk & Hall) Hfound Hg Ho Hstate Hfirst Hsecond.
  destruct (@find_pk_some _ Flags.fl_id flag_id _ flag Hfound) as [Hin Hid].
  unfold Flags.pairs_sound. simpl. split; [|split].
  - unfold Flags.update_flag_row. now rewrite map_pk_update.
  - intros o' Hin'. apply in_app_or in Hin'.
    assert (Hrow : forall f, In f (Flags.flag_rows db) ->
              exists f', In f' (Flags.update_flag_row flag_id g (Flags.flag_rows db))
                         /\ Flags.fl_id f' = Flags.fl_id f).
    { intros f Hf.
      exists (if Flags.fl_id f =? flag_id then g f else f).
      split; [exact (@update_pk_row _ Flags.fl_id flag_id g _ f Hf)|].
      destruct (Flags.fl_id f =? flag_id); [apply Hg|reflexivity]. }
    destruct Hin' as [Hin'|[<-|[]]].
    + destruct (Hfk o' Hin') as (f & Hf & Hfid).
      destruct (Hrow f Hf) as (f' & Hf' & E). exists f'. split; congruence.
    + destruct (Hrow flag Hin) as (f' & Hf' & E). exists f'. split; congruence.
  - intros f' Hin'. apply update_pk_In in Hin'.
    destruct Hin' as (f & Hf & [[Hfid ->]|[Hfid ->]]).
    + assert (f = flag).
      { pose proof (@find_pk_unique _ Flags.fl_id _ f Hnd Hf) as U.
        unfold Flags.flag_by_id in Hfound. rewrite Hfid, Hfound in U.
        congruence. }
      subst f. destruct (Hall flag Hin) as (_ & H1 & H2).
      rewrite Hg, !holders_snoc, !length_app, H1, H2, Ho, Hid, Z.eqb_refl.
      simpl andb. split; [exact Hstate|].
      split; [rewrite Hfirst|rewrite Hsecond]; clear Hfirst Hsecond;
        destruct (Flags.OwnershipType_eqb _ _); reflexivity.
    + destruct (Hall f Hf) as (H0 & H1 & H2).
      rewrite !holders_snoc, !length_app, H1, H2, Ho.
      assert (E : (flag_id =? Flags.fl_id f) = false)
        by (apply Z.eqb_neq; congruence).
      rewrite E. simpl. rewrite !Nat.add_0_r. auto.
Qed.

Lemma flags_step_sound (db : Flags.Tables) (r : Flags.Request) :
  Flags.pairs_sound db -> Flags.pairs_sound (Flags.step db r).
Proof.
  intros Hs. destruct r as [flag_id interest|flag_id ownership|flag_id ownership];
    unfold Flags.step.
  - unfold Flags.register_interest.
    destruct (Flags.flag_by_id flag_id (Flags.flag_rows db)); [|exact Hs].
    destruct (flags_get_or_create_user_frame
                (Flags.ic_wallet_address interest) db) as (F1 & F2 & _).
    destruct (Flags.get_or_create_user _ db) as [user db1]. simpl in F1, F2.
    destruct (Flags.interest_of _ _ _); simpl;
      apply pairs_sound_same with (db := db); auto.
  - unfold Flags.claim_first_nft.
    destruct (Flags.flag_by_id flag_id (Flags.flag_rows db)) as [flag|] eqn:Hfound;
      [|exact Hs].
    destruct (Flags.first_nft_status flag) eqn:H1; simpl; try exact Hs.
    destruct (flags_get_or_create_user_frame
                (Flags.oc_wallet_address ownership) db) as (F1 & F2 & _).
    destruct (Flags.get_or_create_user _ db) as [user db1]. simpl in F1, F2.
    simpl. rewrite F1, F2.
    pose proof Hs as (Hnd & Hfk & Hall).
    destruct (@find_pk_some _ Flags.fl_id flag_id _ flag Hfound) as [Hin _].
    destruct (Hall flag Hin) as (Hstate & _).
    apply pairs_sound_record with (flag := flag);
      [exact Hs|exact Hfound|reflexivity|reflexivity| | |];
      simpl; rewrite ?H1; try reflexivity.
    + right; left.
      destruct Hstate as [(_ & S2 & S3)|[(S1 & _)|(S1 & _)]]; [auto|congruence..].
    + now destruct (Flags.second_nft_status flag).
  - unfold Flags.purchase_second_nft.
    destruct (Flags.flag_by_id flag_id (Flags.flag_rows db)) as [flag|] eqn:Hfound;
      [|exact Hs].
    destruct (Flags.first_nft_status flag) eqn:H1; simpl; try exact Hs.
    destruct (Flags.second_nft_status flag) eqn:H2; simpl; try exact Hs.
    destruct (flags_get_or_create_user_frame
                (Flags.oc_wallet_address ownership) db) as (F1 & F2 & _).
    destruct (Flags.get_or_create_user _ db) as [user db1]. simpl in F1, F2.
    simpl. rewrite F1, F2.
    apply pairs_sound_record with (flag := flag);
      [exact Hs|exact Hfound|reflexivity|reflexivity| | |];
      simpl; rewrite ?H1, ?H2; try reflexivity.
    right; right. auto.
Qed.

Lemma flags_run_cons (db : Flags.Tables) (r : Flags.Request)
    (rs : list Flags.Request) :
  Flags.run db (r :: rs) = Flags.run (Flags.step db r) rs.
Proof. reflexivity. Qed.

(** X25: the pair of a flag.  Starting from tables in which nothing has
    been claimed, after any sequence of interest, claim and purchase
    requests every flag is in one of three states - both NFTs available;
    first claimed and second available; first claimed and second purchased
    with the pair complete - and its ownership rows say the same: exactly
    one FIRST row when the first NFT is claimed and none before, exactly
    one SECOND row when the second is purchased and none before.  Every
    ownership row points at a flag. *)
Theorem nft_pair_invariant (db0 : Flags.Tables) (rs : list Flags.Request) :
  Flags.untouched db0 -> Flags.pairs_sound (Flags.run db0 rs).
Proof.
  intros (Hnd & Hown & Hall).
  assert (H0 : Flags.pairs_sound db0).
  { unfold Flags.pairs_sound. rewrite Hown. split; [exact Hnd|].
    split; [intros o []|].
    intros f Hf. destruct (Hall f Hf) as (H1 & H2 & H3).
    rewrite H1, H2. simpl. split; [left; auto|auto]. }
  clear Hnd Hown Hall. revert db0 H0.
  induction rs as [|r rs IH]; intros db0 H0; [exact H0|].
  rewrite flags_run_cons. apply IH. now apply flags_step_sound.
Qed.

Lemma nft_pair_invariant_witness :
  let alice := Flags.mkFlagOwnershipCreate Sample.alice Flags.SECOND None in
  let bob := Flags.mkFlagOwnershipCreate Sample.bob Flags.FIRST None in
  let db0 := Flags.mkTables
               [Flags.mkFlag 1 Flags.AVAILABLE Flags.AVAILABLE false;
                Flags.mkFlag 2 Flags.AVAILABLE Flags.AVAILABLE false]
               [] [] [] in
  let rs := [Flags.Purchase 1 bob; Flags.Claim 1 alice; Flags.Claim 1 bob;
             Flags.Purchase 1 bob; Flags.Purchase 1 alice; Flags.Claim 2 bob] in
  Flags.untouched db0 /\ Flags.pairs_sound (Flags.run db0 rs).
Proof.
  intros alice bob db0 rs.
  assert (H : Flags.untouched db0).
  { split; [|split; [reflexivity|]].
    - simpl. constructor; [simpl; intros [H|[]]; discriminate|].
      constructor; [intros []|constructor].
    - intros f [<-|[<-|[]]]; repeat split. }
  split; [exact H|].
  exact (@nft_pair_invariant db0 rs H).
Defined.


Lemma flags_get_or_create_user_finds (wallet : string) (db : Flags.Tables) :
  user_by_wallet (lower wallet)
    (Flags.user_rows (snd (Flags.get_or_create_user wallet db)))
  = Some (fst (Flags.get_or_create_user wallet db)) /\
  reputation_score (fst (Flags.get_or_create_user wallet db)) =
  match user_by_wallet (lower wallet) (Flags.user_rows db) with
  | Some u => reputation_score u
  | None => 0
  end.
Proof.
  unfold Flags.get_or_create_user, user_by_wallet.
  destruct (find _ (Flags.user_rows db)) as [u|] eqn:E; simpl; [auto|].
  rewrite (find_app_none _ _ _ E). simpl. now rewrite String.eqb_refl.
Qed.



Lemma interest_of_none_not_In (uid flag_id : Z) (l : list Flags.FlagInterest) :
  Flags.interest_of uid flag_id l = None ->
  ~ In (uid, flag_id) (map (fun i => (Flags.fi_user_id i, Flags.fi_flag_id i)) l).
Proof.
  intros Hnone H. apply in_map_iff in H. destruct H as (i & [= E1 E2] & Hin).
  apply (find_none _ _ Hnone) in Hin. simpl in Hin.
  rewrite E1, E2, !Z.eqb_refl in Hin. discriminate.
Qed.

Lemma flags_step_interests (db : Flags.Tables) (r : Flags.Request) :
  Flags.interests_unique db -> Flags.interests_unique (Flags.step db r).
Proof.
  unfold Flags.interests_unique. intros Hu.
  destruct r as [flag_id interest|flag_id ownership|flag_id ownership];
    unfold Flags.step.
  - unfold Flags.register_interest.
    destruct (Flags.flag_by_id flag_id (Flags.flag_rows db)); [|exact Hu].
    destruct (flags_get_or_create_user_frame
                (Flags.ic_wallet_address interest) db) as (_ & _ & F3).
    destruct (Flags.get_or_create_user _ db) as [user db1]. simpl in F3.
    destruct (Flags.interest_of _ _ _) eqn:E; simpl; rewrite F3; [exact Hu|].
    rewrite F3 in E.
    apply (NoDup_map_snoc (fun i => (Flags.fi_user_id i, Flags.fi_flag_id i)));
      [exact Hu|].
    simpl. now apply interest_of_none_not_In.
  - unfold Flags.claim_first_nft.
    destruct (Flags.flag_by_id flag_id (Flags.flag_rows db)); [|exact Hu].
    destruct (negb _); [exact Hu|].
    destruct (flags_get_or_create_user_frame
                (Flags.oc_wallet_address ownership) db) as (_ & _ & F3).
    destruct (Flags.get_or_create_user _ db) as [user db1]. simpl in F3.
    simpl. now rewrite F3.
  - unfold Flags.purchase_second_nft.
    destruct (Flags.flag_by_id flag_id (Flags.flag_rows db)); [|exact Hu].
    destruct (negb _); [exact Hu|]. destruct (negb _); [exact Hu|].
    destruct (flags_get_or_create_user_frame
                (Flags.oc_wallet_address ownership) db) as (_ & _ & F3).
    destruct (Flags.get_or_create_user _ db) as [user db1]. simpl in F3.
    simpl. now rewrite F3.
Qed.

(** X27: one interest per user and flag.  No sequence of requests stores
    two interest rows with the same user and flag, and once an interest was
    registered, the same wallet in any spelling is refused for that flag
    with 400 and writes nothing. *)
Theorem interest_once_per_flag (db0 : Flags.Tables) (rs : list Flags.Request) :
  Flags.interests_unique db0 ->
  Flags.interests_unique (Flags.run db0 rs) /\
  forall flag_id interest x db',
    Flags.register_interest flag_id interest (Flags.run db0 rs)
    = (Flags.Returned x, db') ->
    forall interest',
      lower (Flags.ic_wallet_address interest')
      = lower (Flags.ic_wallet_address interest) ->
      Flags.register_interest flag_id interest' db'
      = (Flags.Raised HTTP_400_BAD_REQUEST Flags.AlreadyInterested, db').
Proof.
  intros H0. split.
  - revert db0 H0. induction rs as [|r rs IH]; intros db0 H0; [exact H0|].
    rewrite flags_run_cons. apply IH. now apply flags_step_interests.
  - generalize (Flags.run db0 rs). clear db0 rs H0.
    intros db flag_id interest x db'. unfold Flags.register_interest at 1.
    destruct (Flags.flag_by_id flag_id (Flags.flag_rows db)) as [flag|] eqn:Hf;
      [|discriminate].
    destruct (flags_get_or_create_user_finds
                (Flags.ic_wallet_address interest) db) as [Hu _].
    destruct (flags_get_or_create_user_frame
                (Flags.ic_wallet_address interest) db) as (F1 & _ & _).
    destruct (Flags.get_or_create_user _ db) as [user db1].
    simpl in Hu, F1.
    destruct (Flags.interest_of _ _ _) eqn:E; [discriminate|].
    intros [= <- <-] interest' Hlow.
    rewrite <- F1 in Hf.
    unfold Flags.register_interest. simpl Flags.flag_rows. rewrite Hf.
    assert (Hg : Flags.get_or_create_user (Flags.ic_wallet_address interest')
                   (Flags.mkTables (Flags.flag_rows db1) (Flags.user_rows db1)
                      (Flags.ownership_rows db1)
                      (Flags.interest_rows db1 ++
                       [Flags.mkFlagInterest
                          (next_id (map Flags.fi_id (Flags.interest_rows db1)))
                          (user_id user) flag_id]))
                 = (user,
                    Flags.mkTables (Flags.flag_rows db1) (Flags.user_rows db1)
                      (Flags.ownership_rows db1)
                      (Flags.interest_rows db1 ++
                       [Flags.mkFlagInterest
                          (next_id (map Flags.fi_id (Flags.interest_rows db1)))
                          (user_id user) flag_id]))).
    { unfold Flags.get_or_create_user. simpl. now rewrite Hlow, Hu. }
    rewrite Hg. simpl.
    unfold Flags.interest_of in *. rewrite (find_app_none _ _ _ E). simpl.
    now rewrite !Z.eqb_refl.
Qed.

Lemma interest_once_per_flag_witness :
  let db0 := Flags.mkTables
               [Flags.mkFlag 1 Flags.AVAILABLE Flags.AVAILABLE false]
               [] [] [] in
  let rs := [Flags.Interest 1 (Flags.mkFlagInterestCreate Sample.alice);
             Flags.Interest 1 (Flags.mkFlagInterestCreate Sample.alice)] in
  Flags.interests_unique db0 /\
  Flags.interests_unique (Flags.run db0 rs) /\
  forall flag_id interest x db',
    Flags.register_interest flag_id interest (Flags.run db0 rs)
    = (Flags.Returned x, db') ->
    forall interest',
      lower (Flags.ic_wallet_address interest')
      = lower (Flags.ic_wallet_address interest) ->
      Flags.register_interest flag_id interest' db'
      = (Flags.Raised HTTP_400_BAD_REQUEST Flags.AlreadyInterested, db').
Proof.
  intros db0 rs.
  assert (H : Flags.interests_unique db0) by constructor.
  split; [exact H|].
  exact (@interest_once_per_flag db0 rs H).
Defined.





(* ================================================================== *)
(** * The follow graph *)
(* ================================================================== *)

(** Deleting a connection keeps the remaining pairs distinct. *)
Lemma delete_connection_pairs (c : Social.UserConnection)
    (rows : list Social.UserConnection) :
  NoDup (map (fun x => (Social.follower_id x, Social.following_id x)) rows) ->
  NoDup (map (fun x => (Social.follower_id x, Social.following_id x))
           (Social.delete_connection c rows)).
Proof.
  unfold Social.delete_connection.
  induction rows as [|row rows IH]; simpl; intros Hnd; [constructor|].
  inversion Hnd as [|? ? Hfresh Hrest]; subst.
  destruct (negb (Social.uc_id row =? Social.uc_id c)); simpl; [|auto].
  constructor; [|auto].
  intros Hin. apply Hfresh. apply in_map_iff in Hin.
  destruct Hin as (y & Hy & Hin). apply filter_In in Hin.
  apply in_map_iff. exists y. tauto.
Qed.

(** What the router's [get_or_create_user] returns and leaves. *)
Lemma social_get_or_create_user (wallet : string) (db : Social.Tables) :
  let user := fst (Social.get_or_create_user wallet db) in
  let db1 := snd (Social.get_or_create_user wallet db) in
  user_by_wallet (lower wallet) (Social.user_rows db1) = Some user /\
  wallet_address user = lower wallet /\
  Social.connection_rows db1 = Social.connection_rows db /\
  (exists l, Social.user_rows db1 = (Social.user_rows db ++ l)%list) /\
  (NoDup (map user_id (Social.user_rows db)) ->
   NoDup (map user_id (Social.user_rows db1))).
Proof.
  unfold Social.get_or_create_user, user_by_wallet.
  destruct (find _ (Social.user_rows db)) as [u|] eqn:E; simpl.
  - split; [exact E|]. split.
    + apply find_some in E. destruct E as [_ E]. now apply String.eqb_eq in E.
    + split; [reflexivity|]. split; [exists []; now rewrite app_nil_r|auto].
  - rewrite (find_app_none _ _ _ E). simpl. rewrite String.eqb_refl.
    split; [reflexivity|]. split; [reflexivity|]. split; [reflexivity|].
    split; [eauto|]. intros Hnd. apply NoDup_map_snoc; [exact Hnd|].
    apply next_id_not_In.
Qed.

Lemma connection_of_none_not_In (a b : Z) (l : list Social.UserConnection) :
  Social.connection_of a b l = None ->
  ~ In (a, b) (map (fun c => (Social.follower_id c, Social.following_id c)) l).
Proof.
  intros Hnone H. apply in_map_iff in H. destruct H as (c & [= E1 E2] & Hin).
  apply (find_none _ _ Hnone) in Hin. simpl in Hin.
  rewrite E1, E2, !Z.eqb_refl in Hin. discriminate.
Qed.

(** The two users [follow_user] resolves, and the tables it then reads. *)
Lemma follow_user_resolves (w t : string) (db : Social.Tables) :
  String.eqb (lower w) (lower t) = false ->
  let r1 := Social.get_or_create_user (lower w) db in
  let r2 := Social.get_or_create_user (lower t) (snd r1) in
  user_by_wallet (lower w) (Social.user_rows (snd r2)) = Some (fst r1) /\
  user_by_wallet (lower t) (Social.user_rows (snd r2)) = Some (fst r2) /\
  Social.connection_rows (snd r2) = Social.connection_rows db /\
  (NoDup (map user_id (Social.user_rows db)) ->
   NoDup (map user_id (Social.user_rows (snd r2))) /\
   user_id (fst r1) <> user_id (fst r2)).
Proof.
  intros Hne r1 r2.
  destruct (social_get_or_create_user (lower w) db)
    as (U1 & W1 & C1 & _ & N1).
  destruct (social_get_or_create_user (lower t) (snd r1))
    as (U2 & W2 & C2 & (l & E2) & N2).
  fold r1 in U1, W1, C1, N1. fold r1 r2 in U2, W2, C2, E2, N2.
  rewrite lower_idempotent in U1, W1, U2, W2.
  split; [rewrite E2; now apply find_app_some|].
  split; [exact U2|]. split; [congruence|].
  intros Hnd. specialize (N2 (N1 Hnd)). split; [exact N2|].
  intros Hid.
  assert (Hin1 : In (fst r1) (Social.user_rows (snd r2))).
  { rewrite E2. apply in_or_app. left. apply find_some in U1. tauto. }
  assert (Hin2 : In (fst r2) (Social.user_rows (snd r2))).
  { apply find_some in U2. tauto. }
  pose proof (@NoDup_map_injective _ _ user_id _ _ _ N2 Hin1 Hin2 Hid) as E.
  apply String.eqb_neq in Hne. apply Hne. congruence.
Qed.

Lemma social_step_sound (db : Social.Tables) (r : Social.Request) :
  Social.graph_sound db -> Social.graph_sound (Social.step db r).
Proof.
  intros (Hnd & Hloop & Hpairs).
  destruct r as [w d|w t]; unfold Social.step.
  - unfold Social.follow_user.
    destruct (String.eqb (lower w) (lower (Social.target_wallet d))) eqn:Hne;
      [repeat split; assumption|].
    destruct (follow_user_resolves w (Social.target_wallet d) db Hne)
      as (_ & _ & C & N).
    destruct (N Hnd) as [N2 Hids].
    destruct (Social.get_or_create_user (lower w) db) as [follower db1].
    cbn [fst snd] in C, N2, Hids.
    destruct (Social.get_or_create_user (lower (Social.target_wallet d)) db1)
      as [following db2].
    cbn [fst snd] in C, N2, Hids.
    destruct (Social.connection_of _ _ _) eqn:E; simpl.
    + unfold Social.graph_sound. rewrite C. auto.
    + unfold Social.graph_sound. simpl. rewrite C in *.
      split; [exact N2|]. split.
      * intros c Hin. apply in_app_or in Hin.
        destruct Hin as [Hin|[<-|[]]]; [auto|exact Hids].
      * apply (NoDup_map_snoc
                 (fun c => (Social.follower_id c, Social.following_id c)));
          [exact Hpairs|].
        simpl. now apply connection_of_none_not_In.
  - unfold Social.unfollow_user.
    destruct (user_by_wallet (lower w) _) as [follower|];
      [|repeat split; assumption].
    destruct (user_by_wallet (lower t) _) as [following|];
      [|repeat split; assumption].
    destruct (Social.connection_of _ _ _) as [c|];
      [|repeat split; assumption].
    unfold Social.graph_sound. simpl.
    split; [exact Hnd|]. split.
    + intros x Hin. unfold Social.delete_connection in Hin.
      apply filter_In in Hin. apply Hloop. tauto.
    + now apply delete_connection_pairs.
Qed.

(** X29: the follow graph stays simple.  Starting from tables whose users
    have distinct ids, in which nobody follows themselves and no pair is
    connected twice, no sequence of follow and unfollow requests produces a
    self-follow or a second connection between the same two users. *)
Theorem follow_graph_invariant (db0 : Social.Tables)
    (rs : list Social.Request) :
  Social.graph_sound db0 -> Social.graph_sound (Social.run db0 rs).
Proof.
  revert db0. induction rs as [|r rs IH]; intros db0 H0; [exact H0|].
  change (Social.run db0 (r :: rs)) with (Social.run (Social.step db0 r) rs).
  apply IH. now apply social_step_sound.
Qed.

Lemma follow_graph_invariant_witness :
  let db0 := Social.mkTables [mkUser 1 Sample.alice 0] [] in
  let rs := [Social.Follow Sample.alice (Social.mkFollowCreate Sample.bob);
             Social.Follow Sample.alice (Social.mkFollowCreate Sample.alice);
             Social.Follow Sample.bob (Social.mkFollowCreate Sample.alice);
             Social.Follow Sample.alice (Social.mkFollowCreate Sample.bob);
             Social.Unfollow Sample.bob Sample.alice] in
  Social.graph_sound db0 /\ Social.graph_sound (Social.run db0 rs).
Proof.
  intros db0 rs.
  assert (H : Social.graph_sound db0).
  { split; [|split]; simpl.
    - constructor; [intros []|constructor].
    - intros c [].
    - constructor. }
  split; [exact H|].
  exact (@follow_graph_invariant db0 rs H).
Defined.

(** X30: following and unfollowing.  After a follow was served, following
    the same user again is refused with 400 and writes nothing, and the
    matching unfollow is served and leaves the connections table exactly as
    it was before the follow; the users the follow created stay. *)
Theorem follow_then_unfollow (w : string) (d : Social.FollowCreate)
    (db db' : Social.Tables) (c : Social.UserConnection) :
  Social.follow_user w d db = (Social.Returned c, db') ->
  Social.follow_user w d db'
  = (Social.Raised HTTP_400_BAD_REQUEST Social.AlreadyFollowing, db') /\
  Social.unfollow_user w (Social.target_wallet d) db'
  = (Social.Returned tt,
     Social.mkTables (Social.user_rows db') (Social.connection_rows db)).
Proof.
  unfold Social.follow_user at 1.
  destruct (String.eqb (lower w) (lower (Social.target_wallet d))) eqn:Hne;
    [discriminate|].
  destruct (follow_user_resolves w (Social.target_wallet d) db Hne)
    as (U1 & U2 & C & _).
  destruct (Social.get_or_create_user (lower w) db) as [follower db1].
  cbn [fst snd] in U1, U2, C.
  destruct (Social.get_or_create_user (lower (Social.target_wallet d)) db1)
    as [following db2].
  cbn [fst snd] in U1, U2, C.
  destruct (Social.connection_of _ _ _) eqn:E; [discriminate|].
  intros [= <- <-].
  set (c := Social.mkUserConnection _ _ _).
  assert (Hfind : Social.connection_of (user_id follower) (user_id following)
                    (Social.connection_rows db2 ++ [c]) = Some c).
  { unfold Social.connection_of in *. rewrite (find_app_none _ _ _ E).
    simpl. now rewrite !Z.eqb_refl. }
  split.
  - unfold Social.follow_user. rewrite Hne.
    unfold Social.get_or_create_user. simpl.
    rewrite lower_idempotent, U1. simpl.
    rewrite lower_idempotent, U2. simpl. now rewrite Hfind.
  - unfold Social.unfollow_user. simpl. rewrite U1, U2, Hfind.
    f_equal. f_equal. rewrite <- C.
    unfold Social.delete_connection. rewrite filter_app. simpl.
    rewrite Z.eqb_refl. simpl. rewrite app_nil_r.
    apply forallb_filter_id. apply forallb_forall. intros x Hin.
    pose proof (next_id_fresh Social.uc_id _ _ Hin) as Hlt.
    apply negb_true_iff, Z.eqb_neq. simpl. lia.
Qed.

Lemma follow_then_unfollow_witness :
  let db := Social.mkTables [mkUser 1 Sample.alice 0] [] in
  let d := Social.mkFollowCreate Sample.bob in
  let c := Social.mkUserConnection 1 1 2 in
  let db' := Social.mkTables [mkUser 1 Sample.alice 0; mkUser 2 Sample.bob 0]
               [c] in
  Social.follow_user Sample.alice d db = (Social.Returned c, db') /\
  Social.follow_user Sample.alice d db'
  = (Social.Raised HTTP_400_BAD_REQUEST Social.AlreadyFollowing, db') /\
  Social.unfollow_user Sample.alice (Social.target_wallet d) db'
  = (Social.Returned tt,
     Social.mkTables (Social.user_rows db') (Social.connection_rows db)).
Proof.
  intros db d c db'.
  assert (H : Social.follow_user Sample.alice d db = (Social.Returned c, db'))
    by reflexivity.
  split; [exact H|].
  exact (@follow_then_unfollow Sample.alice d db db' c H).
Defined.
